(** * Frequency-response utilities ([util.py]): a shallow embedding

    The functions of [util.py] that locate, repair, read and reshape the
    simulation text files are translated to Rocq functions.  Python
    exceptions are values of [PyError] carried by the [result] monad,
    text files are strings, pandas frames are records of column labels and
    rows of cells, and [float] values are IEEE binary64 numbers given by
    their sign, integer significand and binary exponent. *)

From Stdlib Require Import ZArith Ascii String List Lia Bool.
From stdpp Require Import base list strings.

(** ** Exceptions and the result monad *)

Inductive PyError : Type :=
  | IndexError
  | KeyError (key : string)
  | ValueError
  | TypeError
  | AttributeError
  | FileNotFoundError
  | ParserError.

Inductive result (A : Type) : Type :=
  | Ok (a : A)
  | Raise (e : PyError).

Arguments Ok {A} a.
Arguments Raise {A} e.

Definition bind {A B : Type} (r : result A) (k : A -> result B) : result B :=
  match r with
  | Ok a => k a
  | Raise e => Raise e
  end.

Notation "'let!' x ':=' r 'in' k" := (bind r (fun x => k))
  (at level 10, x name, r at level 100, k at level 200).

Definition is_ok {A : Type} (r : result A) : bool :=
  match r with Ok _ => true | Raise _ => false end.

Definition raises {A : Type} (r : result A) : Prop :=
  exists e, r = Raise e.

(** [for x in l: f x], collecting the results; the first exception stops
    the loop. *)
Fixpoint mapM {A B : Type} (f : A -> result B) (l : list A) : result (list B) :=
  match l with
  | [] => Ok []
  | a :: l' => let! b := f a in let! bs := mapM f l' in Ok (b :: bs)
  end.

(** ** Python strings *)

Module Py.
Local Open Scope Z_scope.

Definition TAB : string := String "009"%char "".
Definition NL : string := String "010"%char "".
Definition CR : string := String "013"%char "".

Definition ascii_eqb (a b : ascii) : bool := Ascii.eqb a b.

(** [str.isspace] on one character (code points below 256). *)
Definition isspace (c : ascii) : bool :=
  let n := nat_of_ascii c in
  ((9 <=? n) && (n <=? 13) || (28 <=? n) && (n <=? 32)
   || (n =? 133) || (n =? 160))%nat.

Fixpoint lstrip (s : string) : string :=
  match s with
  | String c s' => if isspace c then lstrip s' else s
  | EmptyString => EmptyString
  end.

Fixpoint rstrip (s : string) : string :=
  match s with
  | String c s' =>
      match rstrip s' with
      | EmptyString => if isspace c then EmptyString else String c EmptyString
      | r => String c r
      end
  | EmptyString => EmptyString
  end.

(** [s.strip()] *)
Definition strip (s : string) : string := rstrip (lstrip s).

(** [s.startswith(p)] *)
Fixpoint startswith (p s : string) : bool :=
  match p, s with
  | EmptyString, _ => true
  | String a p', String b s' => ascii_eqb a b && startswith p' s'
  | String _ _, EmptyString => false
  end.

(** [s[:n]] and [s[n:]] for [0 <= n]. *)
Fixpoint str_take (n : nat) (s : string) : string :=
  match n, s with
  | S n', String c s' => String c (str_take n' s')
  | _, _ => EmptyString
  end.

Fixpoint str_drop (n : nat) (s : string) : string :=
  match n, s with
  | S n', String _ s' => str_drop n' s'
  | _, _ => s
  end.

(** [s[:k]] for any integer [k]: a negative [k] counts from the end. *)
Definition slice_to (s : string) (k : Z) : string :=
  if k <? 0
  then str_take (Z.to_nat (Z.of_nat (String.length s) + k)) s
  else str_take (Z.to_nat k) s.

(** Position of the first occurrence of [sub] in [s], if any. *)
Fixpoint index_of (sub s : string) : option nat :=
  if startswith sub s then Some O
  else match s with
       | EmptyString => None
       | String _ s' => option_map S (index_of sub s')
       end.

(** [sub in s] *)
Definition contains (sub s : string) : bool :=
  match index_of sub s with Some _ => true | None => false end.

(** [s.find(sub)]: [-1] when [sub] does not occur. *)
Definition find (s sub : string) : Z :=
  match index_of sub s with Some i => Z.of_nat i | None => -1 end.

(** [s.split(sep)] for a non-empty separator: the pieces between the
    leftmost non-overlapping occurrences of [sep].  [skip] counts the
    characters of a separator still to be passed over, [cur] holds the
    current piece reversed. *)
Fixpoint rev_string (acc s : string) : string :=
  match s with
  | EmptyString => acc
  | String c s' => rev_string (String c acc) s'
  end.

Fixpoint split_go (sep : string) (skip : nat) (cur : string) (s : string)
  : list string :=
  match s with
  | EmptyString => [rev_string "" cur]
  | String c s' =>
      match skip with
      | S k => split_go sep k cur s'
      | O =>
          if startswith sep s
          then rev_string "" cur
                 :: split_go sep (Nat.pred (String.length sep)) "" s'
          else split_go sep O (String c cur) s'
      end
  end.

Definition split (sep s : string) : list string := split_go sep O "" s.

(** [''.join(l)] *)
Fixpoint concat (l : list string) : string :=
  match l with
  | [] => ""
  | s :: l' => s +:+ concat l'
  end.

(** [l[i]] for [0 <= i]. *)
Definition item {A : Type} (l : list A) (i : nat) : result A :=
  match l !! i with
  | Some a => Ok a
  | None => Raise IndexError
  end.

(** [l[a:b]] for [0 <= a <= b]. *)
Definition slice {A : Type} (l : list A) (a b : nat) : list A :=
  take (b - a) (drop a l).

End Py.

(** ** Floating-point numbers

    A Python [float] is an IEEE binary64 number.  A finite one is
    [Fin neg m e], the number [(-1)^neg * m * 2^e] with [0 <= m < 2^53] and
    [-1074 <= e <= 971]; every operation below returns the canonical
    representative ([2^52 <= m] unless [e = -1074]), obtained by rounding
    the exact rational result to nearest, ties to even. *)

Module Float.
Local Open Scope Z_scope.

Inductive float : Type :=
  | Fin (neg : bool) (m : Z) (e : Z)
  | Inf (neg : bool)
  | NaN.

(** [n / d] rounded to the nearest integer, ties to even ([0 <= n], [0 < d]). *)
Definition div_half_even (n d : Z) : Z :=
  let q := n / d in
  let r := n mod d in
  if 2 * r <? d then q
  else if d <? 2 * r then q + 1
  else if Z.even q then q else q + 1.

(** The binary64 number nearest to [(-1)^neg * num / den]. *)
Definition nearest (neg : bool) (num den : Z) : float :=
  if num =? 0 then Fin neg 0 (-1074) else
  let l := Z.log2 num - Z.log2 den in
  let ge := if 0 <=? l then den * 2 ^ l <=? num
            else den <=? num * 2 ^ (- l) in
  let ex := if ge then l else l - 1 in
  let e := Z.max (ex - 52) (-1074) in
  let q := if 0 <=? e then div_half_even num (den * 2 ^ e)
           else div_half_even (num * 2 ^ (- e)) den in
  let me := if q =? 2 ^ 53 then (2 ^ 52, e + 1) else (q, e) in
  if 971 <? snd me then Inf neg else Fin neg (fst me) (snd me).

(** The number nearest to [(-1)^neg * digits * 10^k].  Literals beyond the
    range of binary64 are settled without computing the power. *)
Definition of_decimal (neg : bool) (digits k : Z) : float :=
  if digits =? 0 then Fin neg 0 (-1074)
  else if 400 <? k then Inf neg
  else if (Z.log2 digits + 1) / 3 + 1 + k <? -400 then Fin neg 0 (-1074)
  else if 0 <=? k then nearest neg (digits * 10 ^ k) 1
  else nearest neg digits (10 ^ (- k)).

Definition fneg (x : float) : float :=
  match x with
  | Fin s m e => Fin (negb s) m e
  | Inf s => Inf (negb s)
  | NaN => NaN
  end.

(** [x / y] (IEEE: a zero divisor gives an infinity or NaN, as in numpy). *)
Definition fdiv (x y : float) : float :=
  match x, y with
  | NaN, _ | _, NaN => NaN
  | Inf _, Inf _ => NaN
  | Inf s, Fin t _ _ => Inf (xorb s t)
  | Fin s _ _, Inf t => Fin (xorb s t) 0 (-1074)
  | Fin s mx ex, Fin t my ey =>
      if my =? 0 then (if mx =? 0 then NaN else Inf (xorb s t))
      else if 0 <=? ex - ey
           then nearest (xorb s t) (mx * 2 ^ (ex - ey)) my
           else nearest (xorb s t) mx (my * 2 ^ (ey - ex))
  end.

(** [x * y] *)
Definition fmul (x y : float) : float :=
  match x, y with
  | NaN, _ | _, NaN => NaN
  | Inf s, Inf t => Inf (xorb s t)
  | Inf s, Fin t m _ | Fin t m _, Inf s =>
      if m =? 0 then NaN else Inf (xorb s t)
  | Fin s mx ex, Fin t my ey =>
      if 0 <=? ex + ey
      then nearest (xorb s t) (mx * my * 2 ^ (ex + ey)) 1
      else nearest (xorb s t) (mx * my) (2 ^ (- (ex + ey)))
  end.

(** [x < 0] *)
Definition ltb0 (x : float) : bool :=
  match x with
  | Fin true m _ => 0 <? m
  | Inf true => true
  | _ => false
  end.

(** [m * 2^e * 10^prec] rounded to the nearest integer, ties to even. *)
Definition scaled (prec : nat) (m e : Z) : Z :=
  if 0 <=? e then m * 2 ^ e * 10 ^ Z.of_nat prec
  else div_half_even (m * 10 ^ Z.of_nat prec) (2 ^ (- e)).

End Float.

(** ** Decimal text of floats: [float(s)], ['{:.Nf}'.format(x)], [round] *)

Module Num.
Import Float.
Local Open Scope Z_scope.

Definition digit_of (c : ascii) : option Z :=
  let n := nat_of_ascii c in
  if ((48 <=? n) && (n <=? 57))%nat then Some (Z.of_nat n - 48) else None.

Definition is_digit (c : ascii) : bool :=
  match digit_of c with Some _ => true | None => false end.

Definition char_of_digit (d : Z) : ascii := ascii_of_nat (Z.to_nat (48 + d)).

(** The decimal digits of [n >= 0], most significant first. *)
Fixpoint digits_go (fuel : nat) (n : Z) (acc : string) : string :=
  match fuel with
  | O => acc
  | S fuel' =>
      let acc' := String (char_of_digit (n mod 10)) acc in
      if n <? 10 then acc' else digits_go fuel' (n / 10) acc'
  end.

Definition digits (n : Z) : string :=
  digits_go (S (Z.to_nat (Z.log2 n))) n "".

Fixpoint zeros (n : nat) : string :=
  match n with
  | O => ""
  | S n' => String "0"%char (zeros n')
  end.

(** ['{:.<prec>f}'.format(x)] *)
Definition format_f (prec : nat) (x : float) : string :=
  match x with
  | NaN => "nan"
  | Inf s => if s then "-inf" else "inf"
  | Fin s m e =>
      let ds := digits (scaled prec m e) in
      let ds := zeros (S prec - String.length ds) +:+ ds in
      let n := (String.length ds - prec)%nat in
      (if s then "-" else "") +:+ Py.str_take n ds
        +:+ (match prec with O => "" | S _ => "." +:+ Py.str_drop n ds end)
  end.

(** [round(x, prec)]: the float nearest to the decimal that has [prec]
    places and is nearest to [x]. *)
Definition round (x : float) (prec : nat) : float :=
  match x with
  | Fin s m e => nearest s (scaled prec m e) (10 ^ Z.of_nat prec)
  | _ => x
  end.

(** A run of digits, single underscores allowed between two digits:
    its value, the number of digits and the text that follows. *)
Fixpoint scan_digits (acc : Z) (cnt : nat) (s : string) : Z * nat * string :=
  match s with
  | String c s' =>
      match digit_of c with
      | Some dg => scan_digits (acc * 10 + dg) (S cnt) s'
      | None =>
          match cnt, s' with
          | S _, String c2 _ =>
              if Py.ascii_eqb c "_" && is_digit c2
              then scan_digits acc cnt s' else (acc, cnt, s)
          | _, _ => (acc, cnt, s)
          end
      end
  | EmptyString => (acc, cnt, s)
  end.

Definition lower (c : ascii) : ascii :=
  let n := nat_of_ascii c in
  if ((65 <=? n) && (n <=? 90))%nat then ascii_of_nat (n + 32) else c.

Fixpoint lowercase (s : string) : string :=
  match s with
  | String c s' => String (lower c) (lowercase s')
  | EmptyString => EmptyString
  end.

(** Optional sign: [true] for a minus. *)
Definition scan_sign (s : string) : bool * string :=
  match s with
  | String "-" s' => (true, s')
  | String "+" s' => (false, s')
  | _ => (false, s)
  end.

(** The exponent part [e[+-]digits], or nothing. *)
Definition scan_exponent (s : string) : option (Z * string) :=
  match s with
  | String c s' =>
      if Py.ascii_eqb (lower c) "e" then
        let (sg, s1) := scan_sign s' in
        match scan_digits 0 O s1 with
        | (_, O, _) => None
        | (v, S _, rest) => Some (if sg then - v else v, rest)
        end
      else Some (0, s)
  | EmptyString => Some (0, s)
  end.

(** A decimal literal without sign. *)
Definition scan_number (neg : bool) (s : string) : option float :=
  let '(ip, ipn, r1) := scan_digits 0 O s in
  let '(fp, fpn, r2) :=
    match r1 with
    | String "." r => scan_digits 0 O r
    | _ => (0, O, r1)
    end in
  let mantissa :=
    match r1 with
    | String "." _ => ip * 10 ^ Z.of_nat fpn + fp
    | _ => ip
    end in
  match (ipn + fpn)%nat with
  | O => None
  | S _ =>
      match scan_exponent r2 with
      | Some (ex, EmptyString) =>
          Some (of_decimal neg mantissa (ex - Z.of_nat fpn))
      | _ => None
      end
  end.

(** [float(s)] for a string [s]; [None] stands for [ValueError]. *)
Definition py_float (s : string) : option float :=
  let (neg, body) := scan_sign (Py.strip s) in
  let lc := lowercase body in
  if String.eqb lc "inf" || String.eqb lc "infinity" then Some (Inf neg)
  else if String.eqb lc "nan" then Some NaN
  else scan_number neg body.

End Num.

(** ** Text files *)

Module File.

(** Reading in text mode translates the line endings [\r\n] and [\r] to
    [\n] (universal newlines). *)
Fixpoint universal_newlines (s : string) : string :=
  match s with
  | String c s' =>
      if Py.ascii_eqb c "013" then
        match s' with
        | String c2 s'' =>
            if Py.ascii_eqb c2 "010"
            then String "010" (universal_newlines s'')
            else String "010" (universal_newlines s')
        | EmptyString => String "010" EmptyString
        end
      else String c (universal_newlines s')
  | EmptyString => EmptyString
  end.

(** The lines of a text, each with its final [\n] (the last line may lack
    one). *)
Fixpoint lines (s : string) : list string :=
  match s with
  | String c s' =>
      if Py.ascii_eqb c "010" then String c "" :: lines s'
      else match lines s' with
           | [] => [String c ""]
           | l :: ls => String c l :: ls
           end
  | EmptyString => []
  end.

(** [f.readlines()] on a file whose bytes are [content]. *)
Definition readlines (content : string) : list string :=
  lines (universal_newlines content).

End File.

(** ** pandas frames *)

Import Float.

Inductive cell : Type :=
  | PyNone
  | PyStr (s : string)
  | PyFloat (x : float)
  | PyBool (b : bool).

Record DataFrame : Type := mkDataFrame {
  columns : list string;
  values : list (list cell)
}.

Module Pd.

Definition width (rows : list (list cell)) : nat :=
  foldr (fun r w => Nat.max (length r) w) O rows.

Definition pad (w : nat) (r : list cell) : list cell :=
  r ++ replicate (w - length r) PyNone.

(** The positions of the label [name]. *)
Fixpoint positions (name : string) (cols : list string) (i : nat) : list nat :=
  match cols with
  | [] => []
  | c :: cols' =>
      if String.eqb c name then i :: positions name cols' (S i)
      else positions name cols' (S i)
  end.

(** [df[name]] as a Series: the label must be there ([KeyError] if not)
    and name one column (for a repeated label pandas returns a frame,
    which lacks the Series methods called on it here). *)
Definition getitem (df : DataFrame) (name : string) : result (list cell) :=
  match positions name (columns df) O with
  | [] => Raise (KeyError name)
  | [i] => mapM (fun r => Py.item r i) (values df)
  | _ :: _ :: _ => Raise AttributeError
  end.

(** [df[name] = col] for a label that names one column of [df]. *)
Definition setitem (df : DataFrame) (name : string) (col : list cell)
  : result DataFrame :=
  match positions name (columns df) O with
  | [i] =>
      if (length col =? length (values df))%nat
      then Ok (mkDataFrame (columns df)
                 (zip_with (fun r c => <[i:=c]> r) (values df) col))
      else Raise ValueError
  | _ => Raise ValueError
  end.

(** [series.astype(float)] on a column of objects: [None] becomes NaN and
    a string is read as [float(s)]. *)
Definition to_float (c : cell) : result float :=
  match c with
  | PyNone => Ok NaN
  | PyStr s =>
      match Num.py_float s with
      | Some x => Ok x
      | None => Raise ValueError
      end
  | PyFloat x => Ok x
  | PyBool b => Ok (if b then Fin false (2 ^ 52) (-52) else Fin false 0 (-1074))%Z
  end.

Definition astype_float (col : list cell) : result (list float) :=
  mapM to_float col.

(** [series.astype(str)] on a column of strings. *)
Definition astype_str (col : list string) : list string := col.

(** [pd.DataFrame(rows, columns=cols)] for a list of rows: short rows are
    filled with [None]; the widest row must have as many fields as there
    are labels. *)
Definition DataFrame (rows : list (list cell)) (cols : list string)
  : result DataFrame :=
  match rows with
  | [] => Ok (mkDataFrame cols [])
  | _ :: _ =>
      if (width rows =? length cols)%nat
      then Ok (mkDataFrame cols (map (pad (width rows)) rows))
      else Raise ValueError
  end.

End Pd.

(** ** The description report parsers *)

Definition len (s : string) : nat := String.length s.

(** The inner function [d]: a tab is put before the first line and the
    second line goes. *)
Definition d (lines : list string) : result (list string) :=
  let! l0 := Py.item lines 0 in
  let lines := <[O := Py.TAB +:+ l0]> lines in
  let lines := take 1 lines ++ drop 2 lines in
  Ok lines.

(** [columns[-1] = columns[-1] + "_Angle"] *)
Definition append_to_last (columns : list string) (suffix : string)
  : result (list string) :=
  match length columns with
  | O => Raise IndexError
  | S n =>
      let! c := Py.item columns n in
      Ok (<[n := c +:+ suffix]> columns)
  end.

(** The column labels [to_df] draws from the first line of a block. *)
Definition header_labels (row0 : string) : result (list string) :=
  let columns := Py.split Py.TAB row0 in
  let! columns := Py.item (map (Py.split " ") (drop 1 columns)) 0 in
  let columns := take (length columns - 1) columns in
  let! columns := append_to_last columns "_Angle" in
  let newcolumns := List.filter (fun c => (1 <? len c)%nat) columns in
  Ok newcolumns.

(** The value tokens [to_df] draws from the other lines. *)
Definition value_rows (rows : list string) : list (list string) :=
  let rows := map (Py.split " ") rows in
  let rows := map (drop 1) rows in
  let newrows := map (List.filter (fun r2 => (1 <? len r2)%nat)) rows in
  newrows.

(** The part of [to_df] that both parsers share: from the lines of a block
    to the column labels and the rows of value tokens. *)
Definition to_df_rows (lines : list string)
  : result (list string * list (list string)) :=
  let rows := map (Py.split "\s+") lines in
  let! rows := mapM (fun r => Py.item r 0) rows in
  let! row0 := Py.item rows 0 in
  let! columns := header_labels row0 in
  let rows := drop 1 rows in
  Ok (columns, value_rows rows).

(** [l[1], l[2] = l[2], l[1]] *)
Definition swap_1_2 {A : Type} (l : list A) : result (list A) :=
  let! x2 := Py.item l 2 in
  let! x1 := Py.item l 1 in
  Ok (<[2 := x1]> (<[1 := x2]> l)).

(** The three statements that format one column: [astype(float)] and the
    first [map], [astype(str)], the second [map]. *)
Definition format_column (df : DataFrame) (name : string)
    (fmt : float -> string) (cut : string -> result string)
  : result DataFrame :=
  let! col := Pd.getitem df name in
  let! xs := Pd.astype_float col in
  let! df := Pd.setitem df name (map (fun x => PyStr (fmt x)) xs) in
  let! col := Pd.getitem df name in
  let! ss := mapM (fun c => match c with
                            | PyStr s => Ok s
                            | _ => Raise TypeError
                            end) col in
  let ss := Pd.astype_str ss in
  let! df := Pd.setitem df name (map PyStr ss) in
  let! cs := mapM cut ss in
  Pd.setitem df name (map PyStr cs).

(** The lambdas of [to_df]. *)
Definition fmt_frequency (x : float) : string := Num.format_f 4 x.
Definition fmt_amplitude4 (x : float) : string := Num.format_f 4 (Num.round x 4).
Definition fmt_amplitude6 (x : float) : string := Num.format_f 6 (Num.round x 6).
Definition fmt_phase (x : float) : string := Num.format_f 4 (Num.round x 3).

Definition cut (n : nat) (x : string) : result string := Ok (Py.str_take n x).

Definition cut_phase (x : string) : result string :=
  match Num.py_float x with
  | Some y => Ok (if ltb0 y then Py.str_take 6 x else Py.str_take 5 x)
  | None => Raise ValueError
  end.

Definition str_cells (rows : list (list string)) : list (list cell) :=
  map (map PyStr) rows.

Module Acceleration.

(** The exchange of the second and third columns, labels and values. *)
Definition reorder (df : DataFrame) : result DataFrame :=
  let columns := columns df in
  let! columns := swap_1_2 columns in
  let rows := values df in
  let! rows := mapM swap_1_2 rows in
  Pd.DataFrame rows columns.

Definition to_df (lines : list string) : result DataFrame :=
  let! cr := to_df_rows lines in
  let! df := Pd.DataFrame (str_cells (snd cr)) (fst cr) in
  let! df2 := reorder df in
  let! df2 := format_column df2 "Frequency" fmt_frequency (cut 5) in
  let! df2 := format_column df2 "Amplitude" fmt_amplitude4 (cut 6) in
  let! df2 := format_column df2 "Amplitude_g" fmt_amplitude4 (cut 6) in
  let! df2 := format_column df2 "Phase_Angle" fmt_phase cut_phase in
  Ok df2.

End Acceleration.

Module VelocityDeformation.

Definition to_df (lines : list string) : result DataFrame :=
  let! cr := to_df_rows lines in
  let! df := Pd.DataFrame (str_cells (snd cr)) (fst cr) in
  let! df2 := Pd.DataFrame (str_cells (snd cr)) (fst cr) in
  let! df2 := format_column df2 "Frequency" fmt_frequency (cut 5) in
  let! df2 := format_column df2 "Amplitude" fmt_amplitude6 (cut 8) in
  let! df2 := format_column df2 "Phase_Angle" fmt_phase cut_phase in
  Ok df2.

End VelocityDeformation.

(** The named tuples with the fields [DIMM1] to [DIMM8]. *)
Record Dimms (A : Type) : Type := mkDimms {
  DIMM1 : A; DIMM2 : A; DIMM3 : A; DIMM4 : A;
  DIMM5 : A; DIMM6 : A; DIMM7 : A; DIMM8 : A
}.

Arguments mkDimms {A}.
Arguments DIMM1 {A}. Arguments DIMM2 {A}. Arguments DIMM3 {A}.
Arguments DIMM4 {A}. Arguments DIMM5 {A}. Arguments DIMM6 {A}.
Arguments DIMM7 {A}. Arguments DIMM8 {A}.

Definition dimms_list {A : Type} (t : Dimms A) : list A :=
  [DIMM1 t; DIMM2 t; DIMM3 t; DIMM4 t; DIMM5 t; DIMM6 t; DIMM7 t; DIMM8 t].

(** Both parsers, with [to_df] as the one difference: [content] is the text
    of the description file. *)
Definition load_dfs_from_description
    (to_df : list string -> result DataFrame) (content : string)
  : result (Dimms DataFrame) :=
  let lines := File.readlines content in
  let lines := map Py.strip lines in
  let lines := drop 6 lines in
  let DIMM1_lines := Py.slice lines 0 9 in
  let DIMM2_lines := Py.slice lines 14 23 in
  let DIMM3_lines := Py.slice lines 28 37 in
  let DIMM4_lines := Py.slice lines 42 51 in
  let DIMM5_lines := Py.slice lines 56 65 in
  let DIMM6_lines := Py.slice lines 70 79 in
  let DIMM7_lines := Py.slice lines 84 93 in
  let DIMM8_lines := Py.slice lines 98 107 in
  let! DIMM1_lines := d DIMM1_lines in
  let! DIMM2_lines := d DIMM2_lines in
  let! DIMM3_lines := d DIMM3_lines in
  let! DIMM4_lines := d DIMM4_lines in
  let! DIMM5_lines := d DIMM5_lines in
  let! DIMM6_lines := d DIMM6_lines in
  let! DIMM7_lines := d DIMM7_lines in
  let! DIMM8_lines := d DIMM8_lines in
  let! DIMM1_df := to_df DIMM1_lines in
  let! DIMM2_df := to_df DIMM2_lines in
  let! DIMM3_df := to_df DIMM3_lines in
  let! DIMM4_df := to_df DIMM4_lines in
  let! DIMM5_df := to_df DIMM5_lines in
  let! DIMM6_df := to_df DIMM6_lines in
  let! DIMM7_df := to_df DIMM7_lines in
  let! DIMM8_df := to_df DIMM8_lines in
  Ok (mkDimms DIMM1_df DIMM2_df DIMM3_df DIMM4_df
              DIMM5_df DIMM6_df DIMM7_df DIMM8_df).

Definition load_dfs_from_description__acceleration :=
  load_dfs_from_description Acceleration.to_df.

Definition load_dfs_from_description__velocity_deformation :=
  load_dfs_from_description VelocityDeformation.to_df.

(** ** Reading the raw result files *)

Module Csv.

(** The delimiters of [sep=r'\s+']: blanks and tabs (and the line end). *)
Definition is_delim (c : ascii) : bool :=
  Py.ascii_eqb c " " || Py.ascii_eqb c "009" || Py.ascii_eqb c "010".

(** The fields of one line. *)
Fixpoint fields (s : string) : list string :=
  match s with
  | String c s' =>
      if is_delim c then fields s'
      else match s' with
           | String c2 _ =>
               if is_delim c2 then String c "" :: fields s'
               else match fields s' with
                    | t :: ts => String c t :: ts
                    | [] => [String c ""]
                    end
           | EmptyString => [String c ""]
           end
  | EmptyString => []
  end.

(** The default markers of a missing value. *)
Definition na_values : list string :=
  [ ""; "#N/A"; "#N/A N/A"; "#NA"; "-1.#IND"; "-1.#QNAN"; "-NaN"; "-nan";
    "1.#IND"; "1.#QNAN"; "<NA>"; "N/A"; "NA"; "NULL"; "NaN"; "None"; "n/a";
    "nan"; "null" ].

Definition is_na (t : option string) : bool :=
  match t with
  | None => true
  | Some s => existsb (String.eqb s) na_values
  end.

(** The number a field stands for: a decimal literal or an infinity. *)
Definition to_double (s : string) : option float :=
  let (neg, body) := Num.scan_sign s in
  let lc := Num.lowercase body in
  if String.eqb lc "inf" || String.eqb lc "infinity" then Some (Inf neg)
  else if Py.contains "_" body then None
  else Num.scan_number neg body.

Definition to_bool (s : string) : option bool :=
  if existsb (String.eqb s) ["True"; "TRUE"; "true"] then Some true
  else if existsb (String.eqb s) ["False"; "FALSE"; "false"] then Some false
  else None.

Definition is_number (t : option string) : bool :=
  match t with
  | Some s => match to_double s with Some _ => true | None => false end
  | None => false
  end.

Definition is_bool (t : option string) : bool :=
  match t with
  | Some s => match to_bool s with Some _ => true | None => false end
  | None => false
  end.

Inductive dtype : Type := Float64 | Boolean | Object.

(** The type pandas gives a column: numbers if every field is a number or
    missing, else booleans, else objects. *)
Definition infer (col : list (option string)) : dtype :=
  if forallb (fun t => is_na t || is_number t) col then Float64
  else if forallb (fun t => is_na t || is_bool t) col then Boolean
  else Object.

Definition convert (ty : dtype) (t : option string) : cell :=
  if is_na t then PyFloat NaN
  else match t with
       | None => PyFloat NaN
       | Some s =>
           match ty with
           | Float64 =>
               match to_double s with
               | Some x => PyFloat x
               | None => PyStr s
               end
           | Boolean =>
               match to_bool s with
               | Some b => PyBool b
               | None => PyStr s
               end
           | Object => PyStr s
           end
       end.

Definition column (j : nat) (table : list (list (option string)))
  : list (option string) :=
  map (fun r => default None (r !! j)) table.

(** The data rows of a text read with [skiprows=1]: the fields of every
    line after the first, blank lines left out. *)
Definition data_rows (content : string) : list (list string) :=
  List.filter (fun r => (0 <? length r)%nat)
    (map fields (drop 1 (File.readlines content))).

(** [pd.read_csv(path, sep=r'\s+', skiprows=1, names=names)] on a file
    whose text is [content] and holds no quote character.  The first data
    row fixes the number of fields (at least [len(names)]), a later row
    with more fields is an error and a shorter one is filled with missing
    values; fields in excess of the names, on the left, form the index and
    are not kept here. *)
Definition read_csv (content : string) (names : list string)
  : result DataFrame :=
  match data_rows content with
  | [] => Ok (mkDataFrame names [])
  | r0 :: _ =>
      let rows := data_rows content in
      let w := Nat.max (length r0) (length names) in
      if existsb (fun r => (w <? length r)%nat) rows then Raise ParserError
      else
        let table :=
          map (fun r => drop (w - length names)
                          (map Some r ++ replicate (w - length r) None))
              rows in
        let types :=
          map (fun j => infer (column j table)) (seq 0 (length names)) in
        Ok (mkDataFrame names (map (zip_with convert types) table))
  end.

End Csv.

Module Series.

(** One element of [series / c] or [series * c] for a float [c]. *)
Definition arith (op : float -> float -> float) (c : float) (v : cell)
  : result cell :=
  match v with
  | PyFloat x => Ok (PyFloat (op x c))
  | PyBool b =>
      Ok (PyFloat (op (if b then Fin false (2 ^ 52) (-52)
                       else Fin false 0 (-1074))%Z c))
  | PyStr _ => Raise TypeError
  | PyNone => Raise TypeError
  end.

Definition truediv (col : list cell) (c : float) : result (list cell) :=
  mapM (arith fdiv c) col.

Definition mul (col : list cell) (c : float) : result (list cell) :=
  mapM (arith fmul c) col.

End Series.

(** [df.insert(loc, name, col)] *)
Definition insert_column (df : DataFrame) (loc : nat) (name : string)
    (col : list cell) : result DataFrame :=
  if existsb (String.eqb name) (columns df) then Raise ValueError
  else if (length (columns df) <? loc)%nat then Raise IndexError
  else if negb (length col =? length (values df))%nat then Raise ValueError
  else Ok (mkDataFrame
             (take loc (columns df) ++ name :: drop loc (columns df))
             (zip_with (fun r c => take loc r ++ c :: drop loc r)
                       (values df) col)).

(** The float literals [9.81] and [1e3]. *)
Definition f_9_81 : float := Fin false 5522539043063071 (-49).
Definition f_1e3 : float := Fin false 8796093022208000 (-43).

Definition names3 : list string := ["Frequency"; "Amplitude"; "Phase Angle"].

(** What the loops write back to a raw file. *)
Definition deformation_line (line : string) : string :=
  if Py.contains "Angle" line
  then Py.slice_to line (Py.find line "Angle" + 5) +:+ " [deg]" +:+ Py.NL
  else line.

Definition rewrite_deformation (content : string) : string :=
  let lines := File.readlines content in
  Py.concat (map deformation_line lines).

Definition acceleration_header : string :=
  Py.TAB +:+ "Frequency [Hz]" +:+ Py.TAB +:+ "Amplitude [m/s2]"
    +:+ Py.TAB +:+ "Phase Angle [deg]" +:+ Py.NL.

Definition velocity_header : string :=
  Py.TAB +:+ "Frequency [Hz]" +:+ Py.TAB +:+ "Amplitude [m/s]"
    +:+ Py.TAB +:+ "Phase Angle [deg]" +:+ Py.NL.

Definition header_line (header : string) (lines : list string)
    (line : string) : string :=
  match lines with
  | l0 :: _ => if String.eqb line l0 then header else line
  | [] => line
  end.

Definition rewrite_header (header content : string) : string :=
  let lines := File.readlines content in
  Py.concat (map (header_line header lines) lines).

(** What each loop does to a frame once it is read. *)
Definition scale_deformation (df : DataFrame) : result DataFrame :=
  let! col := Pd.getitem df "Amplitude" in
  let! col := Series.mul col f_1e3 in
  Pd.setitem df "Amplitude" col.

Definition add_amplitude_g (df : DataFrame) : result DataFrame :=
  let! col := Pd.getitem df "Amplitude" in
  let! col := Series.truediv col f_9_81 in
  insert_column df 1 "Amplitude_g" col.

Inductive Quantity : Type := velocity | deformation | acceleration.

Definition quantity_name (q : Quantity) : string :=
  match q with
  | velocity => "velocity"
  | deformation => "deformation"
  | acceleration => "acceleration"
  end.

Definition rewrite_file (q : Quantity) (content : string) : string :=
  match q with
  | velocity => rewrite_header velocity_header content
  | deformation => rewrite_deformation content
  | acceleration => rewrite_header acceleration_header content
  end.

Definition normalize (q : Quantity) (df : DataFrame) : result DataFrame :=
  match q with
  | velocity => Ok df
  | deformation => scale_deformation df
  | acceleration => add_amplitude_g df
  end.

(** The body of the loops over the files of one axis, on the text of the
    file: the text written back and the frame. *)
Definition read_file (q : Quantity) (content : string)
  : string * result DataFrame :=
  let content' := rewrite_file q content in
  (content', let! df := Csv.read_csv content' names3 in normalize q df).

(** ** The folders *)

(** A folder tree: what [os.listdir] returns for a path, in the order in
    which the system lists the entries, and the text of each file. *)
Record FileSystem : Type := mkFS {
  listing : string -> option (list string);
  content_of : string -> option string
}.

Definition write_file (fs : FileSystem) (path content : string) : FileSystem :=
  mkFS (listing fs)
       (fun p => if String.eqb p path then Some content else content_of fs p).

Definition listdir (fs : FileSystem) (path : string) : result (list string) :=
  match listing fs path with
  | Some l => Ok l
  | None => Raise FileNotFoundError
  end.

Record Axes (A : Type) : Type := mkAxes { x : A; y : A; z : A }.
Arguments mkAxes {A}.
Arguments x {A}. Arguments y {A}. Arguments z {A}.

(** [re.search('.*\.txt', file)]: the pattern is found exactly when
    [.txt] occurs in the name. *)
Definition search_txt (file : string) : bool := Py.contains ".txt" file.

Definition data_path (parent_folder : string) (q : Quantity) : string :=
  parent_folder +:+ "/data/" +:+ quantity_name q +:+ "/".

(** [get_deformation_data_files] and its two sisters. *)
Fixpoint sort_by_axis (files : list string) (acc : Axes (list string))
  : Axes (list string) :=
  match files with
  | [] => acc
  | file :: files' =>
      sort_by_axis files'
        (if search_txt file then
           if Py.contains "x.txt" file then mkAxes (x acc ++ [file]) (y acc) (z acc)
           else if Py.contains "y.txt" file then mkAxes (x acc) (y acc ++ [file]) (z acc)
           else if Py.contains "z.txt" file then mkAxes (x acc) (y acc) (z acc ++ [file])
           else acc
         else acc)
  end.

Definition get_data_files (fs : FileSystem) (parent_folder : string)
    (q : Quantity) : result (Axes (list string)) :=
  let! files := listdir fs (data_path parent_folder q) in
  Ok (sort_by_axis files (mkAxes [] [] [])).

(** One loop [for file in data_files.<axis>]. *)
Fixpoint read_files (q : Quantity) (folder : string) (files : list string)
    (fs : FileSystem) : result (list DataFrame) * FileSystem :=
  match files with
  | [] => (Ok [], fs)
  | file :: files' =>
      let path := folder +:+ file in
      match content_of fs path with
      | None => (Raise FileNotFoundError, fs)
      | Some content =>
          let (content', r) := read_file q content in
          let fs := write_file fs path content' in
          match r with
          | Raise e => (Raise e, fs)
          | Ok df =>
              let (rs, fs) := read_files q folder files' fs in
              (let! dfs := rs in Ok (df :: dfs), fs)
          end
      end
  end.

(** A named tuple of eight fields built from [*frames]. *)
Definition dimms {A : Type} (l : list A) : result (Dimms A) :=
  match l with
  | [a1; a2; a3; a4; a5; a6; a7; a8] => Ok (mkDimms a1 a2 a3 a4 a5 a6 a7 a8)
  | _ => Raise TypeError
  end.

(** [get_deformation_data], [get_acceleration_data], [get_velocity_data]. *)
Definition get_data (q : Quantity) (parent_folder : string) (fs : FileSystem)
  : result (Axes (Dimms DataFrame)) * FileSystem :=
  match get_data_files fs parent_folder q with
  | Raise e => (Raise e, fs)
  | Ok data_files =>
      let folder := data_path parent_folder q in
      let (rx, fs) := read_files q folder (x data_files) fs in
      match rx with
      | Raise e => (Raise e, fs)
      | Ok dataframes_x =>
          let (ry, fs) := read_files q folder (y data_files) fs in
          match ry with
          | Raise e => (Raise e, fs)
          | Ok dataframes_y =>
              let (rz, fs) := read_files q folder (z data_files) fs in
              match rz with
              | Raise e => (Raise e, fs)
              | Ok dataframes_z =>
                  (let! tx := dimms dataframes_x in
                   let! ty := dimms dataframes_y in
                   let! tz := dimms dataframes_z in
                   Ok (mkAxes tx ty tz), fs)
              end
          end
      end
  end.

Definition get_deformation_data := get_data deformation.
Definition get_acceleration_data := get_data acceleration.
Definition get_velocity_data := get_data velocity.

(** ** The modal frequencies *)

(** [float(mode)] for an element of the frame. *)
Definition float_of_cell (c : cell) : result float :=
  match c with
  | PyStr s =>
      match Num.py_float s with
      | Some v => Ok v
      | None => Raise ValueError
      end
  | PyFloat v => Ok v
  | PyBool b => Ok (if b then Fin false (2 ^ 52) (-52) else Fin false 0 (-1074))%Z
  | PyNone => Raise TypeError
  end.

(** [get_modal_frequencies], on the text of [modes.txt]. *)
Definition get_modal_frequencies (content : string) : result (list float) :=
  let lines := File.readlines content in
  let lines := map Py.strip lines in
  let! line0 := Py.item lines 0 in
  let col_names := Py.split Py.TAB line0 in
  let rows := map (Py.split Py.TAB) (drop 1 lines) in
  let! df := Pd.DataFrame (str_cells rows) col_names in
  let! col := Pd.getitem df "Frequency" in
  let! modes := mapM float_of_cell col in
  Ok modes.

(** ** Notions the statements below are written with *)

(** *** Frames *)

(** A list with its second and third elements exchanged. *)
Definition exchange {A : Type} (l : list A) : list A :=
  match l with
  | a :: b :: c :: l' => a :: c :: b :: l'
  | _ => l
  end.

(** Every row has one value per label. *)
Definition rectangular (df : DataFrame) : Prop :=
  Forall (fun r => length r = length (columns df)) (values df).

Definition three (r : list cell) : Prop := exists f a p, r = [f; a; p].

Definition float_row (r : list cell) : Prop :=
  exists f a p, r = [PyFloat f; PyFloat a; PyFloat p].

Definition is_float_cell (c : cell) : bool :=
  match c with PyFloat _ => true | _ => false end.

(** *** Decimal texts *)

Fixpoint digit_string (s : string) : bool :=
  match s with
  | String c s' => Num.is_digit c && digit_string s'
  | EmptyString => true
  end.

Fixpoint no_space (s : string) : bool :=
  match s with
  | String c s' => negb (Py.isspace c) && no_space s'
  | EmptyString => true
  end.

(** A text at which a run of digits ends. *)
Definition stops (r : string) : Prop :=
  match r with
  | EmptyString => True
  | String c _ => Num.is_digit c = false /\ Py.ascii_eqb c "_" = false
  end.

Definition get_ok (r : result string) : string :=
  match r with Ok s => s | Raise _ => "" end.

(** The float a token stands for (NaN for a token [float] refuses). *)
Definition the_float (v : string) : float :=
  match Num.py_float v with Some x => x | None => NaN end.

Definition is_float (v : string) : bool :=
  match Num.py_float v with Some _ => true | None => false end.

(** *** Description reports *)

Definition to_df_of (q : Quantity) : list string -> result DataFrame :=
  match q with
  | acceleration => Acceleration.to_df
  | _ => VelocityDeformation.to_df
  end.

(** The parser for the reports of a quantity. *)
Definition load_dfs (q : Quantity) : string -> result (Dimms DataFrame) :=
  load_dfs_from_description (to_df_of q).

(** The lines of a report after its preamble, stripped. *)
Definition report_lines (content : string) : list string :=
  drop 6 (map Py.strip (File.readlines content)).

(** The labels [to_df] reads in the first line of a block. *)
Definition block_labels (block : list string) : result (list string) :=
  let! lines := d block in
  let! cr := to_df_rows lines in
  Ok (fst cr).

Definition nonempty (s : string) : bool := (0 <? len s)%nat.

(** The value fields of a statistics line: the words after the label. *)
Definition row_values (line : string) : list string :=
  List.filter nonempty (drop 1 (Py.split " " line)).

Definition tok (j : nat) (line : string) : string := nth j (row_values line) "".

Definition value_field (v : string) : bool := (1 <? len v)%nat && is_float v.

(** The labels a report prints before [Phase Angle], and the labels of the
    table made from it. *)
Definition printed_labels (q : Quantity) : list string :=
  match q with
  | acceleration => ["Frequency"; "Amplitude_g"; "Amplitude"]
  | _ => ["Frequency"; "Amplitude"]
  end.

Definition schema (q : Quantity) : list string :=
  match q with
  | acceleration => ["Frequency"; "Amplitude"; "Amplitude_g"; "Phase_Angle"]
  | _ => ["Frequency"; "Amplitude"; "Phase_Angle"]
  end.

Definition statistics : list string :=
  ["mean"; "std"; "min"; "25%"; "50%"; "75%"; "max"].

(** The texts of the cells of a table. *)
Definition frequency_text (v : string) : string :=
  Py.str_take 5 (fmt_frequency (the_float v)).

Definition amplitude4_text (v : string) : string :=
  Py.str_take 6 (fmt_amplitude4 (the_float v)).

Definition amplitude6_text (v : string) : string :=
  Py.str_take 8 (fmt_amplitude6 (the_float v)).

Definition phase_text (v : string) : string :=
  let s := fmt_phase (the_float v) in
  if ltb0 (the_float s) then Py.str_take 6 s else Py.str_take 5 s.

(** The row of a table made from a statistics line. *)
Definition table_row (q : Quantity) (line : string) : list cell :=
  match q with
  | acceleration =>
      [ PyStr (frequency_text (tok 0 line)); PyStr (amplitude4_text (tok 2 line));
        PyStr (amplitude4_text (tok 1 line)); PyStr (phase_text (tok 3 line)) ]
  | _ =>
      [ PyStr (frequency_text (tok 0 line)); PyStr (amplitude6_text (tok 1 line));
        PyStr (phase_text (tok 2 line)) ]
  end.

(** A well-formed header: the printed labels, then [Phase Angle] with one
    blank, no tab and no text [\s+]. *)
Definition wf_header (q : Quantity) (h : string) : bool :=
  let toks := Py.split " " h in
  let n := (length toks - 2)%nat in
  negb (Py.contains "\s+" h) && negb (Py.contains Py.TAB h)
  && bool_decide (drop n toks = ["Phase"; "Angle"])
  && bool_decide (List.filter nonempty (take n toks) = printed_labels q).

(** A well-formed statistics line: its label, then one float of two
    characters or more per column. *)
Definition wf_row (q : Quantity) (label line : string) : bool :=
  negb (Py.contains "\s+" line)
  && bool_decide (Py.split " " line !! O = Some label)
  && (length (row_values line) =? length (schema q))%nat
  && forallb value_field (row_values line).

Definition wf_rows (q : Quantity) (lines : list string) : bool :=
  (length lines =? length statistics)%nat
  && forallb (fun p => wf_row q (fst p) (snd p)) (zip statistics lines).

(** A well-formed block: the header, the line of counts, the seven
    statistics. *)
Definition wf_block (q : Quantity) (block : list string) : bool :=
  match block with
  | h :: _ :: rows => wf_header q h && wf_rows q rows
  | _ => false
  end.

(** A report with eight well-formed blocks. *)
Definition wf_report (q : Quantity) (content : string) : bool :=
  forallb (fun i => wf_block q (Py.slice (report_lines content) (14 * i) (14 * i + 9)))
          (seq 0 8).

(** What a well-formed statistics line provides. *)
Definition good_row (q : Quantity) (line : string) : Prop :=
  Py.contains "\s+" line = false /\
  length (row_values line) = length (schema q) /\
  forallb value_field (row_values line) = true.

(** *** Lines of a text *)

(** The character [c] does not occur in [s]. *)
Fixpoint lacks (c : ascii) (s : string) : bool :=
  match s with
  | String a s' => negb (Py.ascii_eqb a c) && lacks c s'
  | EmptyString => true
  end.

(** A list of lines as [readlines] returns them: every line ends with a
    line feed, except perhaps the last, and holds no other line feed. *)
Inductive line_list : list string -> Prop :=
  | line_list_nil : line_list []
  | line_list_last (body : string) :
      lacks "010" body = true -> body <> "" -> line_list [body]
  | line_list_cons (body : string) (l : list string) :
      lacks "010" body = true -> line_list l ->
      line_list ((body +:+ Py.NL) :: l).

Definition complete (t : string) : Prop :=
  exists body, lacks "010" body = true /\ t = body +:+ Py.NL.

Definition angle_tail : string := " [deg]" +:+ Py.NL.

(** *** Raw files and folders *)

Definition numeric (field : string) : bool :=
  match Csv.to_double field with Some _ => true | None => false end.

Definition na_or_number (t : option string) : bool :=
  Csv.is_na t || Csv.is_number t.

(** The files [sort_by_axis] puts on each axis. *)
Definition is_x (file : string) : bool :=
  search_txt file && Py.contains "x.txt" file.

Definition is_y (file : string) : bool :=
  search_txt file && negb (Py.contains "x.txt" file) && Py.contains "y.txt" file.

Definition is_z (file : string) : bool :=
  search_txt file && negb (Py.contains "x.txt" file)
  && negb (Py.contains "y.txt" file) && Py.contains "z.txt" file.

Definition modes_lines (content : string) : list string :=
  map Py.strip (File.readlines content).


(** ** Sample inputs *)

Definition unlines (l : list string) : string :=
  Py.concat (map (fun s => s +:+ Py.NL) l).

(** A report as [describe] writes it: the title, a rule and two empty
    lines, then for each sensor its name, a rule and the nine lines pandas
    prints, with three empty lines between two sensors. *)
Definition report_of (title rule : string) (block : list string) : list string :=
  let sensor n := ("DIMM" +:+ n) :: "-----" :: block in
  [title; rule; ""; ""]
    ++ sensor "1" ++ [""; ""; ""] ++ sensor "2" ++ [""; ""; ""]
    ++ sensor "3" ++ [""; ""; ""] ++ sensor "4" ++ [""; ""; ""]
    ++ sensor "5" ++ [""; ""; ""] ++ sensor "6" ++ [""; ""; ""]
    ++ sensor "7" ++ [""; ""; ""] ++ sensor "8".

Definition acceleration_block : list string :=
  [ "        Frequency  Amplitude_g   Amplitude  Phase Angle";
    "count  200.000000   200.000000  200.000000   200.000000";
    "mean    12.345670     0.203874    2.000004   -12.345600";
    "std      5.787918     0.101937    1.000002    90.500000";
    "min      1.000000     0.001020    0.010006  -179.999500";
    "25%      5.750000     0.050968    0.500000   -90.000000";
    "50%     10.500000     0.101937    1.000000     0.000000";
    "75%     15.250000     0.152905    1.500000    90.000000";
    "max     20.000000     0.611621    6.000000   179.123456" ].

Definition acceleration_lines : list string :=
  report_of "Acceleration (Z) Description" "----------------------------"
            acceleration_block.

Definition acceleration_report : string := unlines acceleration_lines.

(** The same report without its last line: 112 lines. *)
Definition short_report : string := unlines (take 112 acceleration_lines).

(** A report whose blocks print [Freq] for the first column. *)
Definition mislabelled_report : string :=
  unlines (report_of "Acceleration (Z) Description" "----------------------------"
             ("        Freq  Amplitude_g   Amplitude  Phase Angle"
                :: drop 1 acceleration_block)).

Definition deformation_block : list string :=
  [ "        Frequency   Amplitude  Phase Angle";
    "count  200.000000  200.000000   200.000000";
    "mean    12.345670    0.012346   -12.345600";
    "std      5.787918    0.001019    90.500000";
    "min      1.000000    0.000010  -179.999500";
    "25%      5.750000    0.000510   -90.000000";
    "50%     10.500000    0.001019     0.000000";
    "75%     15.250000    0.001529    90.000000";
    "max     20.000000    0.006116   179.123456" ].

Definition deformation_report : string :=
  unlines (report_of "Deformation (X) Description" "---------------------------"
                     deformation_block).

(** Raw result files. *)
Definition raw_header : string := "Frequency Amplitude Phase Angle" +:+ Py.NL.

Definition raw_file : string := raw_header +:+ "1.0 2.0 3.0" +:+ Py.NL.

Definition header_only_file : string := raw_header.

Definition short_row_file : string := raw_header +:+ "1.0 2.0" +:+ Py.NL.

Definition wide_row_file : string :=
  raw_header +:+ "1.0 2.0 3.0" +:+ Py.NL +:+ "1.0 2.0 3.0 4.0" +:+ Py.NL.

(** A folder the system lists with the second sensor first: every file
    [DIMM<n><axis>.txt] holds one sample, of frequency [n]. *)
Definition sensor_file (n : string) : string :=
  raw_header +:+ n +:+ ".0 0.001 0.0" +:+ Py.NL.

Definition unsorted_listing : list string :=
  [ "DIMM2x.txt"; "DIMM1x.txt"; "DIMM3x.txt"; "DIMM4x.txt";
    "DIMM5x.txt"; "DIMM6x.txt"; "DIMM7x.txt"; "DIMM8x.txt";
    "DIMM1y.txt"; "DIMM2y.txt"; "DIMM3y.txt"; "DIMM4y.txt";
    "DIMM5y.txt"; "DIMM6y.txt"; "DIMM7y.txt"; "DIMM8y.txt";
    "DIMM1z.txt"; "DIMM2z.txt"; "DIMM3z.txt"; "DIMM4z.txt";
    "DIMM5z.txt"; "DIMM6z.txt"; "DIMM7z.txt"; "DIMM8z.txt" ].

Definition unsorted_folder : FileSystem :=
  mkFS (fun path => if String.eqb path "sim1/data/deformation/"
                    then Some unsorted_listing else None)
       (fun path => if Py.startswith "sim1/data/deformation/DIMM" path
                    then Some (sensor_file (Py.str_take 1 (Py.str_drop 26 path)))
                    else None).



(** The file [modes.txt]. *)
Definition modes_txt : string :=
  "Frequency" +:+ Py.TAB +:+ "Amplitude" +:+ Py.NL
  +:+ "10.5" +:+ Py.TAB +:+ "0.12" +:+ Py.NL
  +:+ "22.3" +:+ Py.TAB +:+ "0.34" +:+ Py.NL.

(** The floats [10.5], [22.3], [1.0], ..., [8.0]. *)
Definition f_10_5 : float := Fin false 5910974510923776 (-49).
Definition f_22_3 : float := Fin false 6276891980647629 (-48).

Definition float_of_nat (n : nat) : float :=
  Float.nearest false (Z.of_nat n) 1.

(** A frame with the labels of an acceleration report. *)
Definition printed_frame : DataFrame :=
  mkDataFrame ["Frequency"; "Amplitude_g"; "Amplitude"; "Phase_Angle"]
    [ [PyStr "12.345670"; PyStr "0.203874"; PyStr "2.000004"; PyStr "-12.345600"];
      [PyStr "5.787918"; PyStr "0.101937"; PyStr "1.000002"; PyStr "90.500000"] ].

(** * The rest of [util.py] *)

(** ** More of Python's text methods *)

Module Text.

Definition is_upper (c : ascii) : bool :=
  let n := nat_of_ascii c in ((65 <=? n) && (n <=? 90))%nat.

Definition is_lower (c : ascii) : bool :=
  let n := nat_of_ascii c in ((97 <=? n) && (n <=? 122))%nat.

Definition upper (c : ascii) : ascii :=
  if is_lower c then ascii_of_nat (nat_of_ascii c - 32) else c.

(** [s.title()] on ASCII text: a letter that follows a letter is made
    small, any other letter is made a capital. *)
Fixpoint title_go (after_letter : bool) (s : string) : string :=
  match s with
  | String c s' =>
      if is_upper c || is_lower c
      then String (if after_letter then Num.lower c else upper c)
                  (title_go true s')
      else String c (title_go false s')
  | EmptyString => EmptyString
  end.

Definition title (s : string) : string := title_go false s.

(** [c * n] for a text [c]. *)
Fixpoint times (c : string) (n : nat) : string :=
  match n with
  | O => ""
  | S n' => c +:+ times c n'
  end.

(** [str(n)] for [0 <= n]. *)
Definition str_nat (n : nat) : string := Num.digits (Z.of_nat n).

(** [sep.join(l)] *)
Fixpoint join (sep : string) (l : list string) : string :=
  match l with
  | [] => ""
  | [s] => s
  | s :: l' => s +:+ sep +:+ join sep l'
  end.

(** What [print(s)] sends to its stream. *)
Definition print (s : string) : string := s +:+ Py.NL.

End Text.

(** ** Writing a description report: [describe]

    [described] holds, for each frame of [data], the text of
    [d.describe()] as [print] shows it.  The result is what went to the
    standard output and the file written, if any, with its text. *)

Record Output : Type := mkOutput {
  stdout : string;
  written : option (string * string)
}.

(** The loop of the first branch, from the index [i]. *)
Fixpoint describe_shown (i : nat) (described : list string) : string :=
  match described with
  | [] => ""
  | t :: rest =>
      Text.print ("DIMM" +:+ Text.str_nat (i + 1))
        +:+ Text.print t
        +:+ Text.print Py.NL
        +:+ describe_shown (S i) rest
  end.

(** The loop of the second branch, from the index [i]. *)
Fixpoint describe_saved (i : nat) (described : list string) : string :=
  match described with
  | [] => ""
  | t :: rest =>
      Text.print ("DIMM" +:+ Text.str_nat (i + 1) +:+ Py.NL +:+ Text.times "-" 5)
        +:+ Text.print t
        +:+ (if (i =? 7)%nat then "" else Text.print (Py.NL +:+ Py.NL))
        +:+ describe_saved (S i) rest
  end.

Definition describe (described : list string) (data_type axis : string)
    (save_as : option string) : Output :=
  let given :=
    match save_as with
    | None => false
    | Some s => negb (String.eqb s "")
    end in
  let shown :=
    if negb given
    then Text.print Py.NL +:+ describe_shown 0 described
    else "" in
  match save_as with
  | Some s =>
      if given then
        let save_as := if negb (Py.contains ".txt" s) then s +:+ ".txt" else s in
        let head :=
          Text.print (Text.title data_type +:+ " (" +:+ Text.title axis
                        +:+ ") Description" +:+ Py.NL
                        +:+ Text.times "-" (len data_type + 16)
                        +:+ Py.NL +:+ Py.NL) in
        mkOutput shown (Some (save_as, head +:+ describe_saved 0 described))
      else mkOutput shown None
  | None => mkOutput shown None
  end.

(** ** Sending the tables to a sheet

    The sheet is an object of another package; what the functions do to it
    is the list of the calls they make, in order. *)

Inductive SheetCall : Type :=
  | GoogleSheets (name : string)
  | clear_worksheet
  | set_acell_contents_range (range : string) (contents : list (list string)).

Section Sheets.

(** The text [str] gives for a float (for a cell that [to_df] did not
    turn into a string). *)
Variable str_float : float -> string.

(** [f"{c}"] *)
Definition fstring (c : cell) : string :=
  match c with
  | PyStr s => s
  | PyFloat x => str_float x
  | PyNone => "None"
  | PyBool b => if b then "True" else "False"
  end.

(** [df[name][k]] on a frame with the default index: a label that is
    absent is a [KeyError], and so is a row that is absent (or the number
    [k] sought among the labels, when [name] names several columns). *)
Definition cell_at (df : DataFrame) (name : string) (k : nat) : result cell :=
  match Pd.positions name (columns df) O with
  | [] => Raise (KeyError name)
  | [i] =>
      match values df !! k with
      | Some r => Py.item r i
      | None => Raise (KeyError (Text.str_nat k))
      end
  | _ :: _ :: _ => Raise (KeyError (Text.str_nat k))
  end.

(** The second argument of one call: the labels, then the rows 0 to 6. *)
Definition contents_of (names : list string) (df : DataFrame)
  : result (list (list string)) :=
  let! rows :=
    mapM (fun k => mapM (fun name => let! c := cell_at df name k in
                                     Ok (fstring c)) names)
         (seq 0 7) in
  Ok (names :: rows).

(** The calls [sheet.set_acell_contents_range(...)], one after the other;
    [calls] holds the calls made so far. *)
Fixpoint set_ranges (names : list string) (todo : list (string * DataFrame))
    (calls : list SheetCall) : list SheetCall * result unit :=
  match todo with
  | [] => (calls, Ok tt)
  | (range, df) :: todo' =>
      match contents_of names df with
      | Ok contents =>
          set_ranges names todo'
            (calls ++ [set_acell_contents_range range contents])
      | Raise e => (calls, Raise e)
      end
  end.

Definition acceleration_ranges : list string :=
  ["B1:E8"; "B12:E19"; "B23:E30"; "B34:E41";
   "B45:E52"; "B56:E63"; "B67:E74"; "B78:E85"].

Definition velocity_deformation_ranges : list string :=
  ["B1:D8"; "B12:D19"; "B23:D30"; "B34:D41";
   "B45:D52"; "B56:D63"; "B67:D74"; "B78:D85"].

Definition write_dfs_to_google_sheets__acceleration
    (df_namedtuple : Dimms DataFrame) : list SheetCall * result unit :=
  set_ranges ["Frequency"; "Amplitude"; "Amplitude_g"; "Phase_Angle"]
    (zip acceleration_ranges (dimms_list df_namedtuple))
    [GoogleSheets "PythonTest"; clear_worksheet].

Definition write_dfs_to_google_sheets__velocity_deformation
    (df_namedtuple : Dimms DataFrame) : list SheetCall * result unit :=
  set_ranges ["Frequency"; "Amplitude"; "Phase_Angle"]
    (zip velocity_deformation_ranges (dimms_list df_namedtuple))
    [GoogleSheets "PythonTest"; clear_worksheet].

(** [open(path)] and the parser. *)
Definition load_description (to_df : list string -> result DataFrame)
    (fs : FileSystem) (path : string) : result (Dimms DataFrame) :=
  match content_of fs path with
  | Some content => load_dfs_from_description to_df content
  | None => Raise FileNotFoundError
  end.

Definition description_path (sim_folder_name kind axis : string) : string :=
  Num.lowercase sim_folder_name +:+ "/data/" +:+ kind +:+ "_"
    +:+ Num.lowercase axis +:+ "_description.txt".

Definition write_acceleration_descriptions_to_google_sheets
    (axis sim_folder_name : string) (fs : FileSystem)
  : list SheetCall * result unit :=
  match load_description Acceleration.to_df fs
          (description_path sim_folder_name "acceleration" axis) with
  | Ok data_files => write_dfs_to_google_sheets__acceleration data_files
  | Raise e => ([], Raise e)
  end.

Definition write_deformation_descriptions_to_google_sheets
    (axis sim_folder_name : string) (fs : FileSystem)
  : list SheetCall * result unit :=
  match load_description VelocityDeformation.to_df fs
          (description_path sim_folder_name "deformation" axis) with
  | Ok data_files => write_dfs_to_google_sheets__velocity_deformation data_files
  | Raise e => ([], Raise e)
  end.

Definition write_velocity_descriptions_to_google_sheets
    (axis sim_folder_name : string) (fs : FileSystem)
  : list SheetCall * result unit :=
  match load_description VelocityDeformation.to_df fs
          (description_path sim_folder_name "velocity" axis) with
  | Ok data_files => write_dfs_to_google_sheets__velocity_deformation data_files
  | Raise e => ([], Raise e)
  end.

End Sheets.

(** ** The files of the three quantities: [get_data_files] *)

Module Listing.

(** One loop: the names in which the pattern is found, in the order of the
    listing, after those of [found]. *)
Fixpoint matching (files found : list string) : list string :=
  match files with
  | [] => found
  | file :: files' =>
      matching files' (if search_txt file then found ++ [file] else found)
  end.

Record data_files : Type := mk_data_files {
  velocity_files : list string;
  deformation_files : list string;
  acceleration_files : list string
}.

Definition get_data_files (fs : FileSystem) (parent_folder : string)
  : result data_files :=
  let! listed := listdir fs (parent_folder +:+ "/data/velocity/") in
  let velocity_files := matching listed [] in
  let! listed := listdir fs (parent_folder +:+ "/data/deformation/") in
  let deformation_files := matching listed [] in
  let! listed := listdir fs (parent_folder +:+ "/data/acceleration/") in
  let acceleration_files := matching listed [] in
  Ok (mk_data_files velocity_files deformation_files acceleration_files).

End Listing.

(** ** Bookmarks: [bookmark_pdf]

    The file object and the viewer belong to another package; the function
    is known by the calls it makes.  [Structure] is the type of the
    dictionary of bookmarks, which is passed on as it is. *)

Section Bookmarks.

Variable Structure : Type.

Inductive PdfCall : Type :=
  | PdfFile (path : string)
  | view (structure : Structure)
  | pdf_bookmark_pdf (structure : Structure) (output_file_name : string).

Definition bookmark_pdf (pdf_filepath : string) (bookmark_structure : Structure)
    (view_structure : bool) : list PdfCall :=
  let pdf_filepath :=
    if negb (Py.contains ".pdf" pdf_filepath)
    then pdf_filepath +:+ ".pdf" else pdf_filepath in
  [PdfFile pdf_filepath]
    ++ (if view_structure then [view bookmark_structure] else [])
    ++ [pdf_bookmark_pdf bookmark_structure
          (Py.slice_to pdf_filepath (-4) +:+ "_bookmarked.pdf")].

End Bookmarks.

Arguments PdfFile {Structure}.
Arguments view {Structure}.
Arguments pdf_bookmark_pdf {Structure}.
Arguments bookmark_pdf {Structure}.

(** ** Notions for the further properties *)

(** A file that [sort_by_axis] puts on no axis. *)
Definition off_axis (file : string) : bool :=
  negb (is_x file) && negb (is_y file) && negb (is_z file).

(** A file [modes.txt] that ends with an empty line. *)
Definition modes_blank_txt : string :=
  "Frequency" +:+ Py.NL +:+ "10.5" +:+ Py.NL +:+ Py.NL.

(** A listing with a name of two axes, a name of no axis and a name
    that only holds [.txt]. *)
Definition mixed_listing : list string :=
  ["DIMM1x.txt"; "x.txt_y.txt"; "DIMM1y.txt"; "notes.txt"; "DIMM1z.txt.bak";
   "README.md"].

(** A line the rewriting of a raw file leaves as it is: for deformation a
    line without [Angle], for the others a line that differs from the
    first line [l0]. *)
Definition untouched (q : Quantity) (l0 line : string) : Prop :=
  match q with
  | deformation => Py.contains "Angle" line = false
  | _ => line <> l0
  end.

(** The first line of a raw file once rewritten. *)
Definition new_header (q : Quantity) (l0 : string) : string :=
  match q with
  | velocity => velocity_header
  | deformation => deformation_line l0
  | acceleration => acceleration_header
  end.

(** [file] of [folder] was read as [df]: its text in [fs] gives [df], and
    [fs'] holds the text rewritten. *)
Definition read_as (q : Quantity) (fs fs' : FileSystem) (folder : string)
    (file : string) (df : DataFrame) : Prop :=
  exists c,
    content_of fs (folder +:+ file) = Some c /\
    snd (read_file q c) = Ok df /\
    content_of fs' (folder +:+ file) = Some (fst (read_file q c)).

(** A raw file of two samples and no header of its own: its first line
    comes back as the second sample. *)
Definition repeated_line_file : string :=
  "1.0 2.0 3.0" +:+ Py.NL +:+ "4.0 5.0 6.0" +:+ Py.NL +:+ "1.0 2.0 3.0" +:+ Py.NL.

(** A line of text: no line feed and no carriage return in it. *)
Definition clean (s : string) : bool := lacks "010" s && lacks "013" s.

(** The lines [describe] saves for the tables from the index [i] on, each
    table given by the lines of its text. *)
Fixpoint saved_lines (i : nat) (tables : list (list string)) : list string :=
  match tables with
  | [] => []
  | t :: rest =>
      ["DIMM" +:+ Text.str_nat (i + 1); "-----"] ++ t
        ++ (if (i =? 7)%nat then [] else [""; ""; ""])
        ++ saved_lines (S i) rest
  end.

(** The lines of the whole file. *)
Definition description_lines (data_type axis : string)
    (tables : list (list string)) : list string :=
  [ Text.title data_type +:+ " (" +:+ Text.title axis +:+ ") Description";
    Text.times "-" (len data_type + 16); ""; "" ]
    ++ saved_lines 0 tables.

(** The text [describe] saves under the name [save_as]. *)
Definition saved_text (described : list string) (data_type axis save_as : string)
  : string :=
  match written (describe described data_type axis (Some save_as)) with
  | Some (_, text) => text
  | None => ""
  end.

(** The table [to_df] makes from the lines of a block. *)
Definition table_of (q : Quantity) (block : list string) : DataFrame :=
  mkDataFrame (schema q) (map (table_row q) (drop 2 (map Py.strip block))).

(** The row the velocity and deformation parser makes from a statistics
    line of an acceleration report: the second value is kept as printed. *)
Definition mixed_row (line : string) : list cell :=
  [ PyStr (frequency_text (tok 0 line)); PyStr (tok 1 line);
    PyStr (amplitude6_text (tok 2 line)); PyStr (phase_text (tok 3 line)) ].

(** The writer of the tables of a quantity, its ranges, and the function
    that reads a description and writes it to the sheet. *)
Definition sheet_ranges (q : Quantity) : list string :=
  match q with
  | acceleration => acceleration_ranges
  | _ => velocity_deformation_ranges
  end.

Definition write_dfs_to_google_sheets (str_float : float -> string)
    (q : Quantity) : Dimms DataFrame -> list SheetCall * result unit :=
  match q with
  | acceleration => write_dfs_to_google_sheets__acceleration str_float
  | _ => write_dfs_to_google_sheets__velocity_deformation str_float
  end.

Definition write_descriptions_to_google_sheets (str_float : float -> string)
    (q : Quantity) : string -> string -> FileSystem -> list SheetCall * result unit :=
  match q with
  | velocity => write_velocity_descriptions_to_google_sheets str_float
  | deformation => write_deformation_descriptions_to_google_sheets str_float
  | acceleration => write_acceleration_descriptions_to_google_sheets str_float
  end.

(** What the sheet receives for one table: the labels, then the first
    seven rows. *)
Definition sheet_contents (str_float : float -> string) (q : Quantity)
    (df : DataFrame) : list (list string) :=
  schema q :: map (map (fstring str_float)) (take 7 (values df)).

(** A table the writers can send: the labels of the quantity, one value
    per label in every row, seven rows or more. *)
Definition sendable (q : Quantity) (df : DataFrame) : Prop :=
  columns df = schema q /\ rectangular df /\ (7 <= length (values df))%nat.

(** A folder that holds one description file. *)
Definition one_description (path content : string) : FileSystem :=
  mkFS (fun _ => None)
       (fun p => if String.eqb p path then Some content else None).

(** The tables of the sample reports. *)
Definition sample_table : DataFrame := table_of acceleration acceleration_block.

Definition sample_tables : Dimms DataFrame :=
  mkDimms sample_table sample_table sample_table sample_table
          sample_table sample_table sample_table sample_table.

(** The tables of the report of 112 lines: the last has six rows. *)
Definition short_table : DataFrame :=
  mkDataFrame (schema acceleration) (take 6 (values sample_table)).

Definition short_tables : Dimms DataFrame :=
  mkDimms sample_table sample_table sample_table sample_table
          sample_table sample_table sample_table short_table.

(** Every text of [fs'] is the text of [fs] at the same path, as it is or
    rewritten for [q]. *)
Definition rewritten_from (q : Quantity) (fs fs' : FileSystem) : Prop :=
  forall path,
    content_of fs' path = content_of fs path \/
    exists c, content_of fs path = Some c /\
              content_of fs' path = Some (rewrite_file q c).

(** The three loops of a reader and the named tuples made in the end, for
    the files [a] of the axes. *)
Definition read_axes (q : Quantity) (folder : string) (a : Axes (list string))
    (fs : FileSystem) : result (Axes (Dimms DataFrame)) * FileSystem :=
  let (rx, fs) := read_files q folder (x a) fs in
  match rx with
  | Raise e => (Raise e, fs)
  | Ok dataframes_x =>
      let (ry, fs) := read_files q folder (y a) fs in
      match ry with
      | Raise e => (Raise e, fs)
      | Ok dataframes_y =>
          let (rz, fs) := read_files q folder (z a) fs in
          match rz with
          | Raise e => (Raise e, fs)
          | Ok dataframes_z =>
              (let! tx := dimms dataframes_x in
               let! ty := dimms dataframes_y in
               let! tz := dimms dataframes_z in
               Ok (mkAxes tx ty tz), fs)
          end
      end
  end.

(** The state of the files while the loops of a reader run on [folder],
    started from [fs0]: the listings are those of [fs0], and every path
    holds the text it had in [fs0] or, for an allowed file of the folder,
    that text rewritten. *)
Definition lawful (q : Quantity) (folder : string) (fs0 : FileSystem)
    (allowed : string -> Prop) (fs : FileSystem) : Prop :=
  listing fs = listing fs0 /\
  forall path,
    content_of fs path = content_of fs0 path \/
    exists file c,
      allowed file /\ path = folder +:+ file /\
      content_of fs0 path = Some c /\
      content_of fs path = Some (rewrite_file q c).

(** The labels of the frames a reader of raw files returns. *)
Definition raw_columns (q : Quantity) : list string :=
  match q with
  | acceleration => ["Frequency"; "Amplitude_g"; "Amplitude"; "Phase Angle"]
  | _ => ["Frequency"; "Amplitude"; "Phase Angle"]
  end.

(** ** Notions and samples for the raw files and the modal frequencies *)

(** The quote character, which opens a quoted field for [read_csv]. *)
Definition quote : ascii := "034"%char.

(** A text without a quote character: [read_csv] then cuts every line at
    the blanks and the tabs. *)
Definition quote_free (content : string) : bool :=
  negb (Py.contains (String quote "") content).

(** The float a numeric field stands for. *)
Definition the_double (field : string) : float :=
  match Csv.to_double field with Some x => x | None => NaN end.

(** The row [read_csv] makes from numeric fields, three at most: their
    floats, then NaN for each field that is missing. *)
Definition float_cells (r : list string) : list cell :=
  map (fun field => PyFloat (the_double field)) r
    ++ replicate (3 - length r) (PyFloat NaN).

(** A field that is neither a number, nor a boolean, nor a marker of a
    missing value. *)
Definition plain_text (field : string) : bool :=
  negb (Csv.is_number (Some field)) && negb (Csv.is_bool (Some field))
  && negb (Csv.is_na (Some field)).

(** The largest number of fields in the lines [rest]. *)
Definition widest (rest : list string) : nat :=
  foldr (fun line w => Nat.max (length (Py.split Py.TAB line)) w) O rest.

(** A deformation file of two samples. *)
Definition deformation_file : string :=
  raw_header +:+ "1.0 0.1234 3.0" +:+ Py.NL +:+ "2.0 0.0015 -90.0" +:+ Py.NL.

(** Raw files with a word for a frequency, and for an amplitude. *)
Definition text_token_file : string :=
  raw_header +:+ "abc 2.0 3.0" +:+ Py.NL.

Definition text_amplitude_file : string :=
  raw_header +:+ "1.0 2.0 3.0" +:+ Py.NL +:+ "1.0 abc 3.0" +:+ Py.NL.

(** Files [modes.txt]: rows of one field under a header of two, a word
    under [Frequency], a header without [Frequency], a last row of one
    field after a full row, and a header with [Frequency] twice. *)
Definition modes_narrow_txt : string :=
  "Frequency" +:+ Py.TAB +:+ "Amplitude" +:+ Py.NL
  +:+ "10.5" +:+ Py.NL +:+ "22.3" +:+ Py.NL.

Definition modes_word_txt : string :=
  "Frequency" +:+ Py.TAB +:+ "Amplitude" +:+ Py.NL
  +:+ "10.5" +:+ Py.TAB +:+ "0.12" +:+ Py.NL
  +:+ "high" +:+ Py.TAB +:+ "0.34" +:+ Py.NL.

Definition modes_no_frequency_txt : string :=
  "Mode" +:+ Py.TAB +:+ "Amplitude" +:+ Py.NL
  +:+ "10.5" +:+ Py.TAB +:+ "0.12" +:+ Py.NL.

Definition modes_ragged_txt : string :=
  "Frequency" +:+ Py.TAB +:+ "Amplitude" +:+ Py.NL
  +:+ "10.5" +:+ Py.TAB +:+ "0.12" +:+ Py.NL
  +:+ "22.3" +:+ Py.NL.

Definition modes_twice_txt : string :=
  "Frequency" +:+ Py.TAB +:+ "Frequency" +:+ Py.NL
  +:+ "10.5" +:+ Py.TAB +:+ "10.5" +:+ Py.NL.

(** * Proofs *)

(** ** General facts on the result monad *)

Lemma mapM_ok_map {A B : Type} (f : A -> result B) (g : A -> B) (l : list A) :
  (forall a, In a l -> f a = Ok (g a)) -> mapM f l = Ok (map g l).
Proof.
  induction l as [|a l IH]; intros H; simpl; [reflexivity|].
  rewrite (H a) by (left; reflexivity). simpl.
  rewrite IH by (intros b Hb; apply H; right; exact Hb). reflexivity.
Qed.

Lemma mapM_ok_length {A B : Type} (f : A -> result B) (l : list A) (l' : list B) :
  mapM f l = Ok l' -> length l' = length l.
Proof.
  revert l'. induction l as [|a l IH]; intros l' H; simpl in H.
  - inversion H. reflexivity.
  - destruct (f a) as [b|e]; simpl in H; [|discriminate].
    destruct (mapM f l) as [bs|e]; simpl in H; [|discriminate].
    inversion H. simpl. f_equal. apply IH. reflexivity.
Qed.

Lemma mapM_map {A B C : Type} (f : B -> result C) (g : A -> B) (l : list A) :
  mapM f (map g l) = mapM (fun a => f (g a)) l.
Proof.
  induction l as [|a l IH]; simpl; [reflexivity|]. rewrite IH. reflexivity.
Qed.

Lemma mapM_ext_in {A B : Type} (f g : A -> result B) (l : list A) :
  (forall a, In a l -> f a = g a) -> mapM f l = mapM g l.
Proof.
  induction l as [|a l IH]; intros H; simpl; [reflexivity|].
  rewrite (H a) by (left; reflexivity).
  rewrite IH by (intros b Hb; apply H; right; exact Hb). reflexivity.
Qed.

Lemma bind_ok {A B : Type} (r : result A) (k : A -> result B) (b : B) :
  bind r k = Ok b -> exists a, r = Ok a /\ k a = Ok b.
Proof. destruct r as [a|e]; simpl; intros H; [eauto|discriminate]. Qed.

Lemma bind_raises {A B : Type} (r : result A) (k : A -> result B) :
  raises r -> raises (bind r k).
Proof. intros [e ->]. exists e. reflexivity. Qed.

Lemma raises_Raise {A : Type} (e : PyError) : raises (@Raise A e).
Proof. exists e. reflexivity. Qed.

Lemma not_raises_Ok {A : Type} (a : A) : ~ raises (Ok a).
Proof. intros [e H]. discriminate. Qed.

(** ** Frames *)

Lemma pad_full (w : nat) (r : list cell) : length r = w -> Pd.pad w r = r.
Proof.
  intros <-. unfold Pd.pad. rewrite Nat.sub_diag. simpl. apply app_nil_r.
Qed.

Lemma width_rect (n : nat) (r : list cell) (rows : list (list cell)) :
  Forall (fun r => length r = n) (r :: rows) -> Pd.width (r :: rows) = n.
Proof.
  revert r. induction rows as [|r' rows IH]; intros r H.
  - inversion H; subst. simpl. lia.
  - inversion H as [|? ? Hr Hrest]; subst.
    change (Pd.width (r :: r' :: rows))
      with (Nat.max (length r) (Pd.width (r' :: rows))).
    rewrite (IH r' Hrest). inversion Hrest; subst. lia.
Qed.

Lemma DataFrame_rect (rows : list (list cell)) (cols : list string) :
  Forall (fun r => length r = length cols) rows ->
  Pd.DataFrame rows cols = Ok (mkDataFrame cols rows).
Proof.
  intros H. destruct rows as [|r rows]; [reflexivity|].
  unfold Pd.DataFrame. rewrite (width_rect _ _ _ H), Nat.eqb_refl.
  do 2 f_equal. rewrite <- (map_id (r :: rows)) at 2.
  apply map_ext_in. intros a Ha. apply pad_full.
  rewrite Forall_forall in H. apply H. apply list_elem_of_In. exact Ha.
Qed.

Lemma DataFrame_columns (rows : list (list cell)) (cols : list string) df :
  Pd.DataFrame rows cols = Ok df -> columns df = cols.
Proof.
  unfold Pd.DataFrame. destruct rows as [|r rows].
  - intros H. inversion H. reflexivity.
  - destruct (_ =? _)%nat; intros H; inversion H. reflexivity.
Qed.

Lemma positions_absent (name : string) (cols : list string) (i : nat) :
  ~ In name cols -> Pd.positions name cols i = [].
Proof.
  revert i. induction cols as [|c cols IH]; intros i H; simpl; [reflexivity|].
  destruct (String.eqb_spec c name) as [->|Hne].
  - exfalso. apply H. left. reflexivity.
  - apply IH. intros Hin. apply H. right. exact Hin.
Qed.

Lemma positions_nil_absent (name : string) (cols : list string) (i : nat) :
  Pd.positions name cols i = [] -> ~ In name cols.
Proof.
  revert i. induction cols as [|c cols IH]; intros i H Hin; simpl in *; [exact Hin|].
  destruct (String.eqb_spec c name) as [->|Hne]; [discriminate|].
  destruct Hin as [Heq|Hin]; [congruence|]. exact (IH _ H Hin).
Qed.

Lemma swap_1_2_exchange {A : Type} (l : list A) :
  (3 <= length l)%nat -> swap_1_2 l = Ok (exchange l).
Proof.
  destruct l as [|a [|b [|c l]]]; simpl; intros H; try lia. reflexivity.
Qed.

Lemma swap_1_2_ok {A : Type} (l l' : list A) :
  swap_1_2 l = Ok l' -> (3 <= length l)%nat /\ l' = exchange l.
Proof.
  destruct l as [|a [|b [|c l]]]; cbn; intros H; try discriminate.
  inversion H. split; [simpl; lia|reflexivity].
Qed.

Lemma exchange_length {A : Type} (l : list A) : length (exchange l) = length l.
Proof. destruct l as [|a [|b [|c l]]]; reflexivity. Qed.

Lemma item_exchange {A : Type} (l : list A) (i : nat) :
  (3 <= length l)%nat ->
  Py.item (exchange l) i
  = Py.item l (match i with 1 => 2 | 2 => 1 | _ => i end)%nat.
Proof.
  destruct l as [|a [|b [|c l]]]; simpl; intros H; try lia.
  destruct i as [|[|[|i]]]; reflexivity.
Qed.

Lemma exchange_short {A : Type} (l : list A) :
  (length l < 3)%nat -> exchange l = l.
Proof. destruct l as [|a [|b [|c l]]]; simpl; intros H; try lia; reflexivity. Qed.

Lemma item_short {A : Type} (l : list A) (i : nat) :
  (length l <= i)%nat -> Py.item l i = Raise IndexError.
Proof.
  intros H. unfold Py.item. rewrite (lookup_ge_None_2 l i H). reflexivity.
Qed.

(** The exchange keeps every value under its label. *)
Lemma reorder_spec (df df2 : DataFrame) :
  rectangular df ->
  Acceleration.reorder df = Ok df2 ->
  (3 <= length (columns df))%nat /\
  columns df2 = exchange (columns df) /\
  values df2 = map exchange (values df).
Proof.
  intros Hrect H. unfold Acceleration.reorder in H.
  apply bind_ok in H as (cols' & Hc & H).
  apply swap_1_2_ok in Hc as [Hlen ->].
  rewrite (mapM_ok_map swap_1_2 exchange) in H.
  2:{ intros r Hr. apply swap_1_2_exchange.
      unfold rectangular in Hrect. rewrite Forall_forall in Hrect.
      rewrite (Hrect r); [exact Hlen| apply list_elem_of_In; exact Hr]. }
  simpl in H. rewrite DataFrame_rect in H.
  - inversion H. simpl. auto.
  - apply Forall_forall. intros r Hr. apply list_elem_of_In in Hr.
    apply in_map_iff in Hr as (r0 & <- & Hr0).
    rewrite !exchange_length.
    unfold rectangular in Hrect. rewrite Forall_forall in Hrect.
    apply Hrect. apply list_elem_of_In. exact Hr0.
Qed.

Lemma getitem_exchange (cols : list string) (rows : list (list cell))
    (name : string) :
  NoDup cols ->
  Forall (fun r => length r = length cols) rows ->
  Pd.getitem (mkDataFrame (exchange cols) (map exchange rows)) name
  = Pd.getitem (mkDataFrame cols rows) name.
Proof.
  intros Hnd Hrect. rewrite Forall_forall in Hrect.
  destruct (le_lt_dec 3 (length cols)) as [Hlen|Hlen].
  2:{ rewrite (exchange_short cols Hlen).
      replace (map exchange rows) with rows; [reflexivity|].
      rewrite <- (map_id rows) at 1. apply map_ext_in. intros r Hr.
      symmetry. apply exchange_short. rewrite (Hrect r); [exact Hlen|].
      apply list_elem_of_In. exact Hr. }
  assert (Hx : forall i, mapM (fun r => Py.item r i) (map exchange rows)
    = mapM (fun r => Py.item r (match i with 1 => 2 | 2 => 1 | _ => i end)%nat) rows).
  { intros i. rewrite mapM_map. apply mapM_ext_in. intros r Hr.
    apply item_exchange. rewrite (Hrect r); [exact Hlen|].
    apply list_elem_of_In. exact Hr. }
  destruct cols as [|c0 [|c1 [|c2 rest]]]; simpl in Hlen; try lia.
  apply NoDup_cons in Hnd as [H0 Hnd].
  apply NoDup_cons in Hnd as [H1 Hnd].
  apply NoDup_cons in Hnd as [H2 Hnd].
  rewrite !list_elem_of_In in *.
  unfold Pd.getitem. cbn [exchange columns values Pd.positions].
  destruct (String.eqb_spec c0 name) as [E0|N0];
  destruct (String.eqb_spec c1 name) as [E1|N1];
  destruct (String.eqb_spec c2 name) as [E2|N2]; subst;
    try (exfalso; simpl in *; tauto).
  - rewrite (positions_absent name rest 3)
      by (intros Hin; apply H0; right; right; exact Hin). apply Hx.
  - rewrite (positions_absent name rest 3)
      by (intros Hin; apply H1; right; exact Hin). apply Hx.
  - rewrite (positions_absent name rest 3) by exact H2. apply Hx.
  - destruct (Pd.positions name rest 3) as [|i [|j l]] eqn:Hp; try reflexivity.
    assert (3 <= i)%nat.
    { clear -Hp.
      assert (G : forall l k i, In i (Pd.positions name l k) -> (k <= i)%nat).
      { induction l as [|c l IH]; intros k i0; simpl; [tauto|].
        destruct (String.eqb c name); simpl; intros Hin.
        - destruct Hin as [<-|Hin]; [lia|]. apply IH in Hin. lia.
        - apply IH in Hin. lia. }
      apply (G rest 3%nat i). rewrite Hp. left. reflexivity. }
    rewrite Hx. destruct i as [|[|[|i]]]; try lia. reflexivity.
Qed.

(** ** Strings *)

Lemma app_cons (c : ascii) (s t : string) :
  String c s +:+ t = String c (s +:+ t).
Proof. reflexivity. Qed.

Lemma app_empty_l (s : string) : "" +:+ s = s.
Proof. reflexivity. Qed.

Lemma app_empty_r (s : string) : s +:+ "" = s.
Proof. induction s as [|c s IH]; [reflexivity|]. rewrite app_cons, IH. reflexivity. Qed.

Lemma app_assoc_s (a b c : string) : (a +:+ b) +:+ c = a +:+ (b +:+ c).
Proof.
  induction a as [|x a IH]; [reflexivity|]. rewrite !app_cons, IH. reflexivity.
Qed.

Lemma app_length_s (a b : string) :
  String.length (a +:+ b) = (String.length a + String.length b)%nat.
Proof.
  induction a as [|x a IH]; [reflexivity|]. rewrite app_cons. simpl.
  rewrite IH. reflexivity.
Qed.

Lemma take_drop_s (n : nat) (s : string) :
  Py.str_take n s +:+ Py.str_drop n s = s.
Proof.
  revert s. induction n as [|n IH]; intros [|c s]; try reflexivity.
  simpl. rewrite app_cons, IH. reflexivity.
Qed.

Lemma take_length_s (n : nat) (s : string) :
  String.length (Py.str_take n s) = Nat.min n (String.length s).
Proof.
  revert s. induction n as [|n IH]; intros [|c s]; try reflexivity.
  simpl. rewrite IH. reflexivity.
Qed.

Lemma drop_length_s (n : nat) (s : string) :
  String.length (Py.str_drop n s) = (String.length s - n)%nat.
Proof.
  revert s. induction n as [|n IH]; intros [|c s]; try reflexivity.
  simpl. apply IH.
Qed.

(** A text without an occurrence of the separator is one piece. *)
Lemma index_of_None_startswith (sub s : string) :
  Py.index_of sub s = None -> Py.startswith sub s = false.
Proof.
  destruct s as [|c s]; simpl; destruct (Py.startswith sub _); congruence.
Qed.

Lemma index_of_None_tail (sub : string) (c : ascii) (s : string) :
  Py.index_of sub (String c s) = None -> Py.index_of sub s = None.
Proof.
  simpl. destruct (Py.startswith sub (String c s)); [discriminate|].
  destruct (Py.index_of sub s); [discriminate|reflexivity].
Qed.

Lemma split_go_absent (sep cur s : string) :
  Py.index_of sep s = None ->
  Py.split_go sep O cur s = [Py.rev_string s cur].
Proof.
  revert cur. induction s as [|c s IH]; intros cur H; [reflexivity|].
  cbn [Py.split_go]. rewrite (index_of_None_startswith _ _ H).
  rewrite IH by (eapply index_of_None_tail; exact H). reflexivity.
Qed.

Lemma split_absent (sep s : string) :
  Py.contains sep s = false -> Py.split sep s = [s].
Proof.
  unfold Py.contains, Py.split. intros H.
  destruct (Py.index_of sep s) eqn:E; [discriminate|].
  rewrite split_go_absent by exact E. reflexivity.
Qed.

(** ** Digits *)

Lemma is_digit_cases (c : ascii) :
  Num.is_digit c = true ->
  c = "0"%char \/ c = "1"%char \/ c = "2"%char \/ c = "3"%char \/
  c = "4"%char \/ c = "5"%char \/ c = "6"%char \/ c = "7"%char \/
  c = "8"%char \/ c = "9"%char.
Proof.
  destruct c as [[] [] [] [] [] [] [] []]; cbv; intros H;
    try discriminate; tauto.
Qed.

Ltac digit_cases H :=
  apply is_digit_cases in H;
  destruct H as [->|[->|[->|[->|[->|[->|[->|[->|[->| ->]]]]]]]]].

Lemma digit_string_app (a b : string) :
  digit_string (a +:+ b) = digit_string a && digit_string b.
Proof.
  induction a as [|c a IH]; [reflexivity|]. rewrite app_cons. simpl.
  rewrite IH, andb_assoc. reflexivity.
Qed.

Lemma digit_string_take (n : nat) (s : string) :
  digit_string s = true -> digit_string (Py.str_take n s) = true.
Proof.
  revert s. induction n as [|n IH]; intros [|c s]; simpl; try reflexivity.
  intros H. apply andb_true_iff in H as [-> H]. simpl. apply IH, H.
Qed.

Lemma digit_string_drop (n : nat) (s : string) :
  digit_string s = true -> digit_string (Py.str_drop n s) = true.
Proof.
  revert s. induction n as [|n IH]; intros [|c s]; simpl; try tauto.
  intros H. apply andb_true_iff in H as [_ H]. apply IH, H.
Qed.

Lemma digit_string_zeros (n : nat) : digit_string (Num.zeros n) = true.
Proof. induction n as [|n IH]; [reflexivity|]. simpl. exact IH. Qed.

Lemma zeros_length (n : nat) : String.length (Num.zeros n) = n.
Proof. induction n as [|n IH]; [reflexivity|]. simpl. rewrite IH. reflexivity. Qed.

Lemma char_of_digit_is_digit (d : Z) :
  (0 <= d < 10)%Z -> Num.is_digit (Num.char_of_digit d) = true.
Proof.
  intros H.
  assert (d = 0 \/ d = 1 \/ d = 2 \/ d = 3 \/ d = 4 \/ d = 5 \/ d = 6
          \/ d = 7 \/ d = 8 \/ d = 9)%Z as C by lia.
  destruct C as [->|[->|[->|[->|[->|[->|[->|[->|[->| ->]]]]]]]]]; reflexivity.
Qed.

Lemma digits_go_spec (fuel : nat) (n : Z) (acc : string) :
  digit_string acc = true ->
  digit_string (Num.digits_go fuel n acc) = true /\
  (String.length acc <= String.length (Num.digits_go fuel n acc))%nat /\
  (fuel <> O -> (String.length acc < String.length (Num.digits_go fuel n acc))%nat).
Proof.
  revert n acc. induction fuel as [|fuel IH]; intros n acc Hacc.
  - simpl. split; [exact Hacc|]. split; [lia|congruence].
  - cbn [Num.digits_go].
    assert (Hd : digit_string (String (Num.char_of_digit (n mod 10)) acc) = true).
    { simpl. rewrite char_of_digit_is_digit, Hacc; [reflexivity|].
      apply Z.mod_pos_bound. lia. }
    destruct (n <? 10)%Z.
    + split; [exact Hd|]. simpl. split; [lia|]. intros _. lia.
    + destruct (IH (n / 10)%Z (String (Num.char_of_digit (n mod 10)) acc))
        as (H1 & H2 & _); [exact Hd|].
      split; [exact H1|]. simpl in H2. split; [lia|]. intros _. lia.
Qed.

Lemma digits_spec (n : Z) :
  digit_string (Num.digits n) = true /\ (1 <= String.length (Num.digits n))%nat.
Proof.
  unfold Num.digits.
  destruct (digits_go_spec (S (Z.to_nat (Z.log2 n))) n "" eq_refl)
    as (H1 & _ & H3).
  split; [exact H1|]. specialize (H3 ltac:(congruence)).
  change (String.length "") with O in H3. lia.
Qed.

(** ** The text of a formatted float is read back by [float] *)

Lemma scan_digits_run (ds : string) (acc : Z) (cnt : nat) (r : string) :
  digit_string ds = true -> stops r ->
  exists v, Num.scan_digits acc cnt (ds +:+ r)
            = (v, (cnt + String.length ds)%nat, r).
Proof.
  revert acc cnt. induction ds as [|c ds IH]; intros acc cnt Hd Hr.
  - rewrite app_empty_l. exists acc. rewrite Nat.add_0_r.
    destruct r as [|c r]; [reflexivity|]. destruct Hr as [Hc Hu].
    cbn [Num.scan_digits]. unfold Num.is_digit in Hc.
    destruct (Num.digit_of c); [discriminate|].
    destruct cnt; [reflexivity|]. destruct r as [|c2 r]; [reflexivity|].
    rewrite Hu. reflexivity.
  - simpl in Hd. apply andb_true_iff in Hd as [Hc Hd].
    rewrite app_cons. cbn [Num.scan_digits]. unfold Num.is_digit in Hc.
    destruct (Num.digit_of c) as [dg|]; [|discriminate].
    destruct (IH (acc * 10 + dg)%Z (S cnt) Hd Hr) as [v Hv].
    exists v. rewrite Hv. f_equal. f_equal. simpl. lia.
Qed.

Lemma digit_no_space (c : ascii) : Num.is_digit c = true -> Py.isspace c = false.
Proof. intros H. digit_cases H; reflexivity. Qed.

Lemma digit_string_no_space (s : string) :
  digit_string s = true -> no_space s = true.
Proof.
  induction s as [|c s IH]; [reflexivity|]. simpl. intros H.
  apply andb_true_iff in H as [Hc H]. rewrite (digit_no_space c Hc), IH by exact H.
  reflexivity.
Qed.

Lemma no_space_app (a b : string) :
  no_space (a +:+ b) = no_space a && no_space b.
Proof.
  induction a as [|c a IH]; [reflexivity|]. rewrite app_cons. simpl.
  rewrite IH, andb_assoc. reflexivity.
Qed.

Lemma rstrip_no_space (s : string) : no_space s = true -> Py.rstrip s = s.
Proof.
  induction s as [|c s IH]; [reflexivity|]. simpl. intros H.
  apply andb_true_iff in H as [Hc H]. rewrite IH by exact H.
  apply negb_true_iff in Hc. rewrite Hc. destruct s; reflexivity.
Qed.

Lemma strip_no_space (s : string) : no_space s = true -> Py.strip s = s.
Proof.
  intros H. unfold Py.strip.
  assert (Py.lstrip s = s) as ->.
  { destruct s as [|c s]; [reflexivity|]. simpl in *.
    apply andb_true_iff in H as [Hc _]. apply negb_true_iff in Hc.
    rewrite Hc. reflexivity. }
  apply rstrip_no_space, H.
Qed.

(** A decimal text: digits, a point, digits. *)
Lemma scan_number_decimal (neg : bool) (ip fp : string) :
  digit_string ip = true -> (1 <= String.length ip)%nat ->
  digit_string fp = true ->
  exists y, Num.scan_number neg (ip +:+ "." +:+ fp) = Some y.
Proof.
  intros Hi Hl Hf. unfold Num.scan_number.
  destruct (scan_digits_run ip 0%Z O ("." +:+ fp) Hi) as [v Hv].
  { simpl. split; reflexivity. }
  rewrite Hv. rewrite app_cons, app_empty_l.
  destruct (scan_digits_run fp 0%Z O "" Hf I) as [w Hw].
  rewrite app_empty_r in Hw. rewrite Hw.
  destruct (String.length ip) as [|n] eqn:E; [lia|].
  simpl. eauto.
Qed.

Lemma py_float_decimal (neg : bool) (ip fp : string) :
  digit_string ip = true -> (1 <= String.length ip)%nat ->
  digit_string fp = true ->
  exists y, Num.py_float ((if neg then "-" else "") +:+ ip +:+ "." +:+ fp)
            = Some y.
Proof.
  intros Hi Hl Hf. unfold Num.py_float.
  rewrite strip_no_space.
  2:{ rewrite !no_space_app, (digit_string_no_space _ Hi),
        (digit_string_no_space _ Hf). destruct neg; reflexivity. }
  destruct ip as [|c ip]; [simpl in Hl; lia|].
  simpl in Hi. apply andb_true_iff in Hi as [Hc Hi].
  assert (Hbody : forall body, body = String c ip +:+ "." +:+ fp ->
     exists y,
       (let lc := Num.lowercase body in
        if String.eqb lc "inf" || String.eqb lc "infinity" then Some (Inf neg)
        else if String.eqb lc "nan" then Some NaN
        else Num.scan_number neg body) = Some y).
  { intros body ->. cbv zeta.
    assert (String.eqb (Num.lowercase (String c ip +:+ "." +:+ fp)) "inf" = false
            /\ String.eqb (Num.lowercase (String c ip +:+ "." +:+ fp)) "infinity" = false
            /\ String.eqb (Num.lowercase (String c ip +:+ "." +:+ fp)) "nan" = false)
      as (-> & -> & ->).
    { rewrite app_cons. pose proof Hc as Hc'. digit_cases Hc'; repeat split; reflexivity. }
    simpl. apply scan_number_decimal; [simpl; rewrite Hc, Hi; reflexivity|exact Hl|exact Hf]. }
  destruct neg.
  - rewrite app_cons, app_empty_l. cbn [Num.scan_sign]. apply Hbody. reflexivity.
  - rewrite app_empty_l.
    assert (Num.scan_sign (String c ip +:+ "." +:+ fp)
            = (false, String c ip +:+ "." +:+ fp)) as ->.
    { rewrite app_cons. pose proof Hc as Hc'. digit_cases Hc'; reflexivity. }
    apply Hbody. reflexivity.
Qed.

Lemma py_float_format_f (p : nat) (x : float) :
  exists y, Num.py_float (Num.format_f (S p) x) = Some y.
Proof.
  destruct x as [s m e|s|].
  - unfold Num.format_f.
    destruct (digits_spec (scaled (S p) m e)) as [Hd Hl].
    set (ds := Num.zeros (S (S p) - String.length (Num.digits (scaled (S p) m e)))
               +:+ Num.digits (scaled (S p) m e)).
    assert (Hds : digit_string ds = true).
    { unfold ds. rewrite digit_string_app, digit_string_zeros, Hd. reflexivity. }
    assert (Hlen : (S (S p) <= String.length ds)%nat).
    { unfold ds. rewrite app_length_s, zeros_length. lia. }
    apply py_float_decimal.
    + apply digit_string_take, Hds.
    + rewrite take_length_s. lia.
    + apply digit_string_drop, Hds.
  - destruct s; eexists; reflexivity.
  - eexists; reflexivity.
Qed.

(** ** Formatting one column *)

Lemma zip_with_maps {X A B C : Type} (f : A -> B -> C) (a : X -> A)
    (b : X -> B) (l : list X) :
  zip_with f (map a l) (map b l) = map (fun x => f (a x) (b x)) l.
Proof. induction l as [|x l IH]; simpl; [reflexivity|]. rewrite IH. reflexivity. Qed.

Lemma getitem_rows {X : Type} (l : list X) (a : X -> list cell)
    (b : X -> cell) (cols : list string) (name : string) (i : nat) :
  Pd.positions name cols O = [i] ->
  (forall x, In x l -> a x !! i = Some (b x)) ->
  Pd.getitem (mkDataFrame cols (map a l)) name = Ok (map b l).
Proof.
  intros Hp H. unfold Pd.getitem. simpl. rewrite Hp.
  rewrite mapM_map. apply mapM_ok_map. intros x Hx.
  unfold Py.item. rewrite (H x Hx). reflexivity.
Qed.

Lemma setitem_rows {X : Type} (l : list X) (a : X -> list cell)
    (b : X -> cell) (cols : list string) (name : string) (i : nat) :
  Pd.positions name cols O = [i] ->
  Pd.setitem (mkDataFrame cols (map a l)) name (map b l)
  = Ok (mkDataFrame cols (map (fun x => <[i := b x]> (a x)) l)).
Proof.
  intros Hp. unfold Pd.setitem. simpl. rewrite Hp.
  rewrite !length_map, Nat.eqb_refl. rewrite zip_with_maps. reflexivity.
Qed.

Lemma format_column_rows {X : Type} (l : list X) (a : X -> list cell)
    (v : X -> string) (cols : list string) (name : string) (i : nat)
    (fmt : float -> string) (cutf : string -> result string) :
  Pd.positions name cols O = [i] ->
  (forall x, In x l -> a x !! i = Some (PyStr (v x))) ->
  (forall x, In x l -> is_float (v x) = true) ->
  (forall y, is_ok (cutf (fmt y)) = true) ->
  format_column (mkDataFrame cols (map a l)) name fmt cutf
  = Ok (mkDataFrame cols
          (map (fun x => <[i := PyStr (get_ok (cutf (fmt (the_float (v x)))))]> (a x)) l)).
Proof.
  intros Hp Ha Hv Hc. unfold format_column.
  rewrite (getitem_rows l a (fun x => PyStr (v x)) cols name i Hp Ha).
  cbn [bind]. unfold Pd.astype_float. rewrite mapM_map.
  rewrite (mapM_ok_map _ (fun x => the_float (v x))).
  2:{ intros x Hx. specialize (Hv x Hx). unfold is_float, the_float in *.
      simpl. destruct (Num.py_float (v x)); [reflexivity|discriminate]. }
  cbn [bind]. rewrite map_map.
  rewrite (setitem_rows l a (fun x => PyStr (fmt (the_float (v x)))) cols name i Hp).
  cbn [bind].
  assert (Hlt : forall x, In x l -> (i < length (a x))%nat).
  { intros x Hx. eapply lookup_lt_Some. apply (Ha x Hx). }
  rewrite (getitem_rows l _ (fun x => PyStr (fmt (the_float (v x)))) cols name i Hp).
  2:{ intros x Hx. apply list_lookup_insert_eq. apply Hlt, Hx. }
  cbn [bind]. rewrite mapM_map. cbn beta iota.
  rewrite (mapM_ok_map _ (fun x => fmt (the_float (v x)))) by reflexivity.
  cbn [bind]. unfold Pd.astype_str. rewrite map_map.
  rewrite (setitem_rows l _ (fun x => PyStr (fmt (the_float (v x)))) cols name i Hp).
  cbn [bind]. rewrite mapM_map.
  rewrite (mapM_ok_map _ (fun x => get_ok (cutf (fmt (the_float (v x)))))).
  2:{ intros x _. specialize (Hc (the_float (v x))).
      destruct (cutf (fmt (the_float (v x)))); [reflexivity|discriminate]. }
  cbn [bind]. rewrite map_map.
  rewrite (setitem_rows l _ (fun x => PyStr (get_ok (cutf (fmt (the_float (v x))))))
             cols name i Hp).
  do 2 f_equal. apply map_ext. intros x.
  rewrite !list_insert_insert_eq. reflexivity.
Qed.

Lemma cut_ok (n : nat) (s : string) : is_ok (cut n s) = true.
Proof. reflexivity. Qed.

Lemma cut_phase_ok (y : float) : is_ok (cut_phase (fmt_phase y)) = true.
Proof.
  unfold cut_phase, fmt_phase.
  destruct (py_float_format_f 3 (Num.round y 3)) as [z ->]. reflexivity.
Qed.

Lemma format_column_columns (df df' : DataFrame) (name : string)
    (fmt : float -> string) (cutf : string -> result string) :
  format_column df name fmt cutf = Ok df' -> columns df' = columns df.
Proof.
  assert (Hset : forall d n c d', Pd.setitem d n c = Ok d' -> columns d' = columns d).
  { intros d n c d'. unfold Pd.setitem.
    destruct (Pd.positions n (columns d) O) as [|j [|k l]]; try discriminate.
    destruct (_ =? _)%nat; [|discriminate]. intros H. inversion H. reflexivity. }
  unfold format_column. intros H.
  apply bind_ok in H as (c1 & _ & H). apply bind_ok in H as (xs & _ & H).
  apply bind_ok in H as (d1 & H1 & H). apply bind_ok in H as (c2 & _ & H).
  apply bind_ok in H as (ss & _ & H). apply bind_ok in H as (d2 & H2 & H).
  apply bind_ok in H as (cs & _ & H).
  apply Hset in H1, H2, H. congruence.
Qed.

Lemma format_column_absent (df : DataFrame) (name : string)
    (fmt : float -> string) (cutf : string -> result string) :
  ~ In name (columns df) ->
  format_column df name fmt cutf = Raise (KeyError name).
Proof.
  intros H. unfold format_column, Pd.getitem.
  rewrite positions_absent by exact H. reflexivity.
Qed.

Lemma filter_gt1_nonempty (l : list string) :
  List.filter (fun c => (1 <? len c)%nat) l
  = List.filter (fun c => (1 <? len c)%nat) (List.filter nonempty l).
Proof.
  induction l as [|c l IH]; [reflexivity|]. simpl. unfold nonempty at 1.
  destruct (1 <? len c)%nat eqn:E1.
  - assert ((0 <? len c)%nat = true) as -> by (apply Nat.ltb_lt; apply Nat.ltb_lt in E1; lia).
    simpl. rewrite E1, IH. reflexivity.
  - destruct (0 <? len c)%nat; [simpl; rewrite E1|]; exact IH.
Qed.

Lemma filter_all {A : Type} (f : A -> bool) (l : list A) :
  forallb f l = true -> List.filter f l = l.
Proof.
  induction l as [|a l IH]; [reflexivity|]. simpl. intros H.
  apply andb_true_iff in H as [-> H]. rewrite IH by exact H. reflexivity.
Qed.

Lemma contains_tab_cons (sub h : string) (c a : ascii) (sub' : string) :
  sub = String a sub' -> Py.ascii_eqb a c = false ->
  Py.contains sub (String c h) = Py.contains sub h.
Proof.
  intros -> H. unfold Py.contains. cbn [Py.index_of Py.startswith].
  rewrite H. cbn [andb]. destruct (Py.index_of (String a sub') h); reflexivity.
Qed.

Lemma append_to_last_snoc (l : list string) (c s : string) :
  append_to_last (l ++ [c]) s = Ok (l ++ [c +:+ s]).
Proof.
  unfold append_to_last. rewrite length_app. simpl.
  rewrite Nat.add_1_r. unfold Py.item.
  rewrite lookup_app_r by lia. rewrite Nat.sub_diag. simpl.
  f_equal. rewrite insert_app_r_alt by lia. rewrite Nat.sub_diag. reflexivity.
Qed.

Lemma header_labels_wf (q : Quantity) (h : string) :
  wf_header q h = true ->
  header_labels (Py.TAB +:+ h) = Ok (printed_labels q ++ ["Phase_Angle"]).
Proof.
  unfold wf_header. intros H.
  apply andb_true_iff in H as [H H4]. apply andb_true_iff in H as [H H3].
  apply andb_true_iff in H as [H1 H2].
  apply negb_true_iff in H2. apply bool_decide_eq_true in H3, H4.
  unfold header_labels.
  assert (Py.split Py.TAB (Py.TAB +:+ h) = "" :: Py.split Py.TAB h) as -> by reflexivity.
  rewrite (split_absent _ _ H2). cbn [drop map Py.item lookup list_lookup bind].
  set (toks := Py.split " " h) in *.
  assert (Ht : toks = take (length toks - 2) toks ++ ["Phase"; "Angle"]).
  { rewrite <- H3. symmetry. apply take_drop. }
  set (pre := take (length toks - 2) toks) in *.
  assert (length toks - 1 = length pre + 1)%nat as ->.
  { rewrite Ht at 1. rewrite length_app. simpl. lia. }
  rewrite Ht.
  replace (pre ++ ["Phase"; "Angle"]) with ((pre ++ ["Phase"]) ++ ["Angle"])
    by (rewrite <- app_assoc; reflexivity).
  rewrite take_app_length' by (rewrite length_app; simpl; lia).
  rewrite append_to_last_snoc. cbn [bind]. f_equal.
  rewrite List.filter_app. simpl.
  rewrite filter_gt1_nonempty, H4. destruct q; reflexivity.
Qed.

Lemma row_values_code (line : string) :
  forallb value_field (row_values line) = true ->
  List.filter (fun r2 => (1 <? len r2)%nat) (drop 1 (Py.split " " line))
  = row_values line.
Proof.
  intros H. rewrite filter_gt1_nonempty. apply filter_all.
  fold (row_values line). rewrite forallb_forall in *. intros v Hv.
  specialize (H v Hv). unfold value_field in H.
  apply andb_true_iff in H as [H _]. exact H.
Qed.

Lemma list_of_length_4 {A : Type} (d : A) (l : list A) :
  length l = 4%nat -> l = [nth 0 l d; nth 1 l d; nth 2 l d; nth 3 l d].
Proof. destruct l as [|a [|b [|c [|e [|f l]]]]]; simpl; intros H; try lia; reflexivity. Qed.

Lemma list_of_length_3 {A : Type} (d : A) (l : list A) :
  length l = 3%nat -> l = [nth 0 l d; nth 1 l d; nth 2 l d].
Proof. destruct l as [|a [|b [|c [|e l]]]]; simpl; intros H; try lia; reflexivity. Qed.

Lemma wf_row_good (q : Quantity) (label line : string) :
  wf_row q label line = true -> good_row q line.
Proof.
  unfold wf_row, good_row. intros H.
  apply andb_true_iff in H as [H H4]. apply andb_true_iff in H as [H H3].
  apply andb_true_iff in H as [H1 _].
  apply negb_true_iff in H1. apply Nat.eqb_eq in H3. auto.
Qed.

Lemma tok_is_float (q : Quantity) (line : string) (j : nat) :
  good_row q line -> (j < length (schema q))%nat -> is_float (tok j line) = true.
Proof.
  intros (_ & Hl & Hv) Hj. rewrite forallb_forall in Hv.
  assert (In (tok j line) (row_values line)) as Hin
    by (apply nth_In; rewrite Hl; exact Hj).
  specialize (Hv _ Hin). unfold value_field in Hv.
  apply andb_true_iff in Hv as [_ Hv]. exact Hv.
Qed.

Lemma to_df_rows_wf (q : Quantity) (h : string) (rows : list string) :
  wf_header q h = true ->
  Forall (good_row q) rows ->
  to_df_rows ((Py.TAB +:+ h) :: rows)
  = Ok (printed_labels q ++ ["Phase_Angle"], map row_values rows).
Proof.
  intros Hh Hrows. unfold to_df_rows.
  assert (Hs : Py.contains "\s+" (Py.TAB +:+ h) = false).
  { unfold wf_header in Hh.
    apply andb_true_iff in Hh as [Hh _]. apply andb_true_iff in Hh as [Hh _].
    apply andb_true_iff in Hh as [Hh _]. apply negb_true_iff in Hh.
    change (Py.TAB +:+ h) with (String "009" h).
    rewrite (contains_tab_cons "\s+" h "009" "\" "s+"); [exact Hh|reflexivity|reflexivity]. }
  rewrite mapM_map.
  rewrite (mapM_ok_map _ (fun l => l)).
  2:{ intros l [<-|Hl].
      - rewrite (split_absent _ _ Hs). reflexivity.
      - rewrite Forall_forall in Hrows.
        destruct (Hrows l) as (Hc & _); [apply list_elem_of_In; exact Hl|].
        rewrite (split_absent _ _ Hc). reflexivity. }
  rewrite map_id. cbn [bind Py.item lookup list_lookup].
  rewrite (header_labels_wf q h Hh). cbn [bind drop]. do 2 f_equal.
  unfold value_rows. rewrite !map_map. apply map_ext_in. intros l Hl.
  rewrite Forall_forall in Hrows.
  destruct (Hrows l) as (_ & _ & Hv); [apply list_elem_of_In; exact Hl|].
  apply row_values_code, Hv.
Qed.

Lemma cut_phase_text (v : string) :
  get_ok (cut_phase (fmt_phase (the_float v))) = phase_text v.
Proof.
  unfold phase_text, cut_phase, fmt_phase.
  destruct (py_float_format_f 3 (Num.round (the_float v) 3)) as [z Hz].
  assert (the_float (Num.format_f 4 (Num.round (the_float v) 3)) = z) as ->
    by (unfold the_float at 1; rewrite Hz; reflexivity).
  rewrite Hz. reflexivity.
Qed.

Lemma str_cells_rows (q : Quantity) (rows : list string) :
  Forall (good_row q) rows ->
  str_cells (map row_values rows)
  = map (fun l => map (fun j => PyStr (tok j l)) (seq 0 (length (schema q)))) rows.
Proof.
  intros H. unfold str_cells. rewrite map_map. apply map_ext_in. intros l Hl.
  rewrite Forall_forall in H.
  destruct (H l) as (_ & Hlen & _); [apply list_elem_of_In; exact Hl|].
  unfold tok. destruct q; simpl in Hlen |- *.
  - rewrite (list_of_length_3 "" _ Hlen) at 1. reflexivity.
  - rewrite (list_of_length_3 "" _ Hlen) at 1. reflexivity.
  - rewrite (list_of_length_4 "" _ Hlen) at 1. reflexivity.
Qed.

Lemma to_df_acceleration_wf (h : string) (rows : list string) :
  wf_header acceleration h = true ->
  Forall (good_row acceleration) rows ->
  Acceleration.to_df ((Py.TAB +:+ h) :: rows)
  = Ok (mkDataFrame (schema acceleration) (map (table_row acceleration) rows)).
Proof.
  intros Hh Hrows. unfold Acceleration.to_df.
  rewrite (to_df_rows_wf acceleration h rows Hh Hrows). cbn [bind fst snd].
  rewrite (str_cells_rows acceleration rows Hrows). cbn [schema length seq map].
  rewrite DataFrame_rect
    by (apply Forall_forall; intros r Hr; apply list_elem_of_In, in_map_iff in Hr
        as (l & <- & _); reflexivity).
  cbn [bind]. unfold Acceleration.reorder. cbn [columns values].
  cbn [printed_labels app swap_1_2 Py.item lookup list_lookup bind insert list_insert].
  rewrite mapM_map.
  rewrite (mapM_ok_map _ (fun l => [PyStr (tok 0 l); PyStr (tok 2 l);
                                    PyStr (tok 1 l); PyStr (tok 3 l)]))
    by reflexivity.
  cbn [bind].
  rewrite DataFrame_rect
    by (apply Forall_forall; intros r Hr; apply list_elem_of_In, in_map_iff in Hr
        as (l & <- & _); reflexivity).
  cbn [bind].
  assert (Hf : forall j, (j < 4)%nat -> forall x, In x rows -> is_float (tok j x) = true).
  { intros j Hj x Hx. apply (tok_is_float acceleration); [|exact Hj].
    rewrite Forall_forall in Hrows. apply Hrows, list_elem_of_In, Hx. }
  rewrite (format_column_rows rows _ (tok 0) _ "Frequency" 0);
    [|reflexivity|reflexivity|apply Hf; lia|intros; apply cut_ok].
  cbn [bind].
  rewrite (format_column_rows rows _ (tok 2) _ "Amplitude" 1);
    [|reflexivity|reflexivity|apply Hf; lia|intros; apply cut_ok].
  cbn [bind].
  rewrite (format_column_rows rows _ (tok 1) _ "Amplitude_g" 2);
    [|reflexivity|reflexivity|apply Hf; lia|intros; apply cut_ok].
  cbn [bind].
  rewrite (format_column_rows rows _ (tok 3) _ "Phase_Angle" 3);
    [|reflexivity|reflexivity|apply Hf; lia|apply cut_phase_ok].
  cbn [bind]. do 2 f_equal. apply map_ext. intros l.
  cbn [insert list_insert table_row]. rewrite cut_phase_text. reflexivity.
Qed.

Lemma to_df_velocity_deformation_wf (q : Quantity) (h : string) (rows : list string) :
  q <> acceleration ->
  wf_header q h = true ->
  Forall (good_row q) rows ->
  VelocityDeformation.to_df ((Py.TAB +:+ h) :: rows)
  = Ok (mkDataFrame (schema q) (map (table_row q) rows)).
Proof.
  intros Hq Hh Hrows. unfold VelocityDeformation.to_df.
  rewrite (to_df_rows_wf q h rows Hh Hrows). cbn [bind fst snd].
  rewrite (str_cells_rows q rows Hrows).
  assert (Hs : schema q = ["Frequency"; "Amplitude"; "Phase_Angle"])
    by (destruct q; [reflexivity|reflexivity|congruence]).
  assert (Hp : printed_labels q = ["Frequency"; "Amplitude"])
    by (destruct q; [reflexivity|reflexivity|congruence]).
  assert (Ht : forall l, table_row q l =
     [ PyStr (frequency_text (tok 0 l)); PyStr (amplitude6_text (tok 1 l));
       PyStr (phase_text (tok 2 l)) ])
    by (intros l; destruct q; [reflexivity|reflexivity|congruence]).
  rewrite Hs, Hp. cbn [length seq map app].
  rewrite !DataFrame_rect
    by (apply Forall_forall; intros r Hr; apply list_elem_of_In, in_map_iff in Hr
        as (l & <- & _); reflexivity).
  cbn [bind].
  assert (Hf : forall j, (j < 3)%nat -> forall x, In x rows -> is_float (tok j x) = true).
  { intros j Hj x Hx. apply (tok_is_float q); [|rewrite Hs; exact Hj].
    rewrite Forall_forall in Hrows. apply Hrows, list_elem_of_In, Hx. }
  rewrite (format_column_rows rows _ (tok 0) _ "Frequency" 0);
    [|reflexivity|reflexivity|apply Hf; lia|intros; apply cut_ok].
  cbn [bind].
  rewrite (format_column_rows rows _ (tok 1) _ "Amplitude" 1);
    [|reflexivity|reflexivity|apply Hf; lia|intros; apply cut_ok].
  cbn [bind].
  rewrite (format_column_rows rows _ (tok 2) _ "Phase_Angle" 2);
    [|reflexivity|reflexivity|apply Hf; lia|apply cut_phase_ok].
  cbn [bind]. do 2 f_equal. apply map_ext. intros l. rewrite Ht.
  cbn [insert list_insert]. rewrite cut_phase_text. reflexivity.
Qed.

Lemma to_df_wf (q : Quantity) (h : string) (rows : list string) :
  wf_header q h = true ->
  Forall (good_row q) rows ->
  to_df_of q ((Py.TAB +:+ h) :: rows)
  = Ok (mkDataFrame (schema q) (map (table_row q) rows)).
Proof.
  destruct q; intros Hh Hr.
  - apply to_df_velocity_deformation_wf; [discriminate|exact Hh|exact Hr].
  - apply to_df_velocity_deformation_wf; [discriminate|exact Hh|exact Hr].
  - apply to_df_acceleration_wf; assumption.
Qed.

Lemma wf_rows_spec (q : Quantity) (rows : list string) :
  wf_rows q rows = true ->
  length rows = 7%nat /\ Forall (good_row q) rows /\
  Forall2 (fun label line => Py.split " " line !! O = Some label) statistics rows.
Proof.
  unfold wf_rows. intros H. apply andb_true_iff in H as [Hl H].
  apply Nat.eqb_eq in Hl. simpl in Hl.
  destruct rows as [|r1 [|r2 [|r3 [|r4 [|r5 [|r6 [|r7 [|r8 rows]]]]]]]];
    simpl in Hl; try lia.
  split; [reflexivity|].
  cbn [statistics zip zip_with forallb fst snd] in H.
  repeat (apply andb_true_iff in H as [?H H]).
  assert (G : forall label line, wf_row q label line = true ->
     good_row q line /\ Py.split " " line !! O = Some label).
  { intros label line Hw. split; [eapply wf_row_good; exact Hw|].
    unfold wf_row in Hw. apply andb_true_iff in Hw as [Hw _].
    apply andb_true_iff in Hw as [Hw _]. apply andb_true_iff in Hw as [_ Hw].
    apply bool_decide_eq_true in Hw. exact Hw. }
  repeat match goal with
         | Hw : wf_row q _ _ = true |- _ => apply G in Hw; destruct Hw
         end.
  split; unfold statistics; repeat (constructor; try assumption).
Qed.

Lemma wf_block_spec (q : Quantity) (block : list string) :
  wf_block q block = true ->
  exists lines,
    d block = Ok lines /\
    to_df_of q lines
    = Ok (mkDataFrame (schema q) (map (table_row q) (drop 2 block))) /\
    length (drop 2 block) = 7%nat /\
    Forall2 (fun label line => Py.split " " line !! O = Some label)
            statistics (drop 2 block).
Proof.
  intros H. destruct block as [|h [|c rows]]; try discriminate.
  cbn [wf_block] in H. apply andb_true_iff in H as [Hh Hr].
  apply wf_rows_spec in Hr as (Hlen & Hgood & Hlab).
  exists ((Py.TAB +:+ h) :: rows). split; [reflexivity|].
  split; [apply to_df_wf; assumption|]. split; assumption.
Qed.

Lemma slice_drop2 {A : Type} (l : list A) (a : nat) :
  drop 2 (Py.slice l a (a + 9)) = Py.slice l (a + 2) (a + 9).
Proof.
  unfold Py.slice. replace (a + 9 - a)%nat with 9%nat by lia.
  replace (a + 9 - (a + 2))%nat with 7%nat by lia.
  rewrite <- drop_drop.
  destruct (drop a l) as [|x [|y l']]; reflexivity.
Qed.

Lemma block_wf (q : Quantity) (ls : list string) (a : nat) :
  wf_block q (Py.slice ls a (a + 9)) = true ->
  exists block,
    d (Py.slice ls a (a + 9)) = Ok block /\
    to_df_of q block
    = Ok (mkDataFrame (schema q)
            (map (table_row q) (Py.slice ls (a + 2) (a + 9)))) /\
    length (Py.slice ls (a + 2) (a + 9)) = 7%nat /\
    Forall2 (fun label line => Py.split " " line !! O = Some label)
            statistics (Py.slice ls (a + 2) (a + 9)).
Proof.
  intros H. rewrite <- slice_drop2. apply wf_block_spec, H.
Qed.



Lemma d_cases (lines : list string) :
  d lines = Raise IndexError \/ exists b, d lines = Ok b.
Proof. destruct lines as [|l0 lines]; [left|right; eexists]; reflexivity. Qed.

Lemma d_nil : d [] = Raise IndexError.
Proof. reflexivity. Qed.

Lemma too_few_lines (to_df : list string -> result DataFrame) (content : string) :
  (length (File.readlines content) < 105)%nat ->
  load_dfs_from_description to_df content = Raise IndexError.
Proof.
  intros H. unfold load_dfs_from_description. cbv zeta.
  set (ls := drop 6 (map Py.strip (File.readlines content))).
  assert (Py.slice ls 98 107 = []) as ->.
  { unfold Py.slice. rewrite drop_ge; [reflexivity|].
    unfold ls. rewrite length_drop, length_map. lia. }
  rewrite d_nil.
  repeat match goal with
         | |- context [d ?l] =>
             destruct (d_cases l) as [-> | [? ->]]; cbn [bind]; [reflexivity|]
         end.
  reflexivity.
Qed.

Lemma In_exchange {A : Type} (a : A) (l : list A) : In a (exchange l) <-> In a l.
Proof. destruct l as [|x [|y [|z l]]]; simpl; tauto. Qed.

Lemma reorder_columns (df df2 : DataFrame) :
  Acceleration.reorder df = Ok df2 -> columns df2 = exchange (columns df).
Proof.
  unfold Acceleration.reorder. intros H.
  apply bind_ok in H as (cols & Hc & H). apply bind_ok in H as (rows & _ & H).
  apply swap_1_2_ok in Hc as [_ ->]. eapply DataFrame_columns, H.
Qed.

Ltac step_raises :=
  match goal with
  | |- raises (bind ?r _) =>
      let E := fresh "E" in
      destruct r eqn:E; cbn [bind]; [|apply raises_Raise]
  end.

Lemma to_df_missing_label (q : Quantity) (lines : list string) (name : string) :
  In name (schema q) ->
  (forall cr, to_df_rows lines = Ok cr -> ~ In name (fst cr)) ->
  raises (to_df_of q lines).
Proof.
  intros Hname Hmiss.
  assert (Hfc : forall df n fmt cutf df',
            ~ In name (columns df) ->
            format_column df n fmt cutf = Ok df' ->
            n <> name /\ ~ In name (columns df')).
  { intros df n fmt cutf df' Hn Hf. split.
    - intros ->. rewrite format_column_absent in Hf by exact Hn. discriminate.
    - rewrite (format_column_columns _ _ _ _ _ Hf). exact Hn. }
  assert (Hvd : In name ["Frequency"; "Amplitude"; "Phase_Angle"] ->
                raises (VelocityDeformation.to_df lines)).
  { intros Hn. unfold VelocityDeformation.to_df.
    step_raises. specialize (Hmiss _ eq_refl).
    step_raises.
    apply DataFrame_columns in E0. rewrite <- E0 in Hmiss.
    step_raises. destruct (Hfc _ _ _ _ _ Hmiss E1) as [N1 Hm1].
    step_raises. destruct (Hfc _ _ _ _ _ Hm1 E2) as [N2 Hm2].
    step_raises. destruct (Hfc _ _ _ _ _ Hm2 E3) as [N3 Hm3].
    exfalso. simpl in Hn. intuition congruence. }
  destruct q; cbn [to_df_of schema] in *; [exact (Hvd Hname)..|].
  unfold Acceleration.to_df.
  step_raises. specialize (Hmiss _ eq_refl).
  step_raises. apply DataFrame_columns in E0. rewrite <- E0 in Hmiss.
  step_raises. apply reorder_columns in E1.
  assert (Hm0 : ~ In name (columns a1))
    by (rewrite E1, In_exchange; exact Hmiss).
  step_raises. destruct (Hfc _ _ _ _ _ Hm0 E2) as [N1 Hm1].
  step_raises. destruct (Hfc _ _ _ _ _ Hm1 E3) as [N2 Hm2].
  step_raises. destruct (Hfc _ _ _ _ _ Hm2 E4) as [N3 Hm3].
  step_raises. destruct (Hfc _ _ _ _ _ Hm3 E5) as [N4 Hm4].
  exfalso. simpl in Hname. intuition congruence.
Qed.

Lemma block_fails (to_df : list string -> result DataFrame)
    (content : string) (i : nat) :
  (i < 8)%nat ->
  (forall b, d (Py.slice (report_lines content) (14 * i) (14 * i + 9)) = Ok b ->
             raises (to_df b)) ->
  raises (load_dfs_from_description to_df content).
Proof.
  intros Hi H. unfold load_dfs_from_description. cbv zeta.
  fold (report_lines content).
  do 16 step_raises.
  exfalso.
  destruct i as [|[|[|[|[|[|[|[|i]]]]]]]]; try lia;
    cbn [Nat.mul Nat.add] in H;
    match goal with
    | Hd : d ?s = Ok ?b, Ht : to_df ?b = Ok _ |- _ =>
        match type of H with
        | context [d s] =>
            destruct (H b Hd) as [e He]; rewrite He in Ht; discriminate
        end
    end.
Qed.

Lemma missing_label (q : Quantity) (content : string) (i : nat) (name : string) :
  (i < 8)%nat -> In name (schema q) ->
  (forall cols,
     block_labels (Py.slice (report_lines content) (14 * i) (14 * i + 9)) = Ok cols ->
     ~ In name cols) ->
  raises (load_dfs q content).
Proof.
  intros Hi Hname H. apply (block_fails _ content i Hi).
  intros b Hb. apply (to_df_missing_label q b name Hname).
  intros cr Hcr. apply H. unfold block_labels. rewrite Hb. cbn [bind].
  rewrite Hcr. reflexivity.
Qed.

(** ** Lines of a text *)

Lemma lacks_app (c : ascii) (a b : string) :
  lacks c (a +:+ b) = lacks c a && lacks c b.
Proof.
  induction a as [|x a IH]; [reflexivity|]. rewrite app_cons. simpl.
  rewrite IH, andb_assoc. reflexivity.
Qed.

Lemma lacks_concat (c : ascii) (l : list string) :
  lacks c (Py.concat l) = forallb (lacks c) l.
Proof.
  induction l as [|s l IH]; [reflexivity|]. simpl. rewrite lacks_app, IH.
  reflexivity.
Qed.

Lemma lacks_take (c : ascii) (n : nat) (s : string) :
  lacks c s = true -> lacks c (Py.str_take n s) = true.
Proof.
  revert s. induction n as [|n IH]; intros [|a s]; simpl; try reflexivity.
  intros H. apply andb_true_iff in H as [-> H]. simpl. apply IH, H.
Qed.

Lemma universal_newlines_lacks_cr (s : string) :
  lacks "013" (File.universal_newlines s) = true.
Proof.
  assert (G : forall n s, (String.length s <= n)%nat ->
                          lacks "013" (File.universal_newlines s) = true).
  { clear s. induction n as [|n IH]; intros [|c s] Hn; simpl in Hn;
      try reflexivity; try lia.
    cbn [File.universal_newlines].
    destruct (Py.ascii_eqb c "013") eqn:Ec.
    - destruct s as [|c2 s]; [reflexivity|].
      destruct (Py.ascii_eqb c2 "010").
      + change (lacks "013" (File.universal_newlines s) = true).
        apply IH. simpl in Hn. lia.
      + change (lacks "013" (File.universal_newlines (String c2 s)) = true).
        apply IH. simpl in Hn |- *. lia.
    - simpl. rewrite Ec. simpl. apply IH. lia. }
  apply (G (String.length s)). lia.
Qed.

Lemma universal_newlines_id (s : string) :
  lacks "013" s = true -> File.universal_newlines s = s.
Proof.
  induction s as [|c s IH]; [reflexivity|]. simpl. intros H.
  apply andb_true_iff in H as [Hc H]. apply negb_true_iff in Hc.
  rewrite Hc, IH by exact H. reflexivity.
Qed.

Lemma concat_lines (s : string) : Py.concat (File.lines s) = s.
Proof.
  induction s as [|c s IH]; [reflexivity|]. cbn [File.lines].
  destruct (Py.ascii_eqb c "010").
  - simpl. rewrite IH. reflexivity.
  - destruct (File.lines s) as [|l ls]; simpl in *.
    + rewrite <- IH. reflexivity.
    + rewrite app_cons, IH. reflexivity.
Qed.

Lemma lines_line_list (s : string) : line_list (File.lines s).
Proof.
  induction s as [|c s IH]; [constructor|]. cbn [File.lines].
  destruct (Py.ascii_eqb c "010") eqn:Ec.
  - apply Ascii.eqb_eq in Ec. subst c.
    apply (line_list_cons "" (File.lines s)); [reflexivity|exact IH].
  - inversion IH as [|body Hb Hne E|body l Hb Hl E].
    + apply line_list_last; [simpl; rewrite Ec; reflexivity|discriminate].
    + apply line_list_last; [simpl; rewrite Ec, Hb; reflexivity|discriminate].
    + rewrite <- app_cons. apply line_list_cons; [|exact Hl].
      simpl. rewrite Ec, Hb. reflexivity.
Qed.

Lemma lines_body (body rest : string) :
  lacks "010" body = true ->
  File.lines (body +:+ Py.NL +:+ rest) = (body +:+ Py.NL) :: File.lines rest.
Proof.
  induction body as [|c body IH]; intros H; [reflexivity|].
  simpl in H. apply andb_true_iff in H as [Hc H]. apply negb_true_iff in Hc.
  rewrite !app_cons. cbn [File.lines]. rewrite Hc, IH by exact H. reflexivity.
Qed.

Lemma lines_partial (body : string) :
  lacks "010" body = true -> body <> "" -> File.lines body = [body].
Proof.
  induction body as [|c body IH]; intros H Hne; [congruence|].
  simpl in H. apply andb_true_iff in H as [Hc H]. apply negb_true_iff in Hc.
  cbn [File.lines]. rewrite Hc. destruct body as [|c2 body]; [reflexivity|].
  rewrite IH; [reflexivity|exact H|discriminate].
Qed.

Lemma lines_concat (l : list string) :
  line_list l -> File.lines (Py.concat l) = l.
Proof.
  induction 1 as [|body Hb Hne|body l Hb Hl IH].
  - reflexivity.
  - simpl. rewrite app_empty_r. apply lines_partial; assumption.
  - simpl. rewrite app_assoc_s, lines_body, IH by exact Hb. reflexivity.
Qed.

Lemma line_list_map (g : string -> string) (l : list string) :
  line_list l ->
  (forall s, In s l -> complete (g s) \/ g s = s) ->
  line_list (map g l).
Proof.
  induction 1 as [|body Hb Hne|body l Hb Hl IH]; intros Hg.
  - constructor.
  - simpl. destruct (Hg body) as [(b' & Hb' & ->)| ->]; [left; reflexivity| |].
    + apply line_list_cons; [exact Hb'|constructor].
    + apply line_list_last; assumption.
  - simpl.
    assert (line_list (map g l)) as Hl'
      by (apply IH; intros s Hs; apply Hg; right; exact Hs).
    destruct (Hg (body +:+ Py.NL)) as [(b' & Hb' & ->)| ->]; [left; reflexivity| |].
    + apply line_list_cons; assumption.
    + apply line_list_cons; assumption.
Qed.

Lemma readlines_lacks_cr (content s : string) :
  In s (File.readlines content) -> lacks "013" s = true.
Proof.
  unfold File.readlines. intros H.
  pose proof (universal_newlines_lacks_cr content) as Hc.
  rewrite <- (concat_lines (File.universal_newlines content)) in Hc.
  rewrite lacks_concat, forallb_forall in Hc. apply Hc, H.
Qed.

(** Writing back lines that are still lines, and reading them again. *)
Lemma readlines_written (g : string -> string) (content : string) :
  (forall s, In s (File.readlines content) -> complete (g s) \/ g s = s) ->
  (forall s, In s (File.readlines content) -> lacks "013" (g s) = true) ->
  File.readlines (Py.concat (map g (File.readlines content)))
  = map g (File.readlines content).
Proof.
  intros Hg Hcr. unfold File.readlines at 1.
  rewrite universal_newlines_id.
  - apply lines_concat, line_list_map; [apply lines_line_list|exact Hg].
  - rewrite lacks_concat, forallb_forall. intros s Hs.
    apply in_map_iff in Hs as (s0 & <- & Hs0). apply Hcr, Hs0.
Qed.

(** ** The header written by the acceleration and velocity loops *)

Lemma header_line_cases (header : string) (ls : list string) (s : string) :
  header_line header ls s = header \/ header_line header ls s = s.
Proof.
  unfold header_line. destruct ls as [|l0 ls]; [right; reflexivity|].
  destruct (String.eqb s l0); [left|right]; reflexivity.
Qed.

Lemma header_line_fixed (header : string) (l : list string) :
  map (header_line header (header :: l)) (header :: l) = header :: l.
Proof.
  transitivity (map (fun s : string => s) (header :: l)); [|apply map_id].
  apply map_ext. intros s. unfold header_line.
  destruct (String.eqb_spec s header) as [->|]; reflexivity.
Qed.

Lemma rewrite_header_idempotent (header content : string) :
  complete header -> lacks "013" header = true ->
  rewrite_header header (rewrite_header header content)
  = rewrite_header header content.
Proof.
  intros Hc Hcr. unfold rewrite_header at 1 3.
  assert (Hread : File.readlines (rewrite_header header content)
                  = map (header_line header (File.readlines content))
                        (File.readlines content)).
  { unfold rewrite_header. apply readlines_written.
    - intros s _.
      destruct (header_line_cases header (File.readlines content) s) as [-> | ->];
        [left; exact Hc|right; reflexivity].
    - intros s Hs.
      destruct (header_line_cases header (File.readlines content) s) as [-> | ->];
        [exact Hcr|eapply readlines_lacks_cr; exact Hs]. }
  rewrite Hread. f_equal.
  destruct (File.readlines content) as [|l0 ls]; [reflexivity|].
  assert (map (header_line header (l0 :: ls)) (l0 :: ls)
          = header :: map (header_line header (l0 :: ls)) ls) as ->
    by (cbn [map header_line]; rewrite String.eqb_refl; reflexivity).
  apply header_line_fixed.
Qed.

(** ** First occurrences *)

Lemma index_of_eq (sub s : string) :
  Py.index_of sub s
  = if Py.startswith sub s then Some O
    else match s with
         | EmptyString => None
         | String _ s' => option_map S (Py.index_of sub s')
         end.
Proof. destruct s; reflexivity. Qed.

Lemma startswith_length (sub s : string) :
  Py.startswith sub s = true -> (String.length sub <= String.length s)%nat.
Proof.
  revert s. induction sub as [|a sub IH]; intros [|c s]; simpl; try lia;
    try discriminate.
  intros H. apply andb_true_iff in H as [_ H]. apply IH in H. lia.
Qed.

Lemma startswith_take_eq (sub s : string) :
  Py.startswith sub s = true -> Py.str_take (String.length sub) s = sub.
Proof.
  revert s. induction sub as [|a sub IH]; intros [|c s]; simpl; try reflexivity;
    try discriminate.
  intros H. apply andb_true_iff in H as [Ha H].
  apply Ascii.eqb_eq in Ha. subst. rewrite IH by exact H. reflexivity.
Qed.

Lemma startswith_take (sub s t : string) (n : nat) :
  (String.length sub <= n)%nat -> (n <= String.length s)%nat ->
  Py.startswith sub (Py.str_take n s +:+ t) = Py.startswith sub s.
Proof.
  revert s n. induction sub as [|a sub IH]; intros s n H1 H2; [reflexivity|].
  destruct n as [|n]; [simpl in H1; lia|].
  destruct s as [|c s]; [simpl in H2; lia|].
  cbn [Py.str_take]. rewrite app_cons. cbn [Py.startswith].
  rewrite IH by (simpl in *; lia). reflexivity.
Qed.

Lemma index_of_bound (sub s : string) (p : nat) :
  Py.index_of sub s = Some p ->
  (p + String.length sub <= String.length s)%nat.
Proof.
  revert p. induction s as [|c s IH]; intros p; rewrite index_of_eq.
  - destruct (Py.startswith sub "") eqn:E; [|discriminate].
    intros H. inversion H. apply startswith_length in E. simpl in *. lia.
  - destruct (Py.startswith sub (String c s)) eqn:E.
    + intros H. inversion H. apply startswith_length in E. simpl in *. lia.
    + destruct (Py.index_of sub s) as [p'|]; [|discriminate].
      intros H. inversion H. specialize (IH p' eq_refl). simpl. lia.
Qed.

Lemma index_of_take (sub s : string) (p : nat) :
  Py.index_of sub s = Some p ->
  Py.str_take (p + String.length sub) s = Py.str_take p s +:+ sub.
Proof.
  revert p. induction s as [|c s IH]; intros p; rewrite index_of_eq.
  - destruct (Py.startswith sub "") eqn:E; [|discriminate].
    intros H. inversion H. destruct sub; [reflexivity|discriminate].
  - destruct (Py.startswith sub (String c s)) eqn:E.
    + intros H. inversion H. simpl. apply startswith_take_eq, E.
    + destruct (Py.index_of sub s) as [p'|]; [|discriminate].
      intros H. inversion H. simpl. rewrite app_cons, (IH p' eq_refl).
      reflexivity.
Qed.

Lemma index_of_prefix (sub s t : string) (p : nat) :
  Py.index_of sub s = Some p ->
  Py.index_of sub (Py.str_take (p + String.length sub) s +:+ t) = Some p.
Proof.
  revert p. induction s as [|c s IH]; intros p H.
  - pose proof H as H'. rewrite index_of_eq in H'.
    destruct (Py.startswith sub "") eqn:E; [|discriminate]. inversion H'.
    destruct sub; [|discriminate]. simpl. rewrite index_of_eq. reflexivity.
  - pose proof (index_of_bound _ _ _ H) as Hb.
    rewrite index_of_eq in H.
    destruct (Py.startswith sub (String c s)) eqn:E.
    + inversion H. subst p. rewrite index_of_eq.
      rewrite startswith_take by lia. rewrite E. reflexivity.
    + destruct (Py.index_of sub s) as [p'|] eqn:E'; [|discriminate].
      inversion H. subst p. rewrite index_of_eq.
      rewrite startswith_take by lia. rewrite E.
      cbn [Nat.add Py.str_take]. rewrite app_cons.
      rewrite (IH p' eq_refl). reflexivity.
Qed.

Lemma take_take_app (n : nat) (s t : string) :
  (n <= String.length s)%nat ->
  Py.str_take n (Py.str_take n s +:+ t) = Py.str_take n s.
Proof.
  revert s. induction n as [|n IH]; intros s H; [reflexivity|].
  destruct s as [|c s]; [simpl in H; lia|].
  cbn [Py.str_take]. rewrite app_cons. cbn [Py.str_take].
  rewrite IH by (simpl in H; lia). reflexivity.
Qed.

Lemma take_app_le (n : nat) (a b : string) :
  (n <= String.length a)%nat -> Py.str_take n (a +:+ b) = Py.str_take n a.
Proof.
  revert a. induction n as [|n IH]; intros a H; [reflexivity|].
  destruct a as [|c a]; [simpl in H; lia|].
  rewrite app_cons. cbn [Py.str_take].
  rewrite IH by (simpl in H; lia). reflexivity.
Qed.

(** ** The header written by the deformation loop *)

Lemma deformation_line_found (line : string) (p : nat) :
  Py.index_of "Angle" line = Some p ->
  deformation_line line = Py.str_take (p + 5) line +:+ angle_tail.
Proof.
  intros H. unfold deformation_line, Py.contains, Py.find. rewrite H.
  unfold Py.slice_to.
  assert ((Z.of_nat p + 5 <? 0)%Z = false) as -> by (apply Z.ltb_ge; lia).
  replace (Z.to_nat (Z.of_nat p + 5)) with (p + 5)%nat by lia.
  reflexivity.
Qed.

Lemma deformation_line_absent (line : string) :
  Py.index_of "Angle" line = None -> deformation_line line = line.
Proof. intros H. unfold deformation_line, Py.contains. rewrite H. reflexivity. Qed.

Lemma deformation_line_idempotent (line : string) :
  deformation_line (deformation_line line) = deformation_line line.
Proof.
  destruct (Py.index_of "Angle" line) as [p|] eqn:E.
  - rewrite (deformation_line_found line p E).
    pose proof (index_of_prefix "Angle" line angle_tail p E) as H.
    change (String.length "Angle") with 5%nat in H.
    rewrite (deformation_line_found _ p H).
    rewrite take_take_app; [reflexivity|].
    apply index_of_bound in E. exact E.
  - rewrite (deformation_line_absent line E). apply deformation_line_absent, E.
Qed.

Lemma line_list_In (l : list string) (s : string) :
  line_list l -> In s l ->
  lacks "010" s = true \/ exists body, lacks "010" body = true /\ s = body +:+ Py.NL.
Proof.
  induction 1 as [|body Hb Hne|body l Hb Hl IH]; intros Hin.
  - destruct Hin.
  - destruct Hin as [<-|[]]. left. exact Hb.
  - destruct Hin as [<-|Hin]; [right; eauto|apply IH, Hin].
Qed.

Lemma deformation_line_shape (content s : string) :
  In s (File.readlines content) ->
  complete (deformation_line s) \/ deformation_line s = s.
Proof.
  intros Hin. destruct (Py.index_of "Angle" s) as [p|] eqn:E.
  2:{ right. apply deformation_line_absent, E. }
  left. rewrite (deformation_line_found s p E).
  exists (Py.str_take (p + 5) s +:+ " [deg]"). split.
  2:{ unfold angle_tail. rewrite app_assoc_s. reflexivity. }
  rewrite lacks_app. apply andb_true_iff. split; [|reflexivity].
  pose proof (index_of_take _ _ _ E) as Ht.
  change (String.length "Angle") with 5%nat in Ht. rewrite Ht.
  rewrite lacks_app. apply andb_true_iff. split; [|reflexivity].
  destruct (line_list_In _ s (lines_line_list _) Hin) as [Hs|(body & Hb & ->)].
  - apply lacks_take, Hs.
  - apply index_of_bound in E. rewrite app_length_s in E. simpl in E.
    rewrite take_app_le by lia. apply lacks_take, Hb.
Qed.

Lemma rewrite_deformation_idempotent (content : string) :
  rewrite_deformation (rewrite_deformation content)
  = rewrite_deformation content.
Proof.
  unfold rewrite_deformation at 1 3.
  assert (Hread : File.readlines (rewrite_deformation content)
                  = map deformation_line (File.readlines content)).
  { unfold rewrite_deformation. apply readlines_written.
    - intros s Hs. eapply deformation_line_shape, Hs.
    - intros s Hs. pose proof (readlines_lacks_cr content s Hs) as Hcr.
      destruct (Py.index_of "Angle" s) as [p|] eqn:E.
      + rewrite (deformation_line_found s p E), lacks_app.
        rewrite lacks_take by exact Hcr. reflexivity.
      + rewrite (deformation_line_absent s E). exact Hcr. }
  rewrite Hread, map_map. f_equal. apply map_ext. intros s.
  apply deformation_line_idempotent.
Qed.

Lemma rewrite_idempotent (q : Quantity) (content : string) :
  rewrite_file q (rewrite_file q content) = rewrite_file q content.
Proof.
  destruct q; cbn [rewrite_file].
  - apply rewrite_header_idempotent; [|reflexivity].
    exists (Py.TAB +:+ "Frequency [Hz]" +:+ Py.TAB +:+ "Amplitude [m/s]"
              +:+ Py.TAB +:+ "Phase Angle [deg]").
    split; reflexivity.
  - apply rewrite_deformation_idempotent.
  - apply rewrite_header_idempotent; [|reflexivity].
    exists (Py.TAB +:+ "Frequency [Hz]" +:+ Py.TAB +:+ "Amplitude [m/s2]"
              +:+ Py.TAB +:+ "Phase Angle [deg]").
    split; reflexivity.
Qed.

(** ** Frames read from the raw files *)

Lemma converted_rows (types : list Csv.dtype) (w : nat)
    (rows : list (list string)) :
  length types = 3%nat -> (3 <= w)%nat ->
  Forall (fun r => (length r <= w)%nat) rows ->
  Forall (fun r => length r = 3%nat)
    (map (zip_with Csv.convert types)
       (map (fun r => drop (w - 3) (List.map Some r ++ replicate (w - length r) None))
            rows)).
Proof.
  intros Ht Hw Hrows. rewrite map_map. apply Forall_map.
  eapply Forall_impl; [exact Hrows|]. cbn beta. intros r Hr.
  rewrite length_zip_with, Ht, length_drop, length_app, length_map,
    length_replicate. lia.
Qed.

Lemma read_csv_shape (content : string) (df : DataFrame) :
  Csv.read_csv content names3 = Ok df ->
  columns df = names3 /\ Forall (fun r => length r = 3%nat) (values df).
Proof.
  unfold Csv.read_csv.
  set (rows := Csv.data_rows content).
  destruct rows as [|r0 rows'] eqn:E.
  - intros H. inversion H. split; [reflexivity|constructor].
  - rewrite <- E. set (w := Nat.max (length r0) (length names3)).
    destruct (existsb _ rows) eqn:Ex; [discriminate|].
    intros H.
    apply (f_equal (fun r => match r with Ok d => d | Raise _ => df end)) in H.
    cbv beta iota in H. subst df. split; [reflexivity|].
    apply (converted_rows _ w rows).
    + rewrite length_map, length_seq. reflexivity.
    + unfold w. simpl. lia.
    + apply Forall_forall. intros r1 Hr1. apply list_elem_of_In in Hr1.
      destruct (le_lt_dec (length r1) w) as [Hle|Hlt]; [exact Hle|].
      exfalso. assert (existsb (fun r => (w <? length r)%nat) rows = true).
      { apply existsb_exists. exists r1. split; [exact Hr1|].
        apply Nat.ltb_lt. exact Hlt. }
      congruence.
Qed.

Lemma length_three (r : list cell) : length r = 3%nat -> three r.
Proof.
  destruct r as [|f [|a [|p [|x r]]]]; simpl; intros H; try lia.
  exists f, a, p. reflexivity.
Qed.

(** The rows after [df.insert(1, 'Amplitude_g', df['Amplitude'] / 9.81)]. *)
Lemma add_amplitude_g_rows (df df' : DataFrame) :
  columns df = names3 ->
  Forall (fun r => length r = 3%nat) (values df) ->
  add_amplitude_g df = Ok df' ->
  columns df' = ["Frequency"; "Amplitude_g"; "Amplitude"; "Phase Angle"] /\
  Forall2 (fun r r' => exists f a p g,
             r = [f; a; p] /\ Series.arith fdiv f_9_81 a = Ok g /\
             r' = [f; g; a; p])
          (values df) (values df').
Proof.
  destruct df as [cols rows]. cbn [columns values]. intros -> Hrows.
  unfold add_amplitude_g, Pd.getitem, Series.truediv, insert_column.
  cbn [columns values names3 Pd.positions String.eqb Ascii.eqb Bool.eqb
       existsb orb length Nat.ltb Nat.leb].
  intros H. apply bind_ok in H as (col & Hcol & H).
  apply bind_ok in H as (col' & Hcol' & H).
  rewrite (mapM_ok_length _ _ _ Hcol'), (mapM_ok_length _ _ _ Hcol),
    Nat.eqb_refl in H.
  cbn [negb take drop app] in H. injection H as <-. cbn [columns values].
  split; [reflexivity|].
  revert col col' Hcol Hcol'.
  induction Hrows as [|r rows Hr Hrows IH]; intros col col' Hcol Hcol'.
  - simpl in Hcol. inversion Hcol. subst. simpl in Hcol'. inversion Hcol'.
    constructor.
  - apply length_three in Hr as (f & a & p & ->).
    cbn [mapM Py.item lookup list_lookup bind] in Hcol.
    apply bind_ok in Hcol as (col0 & Hcol0 & Hcol). inversion Hcol. subst col.
    cbn [mapM] in Hcol'. apply bind_ok in Hcol' as (g & Hg & Hcol').
    apply bind_ok in Hcol' as (col0' & Hcol0' & Hcol'). inversion Hcol'. subst col'.
    cbn [zip_with]. constructor; [|apply (IH col0 col0'); assumption].
    exists f, a, p, g. repeat split; [exact Hg].
Qed.

(** The rows after [df['Amplitude'] *= 1e3]. *)
Lemma scale_deformation_rows (df df' : DataFrame) :
  columns df = names3 ->
  Forall (fun r => length r = 3%nat) (values df) ->
  scale_deformation df = Ok df' ->
  columns df' = names3 /\
  Forall2 (fun r r' => exists f a p g,
             r = [f; a; p] /\ Series.arith fmul f_1e3 a = Ok g /\
             r' = [f; g; p])
          (values df) (values df').
Proof.
  destruct df as [cols rows]. cbn [columns values]. intros -> Hrows.
  unfold scale_deformation, Pd.getitem, Pd.setitem, Series.mul.
  cbn [columns values names3 Pd.positions String.eqb Ascii.eqb Bool.eqb].
  intros H. apply bind_ok in H as (col & Hcol & H).
  apply bind_ok in H as (col' & Hcol' & H).
  rewrite (mapM_ok_length _ _ _ Hcol'), (mapM_ok_length _ _ _ Hcol),
    Nat.eqb_refl in H.
  injection H as <-. cbn [columns values].
  split; [reflexivity|].
  revert col col' Hcol Hcol'.
  induction Hrows as [|r rows Hr Hrows IH]; intros col col' Hcol Hcol'.
  - simpl in Hcol. inversion Hcol. subst. simpl in Hcol'. inversion Hcol'.
    constructor.
  - apply length_three in Hr as (f & a & p & ->).
    cbn [mapM Py.item lookup list_lookup bind] in Hcol.
    apply bind_ok in Hcol as (col0 & Hcol0 & Hcol). inversion Hcol. subst col.
    cbn [mapM] in Hcol'. apply bind_ok in Hcol' as (g & Hg & Hcol').
    apply bind_ok in Hcol' as (col0' & Hcol0' & Hcol'). inversion Hcol'. subst col'.
    cbn [zip_with]. constructor; [|apply (IH col0 col0'); assumption].
    exists f, a, p, g. repeat split; [exact Hg].
Qed.

Lemma read_csv_empty (content : string) (names : list string) :
  Csv.data_rows content = [] ->
  Csv.read_csv content names = Ok (mkDataFrame names []).
Proof. intros H. unfold Csv.read_csv. rewrite H. reflexivity. Qed.

Lemma read_csv_wide (content : string) (names : list string)
    (r0 : list string) (rest : list (list string)) (r : list string) :
  Csv.data_rows content = r0 :: rest -> In r (r0 :: rest) ->
  (Nat.max (length r0) (length names) < length r)%nat ->
  Csv.read_csv content names = Raise ParserError.
Proof.
  intros H Hin Hlen. unfold Csv.read_csv. rewrite H. cbv zeta.
  assert (existsb (fun r => (Nat.max (length r0) (length names) <? length r)%nat)
            (r0 :: rest) = true) as ->; [|reflexivity].
  apply existsb_exists. exists r. split; [exact Hin|]. apply Nat.ltb_lt, Hlen.
Qed.

Lemma normalize_empty (q : Quantity) :
  is_ok (normalize q (mkDataFrame names3 [])) = true.
Proof. destruct q; reflexivity. Qed.

Lemma padded_row (r : list string) :
  (length r <= 3)%nat -> forallb numeric r = true ->
  exists t0 t1 t2,
    map Some r ++ replicate (3 - length r) None = [t0; t1; t2] /\
    na_or_number t0 = true /\ na_or_number t1 = true /\ na_or_number t2 = true.
Proof.
  intros Hl Hn.
  assert (G : forall f, numeric f = true -> na_or_number (Some f) = true).
  { intros f Hf. unfold na_or_number, Csv.is_number, numeric in *.
    destruct (Csv.to_double f); [apply orb_true_r|discriminate]. }
  destruct r as [|a [|b [|c [|e r]]]]; simpl in Hl; try lia; simpl in Hn;
    repeat (apply andb_true_iff in Hn as [?H Hn]);
    do 3 eexists; (split; [reflexivity|]); repeat split;
    try reflexivity; apply G; assumption.
Qed.

Lemma convert_float (t : option string) :
  na_or_number t = true -> is_float_cell (Csv.convert Csv.Float64 t) = true.
Proof.
  unfold na_or_number, Csv.convert. destruct (Csv.is_na t); [reflexivity|].
  simpl. unfold Csv.is_number. destruct t as [s|]; [|discriminate].
  destruct (Csv.to_double s); [reflexivity|discriminate].
Qed.

Lemma infer_float (col : list (option string)) :
  forallb na_or_number col = true -> Csv.infer col = Csv.Float64.
Proof. intros H. unfold Csv.infer. fold na_or_number. rewrite H. reflexivity. Qed.

Lemma read_csv_numeric (content : string) :
  Forall (fun r => (length r <= 3)%nat /\ forallb numeric r = true)
         (Csv.data_rows content) ->
  exists rows,
    Csv.read_csv content names3 = Ok (mkDataFrame names3 rows) /\
    length rows = length (Csv.data_rows content) /\
    Forall float_row rows.
Proof.
  intros H. unfold Csv.read_csv.
  destruct (Csv.data_rows content) as [|r0 rest] eqn:E.
  { exists []. repeat split. constructor. }
  cbv zeta. change (length names3) with 3%nat.
  assert (Hw : Nat.max (length r0) 3 = 3%nat).
  { inversion H as [|? ? [Hl _] _]. lia. }
  rewrite Hw.
  assert (existsb (fun r => (3 <? length r)%nat) (r0 :: rest) = false) as ->.
  { apply not_true_is_false. intros Hex. apply existsb_exists in Hex as (r & Hr & Hlt).
    rewrite Forall_forall in H. destruct (H r) as [Hl _];
      [apply list_elem_of_In; exact Hr|]. apply Nat.ltb_lt in Hlt. lia. }
  set (table := map (fun r => drop (3 - 3) (map Some r ++ replicate (3 - length r) None))
                    (r0 :: rest)).
  assert (Ht : Forall (fun t => exists t0 t1 t2, t = [t0; t1; t2] /\
                 na_or_number t0 = true /\ na_or_number t1 = true /\
                 na_or_number t2 = true) table).
  { unfold table. apply Forall_map. eapply Forall_impl; [exact H|].
    cbn beta. intros r [Hl Hn]. destruct (padded_row r Hl Hn) as (t0 & t1 & t2 & -> & Hp).
    exists t0, t1, t2. split; [reflexivity|exact Hp]. }
  assert (Hc : forall j, (j < 3)%nat -> Csv.infer (Csv.column j table) = Csv.Float64).
  { intros j Hj. apply infer_float. unfold Csv.column.
    apply forallb_forall. intros t Hin. apply in_map_iff in Hin as (r & <- & Hr).
    rewrite Forall_forall in Ht.
    destruct (Ht r) as (t0 & t1 & t2 & -> & H0 & H1 & H2);
      [apply list_elem_of_In; exact Hr|].
    destruct j as [|[|[|j]]]; try lia; assumption. }
  cbn [seq map]. rewrite !Hc by lia.
  eexists. split; [reflexivity|]. split.
  - unfold table. rewrite !length_map. reflexivity.
  - apply Forall_map. eapply Forall_impl; [exact Ht|]. cbn beta.
    intros t (t0 & t1 & t2 & -> & H0 & H1 & H2). cbn [zip_with].
    apply convert_float in H0, H1, H2.
    destruct (Csv.convert Csv.Float64 t0); try discriminate.
    destruct (Csv.convert Csv.Float64 t1); try discriminate.
    destruct (Csv.convert Csv.Float64 t2); try discriminate.
    eexists _, _, _. reflexivity.
Qed.

Lemma normalize_floats (q : Quantity) (rows : list (list cell)) :
  Forall float_row rows ->
  exists df, normalize q (mkDataFrame names3 rows) = Ok df /\
             length (values df) = length rows.
Proof.
  intros H.
  assert (Hcol : mapM (fun r => Py.item r 1) rows
                 = Ok (map (fun r => default PyNone (r !! 1%nat)) rows)).
  { apply mapM_ok_map. intros r Hr. rewrite Forall_forall in H.
    destruct (H r) as (f & a & p & ->); [apply list_elem_of_In; exact Hr|].
    reflexivity. }
  assert (Har : forall op c, exists col',
             mapM (Series.arith op c) (map (fun r => default PyNone (r !! 1%nat)) rows)
             = Ok col' /\ length col' = length rows).
  { intros op c.
    exists (map (fun r => match default PyNone (r !! 1%nat) with
                          | PyFloat v => PyFloat (op v c) | other => other end) rows).
    split; [|rewrite length_map; reflexivity].
    rewrite mapM_map. apply mapM_ok_map. intros r Hr. rewrite Forall_forall in H.
    destruct (H r) as (f & a & p & ->); [apply list_elem_of_In; exact Hr|].
    reflexivity. }
  destruct q; cbn [normalize].
  - eexists. split; reflexivity.
  - unfold scale_deformation, Pd.getitem, Series.mul, Pd.setitem.
    cbn [columns values names3 Pd.positions String.eqb Ascii.eqb Bool.eqb].
    rewrite Hcol. cbn [bind]. destruct (Har fmul f_1e3) as (col' & -> & Hl).
    cbn [bind]. rewrite Hl, Nat.eqb_refl. eexists. split; [reflexivity|].
    cbn [values]. rewrite length_zip_with. lia.
  - unfold add_amplitude_g, Pd.getitem, Series.truediv, insert_column.
    cbn [columns values names3 Pd.positions String.eqb Ascii.eqb Bool.eqb
         existsb orb length Nat.ltb Nat.leb].
    rewrite Hcol. cbn [bind]. destruct (Har fdiv f_9_81) as (col' & -> & Hl).
    cbn [bind]. rewrite Hl, Nat.eqb_refl. cbn [negb]. eexists. split; [reflexivity|].
    cbn [values]. rewrite length_zip_with. lia.
Qed.

(** ** Rows of numbers and rows of text in the raw files *)

Lemma na_not_number (s : string) :
  Csv.is_na (Some s) = true -> Csv.to_double s = None.
Proof.
  unfold Csv.is_na, Csv.na_values. cbn [existsb]. intros H.
  repeat match type of H with
         | (String.eqb s ?m || _) = true =>
             let E := fresh "E" in
             destruct (String.eqb s m) eqn:E;
               [apply String.eqb_eq in E; subst s; vm_compute; reflexivity
               |cbn [orb] in H]
         end.
  discriminate.
Qed.

Lemma convert_numeric (s : string) :
  numeric s = true ->
  Csv.convert Csv.Float64 (Some s) = PyFloat (the_double s).
Proof.
  unfold numeric, Csv.convert, the_double. intros H.
  destruct (Csv.is_na (Some s)) eqn:E.
  - rewrite (na_not_number s E) in H. discriminate.
  - destruct (Csv.to_double s); [reflexivity|discriminate].
Qed.

Lemma float_cells_row (r : list string) :
  (length r <= 3)%nat -> forallb numeric r = true ->
  zip_with Csv.convert [Csv.Float64; Csv.Float64; Csv.Float64]
    (drop (3 - 3) (map Some r ++ replicate (3 - length r) None))
  = float_cells r.
Proof.
  intros Hl Hn. unfold float_cells.
  destruct r as [|a [|b [|c [|e r]]]]; simpl in Hl; try lia;
    cbn [forallb] in Hn; repeat (apply andb_true_iff in Hn as [?H Hn]);
    cbn [map app length Nat.sub replicate drop zip_with];
    rewrite ?convert_numeric by assumption; reflexivity.
Qed.

Lemma read_csv_floats (content : string) :
  Forall (fun r => (length r <= 3)%nat /\ forallb numeric r = true)
         (Csv.data_rows content) ->
  Csv.read_csv content names3
  = Ok (mkDataFrame names3 (map float_cells (Csv.data_rows content))).
Proof.
  intros H. unfold Csv.read_csv.
  destruct (Csv.data_rows content) as [|r0 rest] eqn:E; [reflexivity|].
  cbv zeta. change (length names3) with 3%nat.
  assert (Hw : Nat.max (length r0) 3 = 3%nat).
  { inversion H as [|? ? [Hl _] _]. lia. }
  rewrite Hw.
  assert (existsb (fun r => (3 <? length r)%nat) (r0 :: rest) = false) as ->.
  { apply not_true_is_false. intros Hex. apply existsb_exists in Hex as (r & Hr & Hlt).
    rewrite Forall_forall in H. destruct (H r) as [Hl _];
      [apply list_elem_of_In; exact Hr|]. apply Nat.ltb_lt in Hlt. lia. }
  set (table := map (fun r => drop (3 - 3) (map Some r ++ replicate (3 - length r) None))
                    (r0 :: rest)).
  assert (Ht : Forall (fun t => exists t0 t1 t2, t = [t0; t1; t2] /\
                 na_or_number t0 = true /\ na_or_number t1 = true /\
                 na_or_number t2 = true) table).
  { unfold table. apply Forall_map. eapply Forall_impl; [exact H|].
    cbn beta. intros r [Hl Hn]. destruct (padded_row r Hl Hn) as (t0 & t1 & t2 & -> & Hp).
    exists t0, t1, t2. split; [reflexivity|exact Hp]. }
  assert (Hc : forall j, (j < 3)%nat -> Csv.infer (Csv.column j table) = Csv.Float64).
  { intros j Hj. apply infer_float. unfold Csv.column.
    apply forallb_forall. intros t Hin. apply in_map_iff in Hin as (r & <- & Hr).
    rewrite Forall_forall in Ht.
    destruct (Ht r) as (t0 & t1 & t2 & -> & H0 & H1 & H2);
      [apply list_elem_of_In; exact Hr|].
    destruct j as [|[|[|j]]]; try lia; assumption. }
  set (cells := map float_cells (r0 :: rest)).
  cbn [seq map]. rewrite !Hc by lia. do 2 f_equal.
  unfold table, cells. rewrite map_map. apply map_ext_in. intros r Hr.
  rewrite Forall_forall in H. destruct (H r) as [Hl Hn];
    [apply list_elem_of_In; exact Hr|].
  apply float_cells_row; assumption.
Qed.

Lemma read_csv_narrow (content : string) (r0 : list string)
    (rest : list (list string)) :
  Csv.data_rows content = r0 :: rest ->
  Forall (fun r => (length r <= Nat.max (length r0) 3)%nat) (r0 :: rest) ->
  exists rows,
    Csv.read_csv content names3 = Ok (mkDataFrame names3 rows) /\
    length rows = length (r0 :: rest).
Proof.
  intros E H. unfold Csv.read_csv. rewrite E. cbv zeta.
  change (length names3) with 3%nat.
  assert (existsb (fun r => (Nat.max (length r0) 3 <? length r)%nat) (r0 :: rest)
          = false) as ->.
  { apply not_true_is_false. intros Hex.
    apply existsb_exists in Hex as (r & Hr & Hlt).
    rewrite Forall_forall in H. specialize (H r (proj2 (list_elem_of_In _ _) Hr)).
    apply Nat.ltb_lt in Hlt. lia. }
  eexists. split; [reflexivity|]. rewrite !length_map. reflexivity.
Qed.

Lemma mapM_first_error {A B : Type} (f : A -> result B) (l : list A)
    (e : PyError) :
  (forall x, In x l -> f x = Raise e \/ exists y, f x = Ok y) ->
  (exists x, In x l /\ f x = Raise e) ->
  mapM f l = Raise e.
Proof.
  induction l as [|a l IH]; intros Hall (x & Hin & Hx); [destruct Hin|].
  cbn [mapM]. destruct (Hall a (or_introl eq_refl)) as [-> | [y Hy]];
    [reflexivity|].
  rewrite Hy. cbn [bind]. rewrite IH; [reflexivity| |].
  - intros z Hz. apply Hall. right. exact Hz.
  - destruct Hin as [<-|Hin]; [rewrite Hy in Hx; discriminate|].
    exists x. split; assumption.
Qed.

Lemma padded_three (r : list string) :
  (length r <= 3)%nat ->
  exists t0 t2,
    drop (3 - 3) (map Some r ++ replicate (3 - length r) None)
    = [t0; r !! 1%nat; t2].
Proof.
  intros Hl. destruct r as [|a [|b [|c [|e r]]]]; simpl in Hl; try lia;
    eexists _, _; reflexivity.
Qed.

(** The frame of a file in which a field under [Amplitude] is a text: the
    column holds that text. *)
Lemma text_amplitude_column (content : string) (r : list string) (s : string) :
  Forall (fun r => (length r <= 3)%nat) (Csv.data_rows content) ->
  In r (Csv.data_rows content) ->
  r !! 1%nat = Some s -> plain_text s = true ->
  exists df col,
    Csv.read_csv content names3 = Ok df /\
    columns df = names3 /\
    Forall (fun r => length r = 3%nat) (values df) /\
    Pd.getitem df "Amplitude" = Ok col /\
    In (PyStr s) col /\
    Forall (fun c => c = PyFloat NaN \/ exists s', c = PyStr s') col.
Proof.
  intros H Hin Hs Hp. unfold Csv.read_csv.
  destruct (Csv.data_rows content) as [|r0 rest] eqn:E; [destruct Hin|].
  cbv zeta. change (length names3) with 3%nat.
  assert (Hw : Nat.max (length r0) 3 = 3%nat).
  { inversion H as [|? ? Hl _]. lia. }
  rewrite Hw.
  assert (existsb (fun r => (3 <? length r)%nat) (r0 :: rest) = false) as ->.
  { apply not_true_is_false. intros Hex.
    apply existsb_exists in Hex as (r' & Hr & Hlt).
    rewrite Forall_forall in H. specialize (H r' (proj2 (list_elem_of_In _ _) Hr)).
    apply Nat.ltb_lt in Hlt. lia. }
  set (rows := r0 :: rest) in *.
  set (table := map (fun r => drop (3 - 3) (map Some r ++ replicate (3 - length r) None))
                    rows).
  assert (Hcol : Csv.column 1 table = map (fun r => r !! 1%nat) rows).
  { unfold Csv.column, table. rewrite map_map. apply map_ext_in. intros r' Hr'.
    rewrite Forall_forall in H. specialize (H r' (proj2 (list_elem_of_In _ _) Hr')).
    destruct (padded_three r' H) as (t0 & t2 & ->). reflexivity. }
  unfold plain_text in Hp. apply andb_true_iff in Hp as [Hp Hna].
  apply andb_true_iff in Hp as [Hnum Hbool].
  apply negb_true_iff in Hnum, Hbool, Hna.
  assert (Hobj : Csv.infer (Csv.column 1 table) = Csv.Object).
  { rewrite Hcol. unfold Csv.infer.
    assert (Hmem : In (Some s) (map (fun r => r !! 1%nat) rows))
      by (apply in_map_iff; exists r; split; assumption).
    destruct (forallb _ _) eqn:F1.
    - rewrite forallb_forall in F1. specialize (F1 _ Hmem).
      rewrite Hna, Hnum in F1. discriminate.
    - destruct (forallb (fun t => Csv.is_na t || Csv.is_bool t) _) eqn:F2;
        [|reflexivity].
      rewrite forallb_forall in F2. specialize (F2 _ Hmem).
      rewrite Hna, Hbool in F2. discriminate. }
  cbn [seq map]. rewrite Hobj.
  set (ty0 := Csv.infer (Csv.column 0 table)).
  set (ty2 := Csv.infer (Csv.column 2 table)).
  assert (Hval : map (zip_with Csv.convert [ty0; Csv.Object; ty2]) table
                 = map (fun r =>
                          [ Csv.convert ty0 (nth 0 (map Some r ++ [None; None; None]) None);
                            Csv.convert Csv.Object (r !! 1%nat);
                            Csv.convert ty2 (nth 2 (map Some r ++ [None; None; None]) None) ])
                       rows).
  { unfold table. rewrite map_map. apply map_ext_in. intros r' Hr'.
    rewrite Forall_forall in H. specialize (H r' (proj2 (list_elem_of_In _ _) Hr')).
    destruct r' as [|a [|b [|c [|e r']]]]; simpl in H; try lia; reflexivity. }
  eexists _, _. split; [reflexivity|]. cbn [columns values].
  split; [reflexivity|]. rewrite Hval. split.
  { apply Forall_map. apply Forall_forall. intros; reflexivity. }
  split.
  { apply (getitem_rows rows _ (fun r => Csv.convert Csv.Object (r !! 1%nat))
             names3 "Amplitude" 1); [reflexivity|]. intros; reflexivity. }
  split.
  - apply in_map_iff. exists r. split; [|exact Hin].
    rewrite Hs. unfold Csv.convert. rewrite Hna. reflexivity.
  - apply Forall_map. apply Forall_forall. intros r' _.
    unfold Csv.convert. destruct (Csv.is_na (r' !! 1%nat)); [left; reflexivity|].
    destruct (r' !! 1%nat) as [s'|]; [right; eexists; reflexivity|left; reflexivity].
Qed.

Lemma arith_text (op : float -> float -> float) (c : float) (col : list cell)
    (s : string) :
  In (PyStr s) col ->
  Forall (fun c => c = PyFloat NaN \/ exists s', c = PyStr s') col ->
  mapM (Series.arith op c) col = Raise TypeError.
Proof.
  intros Hin Hall. apply mapM_first_error.
  - intros x Hx. rewrite Forall_forall in Hall.
    destruct (Hall x (proj2 (list_elem_of_In _ _) Hx)) as [-> | [s' ->]];
      [right; eexists; reflexivity|left; reflexivity].
  - exists (PyStr s). split; [exact Hin|reflexivity].
Qed.

Lemma text_amplitude_fails (q : Quantity) (content : string) (r : list string)
    (s : string) :
  q <> velocity ->
  Forall (fun r => (length r <= 3)%nat) (Csv.data_rows (rewrite_file q content)) ->
  In r (Csv.data_rows (rewrite_file q content)) ->
  r !! 1%nat = Some s -> plain_text s = true ->
  snd (read_file q content) = Raise TypeError.
Proof.
  intros Hq H Hin Hs Hp. unfold read_file. cbn [snd].
  destruct (text_amplitude_column _ r s H Hin Hs Hp)
    as (df & col & -> & Hc & Hr & Hg & Hmem & Hall).
  cbn [bind]. destruct q; [congruence| |]; cbn [normalize].
  - unfold scale_deformation. rewrite Hg. cbn [bind]. unfold Series.mul.
    rewrite (arith_text _ _ col s Hmem Hall). reflexivity.
  - unfold add_amplitude_g. rewrite Hg. cbn [bind]. unfold Series.truediv.
    rewrite (arith_text _ _ col s Hmem Hall). reflexivity.
Qed.

Lemma arith_outcome (op : float -> float -> float) (c : float) (col : list cell) :
  mapM (Series.arith op c) col = Raise TypeError \/
  exists col', mapM (Series.arith op c) col = Ok col' /\ length col' = length col.
Proof.
  induction col as [|v col IH]; [right; exists []; split; reflexivity|].
  cbn [mapM].
  destruct v; cbn [Series.arith bind]; try (left; reflexivity);
    (destruct IH as [-> | (col' & -> & Hl)];
     [left; reflexivity
     |right; eexists; split; [reflexivity|cbn [length]; rewrite Hl; reflexivity]]).
Qed.

(** On a frame of three columns the conversion of the unit fails with
    [TypeError] or gives a frame with as many rows. *)
Lemma normalize_outcome (q : Quantity) (df : DataFrame) :
  columns df = names3 ->
  Forall (fun r => length r = 3%nat) (values df) ->
  normalize q df = Raise TypeError \/
  exists df', normalize q df = Ok df' /\ length (values df') = length (values df).
Proof.
  destruct df as [cols rows]. cbn [columns values]. intros -> H.
  assert (Hcol : mapM (fun r => Py.item r 1) rows
                 = Ok (map (fun r => default PyNone (r !! 1%nat)) rows)).
  { apply mapM_ok_map. intros r Hr. rewrite Forall_forall in H.
    destruct (length_three r (H r (proj2 (list_elem_of_In _ _) Hr)))
      as (f & a & p & ->).
    reflexivity. }
  destruct q; cbn [normalize].
  - right. eexists. split; reflexivity.
  - unfold scale_deformation, Pd.getitem, Series.mul, Pd.setitem.
    cbn [columns values names3 Pd.positions String.eqb Ascii.eqb Bool.eqb].
    rewrite Hcol. cbn [bind].
    destruct (arith_outcome fmul f_1e3
                (map (fun r => default PyNone (r !! 1%nat)) rows))
      as [-> | (col' & -> & Hl)]; [left; reflexivity|right].
    cbn [bind]. rewrite Hl, length_map, Nat.eqb_refl.
    eexists. split; [reflexivity|].
    cbn [values]. rewrite length_zip_with, Hl, length_map. lia.
  - unfold add_amplitude_g, Pd.getitem, Series.truediv, insert_column.
    cbn [columns values names3 Pd.positions String.eqb Ascii.eqb Bool.eqb
         existsb orb length Nat.ltb Nat.leb].
    rewrite Hcol. cbn [bind].
    destruct (arith_outcome fdiv f_9_81
                (map (fun r => default PyNone (r !! 1%nat)) rows))
      as [-> | (col' & -> & Hl)]; [left; reflexivity|right].
    cbn [bind]. rewrite Hl, length_map, Nat.eqb_refl. cbn [negb].
    eexists. split; [reflexivity|].
    cbn [values]. rewrite length_zip_with, Hl, length_map. lia.
Qed.

(** A file without a row that is too wide: the reading gives a frame, and
    the conversion of the unit is all that can fail. *)
Lemma read_file_outcome (q : Quantity) (content : string) (r0 : list string)
    (rest : list (list string)) :
  Csv.data_rows (rewrite_file q content) = r0 :: rest ->
  Forall (fun r => (length r <= Nat.max (length r0) 3)%nat) (r0 :: rest) ->
  (exists df, Csv.read_csv (rewrite_file q content) names3 = Ok df /\
              length (values df) = length (r0 :: rest) /\
              (q = velocity -> snd (read_file q content) = Ok df)) /\
  (snd (read_file q content) = Raise TypeError \/
   exists df', snd (read_file q content) = Ok df' /\
               length (values df') = length (r0 :: rest)).
Proof.
  intros E H. destruct (read_csv_narrow _ r0 rest E H) as (rows & Hread & Hlen).
  unfold read_file. cbn [snd]. rewrite Hread. cbn [bind]. split.
  - eexists. split; [reflexivity|]. split; [exact Hlen|].
    intros ->. reflexivity.
  - destruct (read_csv_shape _ _ Hread) as [Hc Hr].
    destruct (normalize_outcome q _ Hc Hr) as [-> | (df' & -> & Hl)];
      [left; reflexivity|right].
    exists df'. split; [reflexivity|]. rewrite Hl. exact Hlen.
Qed.

(** ** The folders *)



Lemma dimms_length {A : Type} (l : list A) (t : Dimms A) :
  dimms l = Ok t -> dimms_list t = l.
Proof.
  destruct l as [|a1 [|a2 [|a3 [|a4 [|a5 [|a6 [|a7 [|a8 [|a9 l]]]]]]]]];
    simpl; intros H; try discriminate. inversion H. reflexivity.
Qed.

Lemma get_data_missing_folder (q : Quantity) (parent_folder : string)
    (fs : FileSystem) :
  listing fs (data_path parent_folder q) = None ->
  get_data q parent_folder fs = (Raise FileNotFoundError, fs).
Proof.
  intros H. unfold get_data, get_data_files, listdir. rewrite H. reflexivity.
Qed.


Lemma sort_by_axis_order (files : list string) (acc : Axes (list string)) :
  x (sort_by_axis files acc) = x acc ++ List.filter is_x files /\
  y (sort_by_axis files acc) = y acc ++ List.filter is_y files /\
  z (sort_by_axis files acc) = z acc ++ List.filter is_z files.
Proof.
  revert acc. induction files as [|file files IH]; intros acc.
  - simpl. rewrite !app_nil_r. auto.
  - cbn [sort_by_axis List.filter]. unfold is_x at 1, is_y at 1, is_z at 1.
    destruct (search_txt file), (Py.contains "x.txt" file),
      (Py.contains "y.txt" file), (Py.contains "z.txt" file);
      cbn [andb negb];
      match goal with
      | |- context [sort_by_axis files ?a] =>
          destruct (IH a) as (-> & -> & ->)
      end;
      cbn [x y z]; rewrite <- ?app_assoc; repeat split; reflexivity.
Qed.

(** ** The modal frequencies *)

Lemma modal_frequencies_missing (content : string) :
  (forall header rest, modes_lines content = header :: rest ->
                       ~ In "Frequency" (Py.split Py.TAB header)) ->
  raises (get_modal_frequencies content).
Proof.
  intros H. unfold get_modal_frequencies. fold (modes_lines content).
  destruct (modes_lines content) as [|header rest] eqn:E; [apply raises_Raise|].
  cbn [Py.item lookup list_lookup bind].
  destruct (Pd.DataFrame _ _) as [df|e] eqn:Ed; [|apply raises_Raise].
  cbn [bind]. apply DataFrame_columns in Ed.
  unfold Pd.getitem. rewrite Ed, positions_absent by (apply (H header rest eq_refl)).
  apply raises_Raise.
Qed.

Lemma mapM_Forall2 {A B : Type} (f : A -> result B) (l : list A) (l' : list B) :
  mapM f l = Ok l' -> Forall2 (fun a b => f a = Ok b) l l'.
Proof.
  revert l'. induction l as [|a l IH]; intros l' H; simpl in H.
  - inversion H. constructor.
  - apply bind_ok in H as (b & Hb & H). apply bind_ok in H as (bs & Hbs & H).
    inversion H. subst. constructor; [exact Hb|apply IH, Hbs].
Qed.

Lemma mapM_raises_in {A B : Type} (f : A -> result B) (l : list A) (a : A) :
  In a l -> raises (f a) -> raises (mapM f l).
Proof.
  induction l as [|b l IH]; intros Hin Hr; [destruct Hin|].
  simpl. destruct Hin as [->|Hin].
  - apply bind_raises, Hr.
  - destruct (f b) as [y|e]; [|apply raises_Raise]. cbn [bind].
    apply bind_raises, IH; assumption.
Qed.

Lemma padded_field (w j : nat) (fields : list string) (c : cell) (mode : float) :
  Py.item (Pd.pad w (map PyStr fields)) j = Ok c ->
  float_of_cell c = Ok mode ->
  exists field, fields !! j = Some field /\ Num.py_float field = Some mode.
Proof.
  unfold Py.item, Pd.pad. intros Hc Hm.
  destruct ((map PyStr fields ++ replicate (w - length (map PyStr fields)) PyNone) !! j)
    as [c'|] eqn:E; [|discriminate].
  inversion Hc. subst c'. clear Hc.
  destruct (fields !! j) as [field|] eqn:Ef.
  - rewrite lookup_app_l in E
      by (rewrite length_map; eapply lookup_lt_Some, Ef).
    rewrite list_lookup_fmap, Ef in E. inversion E. subst c.
    exists field. split; [reflexivity|]. simpl in Hm.
    destruct (Num.py_float field); [inversion Hm; reflexivity|discriminate].
  - apply lookup_ge_None in Ef.
    rewrite lookup_app_r in E by (rewrite length_map; exact Ef).
    apply lookup_replicate in E as [-> _]. discriminate.
Qed.

Lemma modal_sound (content : string) (modes : list float) :
  get_modal_frequencies content = Ok modes ->
  exists header rest j,
    modes_lines content = header :: rest /\
    Pd.positions "Frequency" (Py.split Py.TAB header) O = [j] /\
    Forall2 (fun line mode => exists field,
               Py.split Py.TAB line !! j = Some field /\
               Num.py_float field = Some mode) rest modes.
Proof.
  unfold get_modal_frequencies. fold (modes_lines content).
  destruct (modes_lines content) as [|header rest]; [discriminate|].
  cbn [Py.item lookup list_lookup bind]. change (drop 1 (header :: rest)) with rest.
  intros H. apply bind_ok in H as (df & Hdf & H).
  apply bind_ok in H as (col & Hcol & H). apply bind_ok in H as (ms & Hms & H).
  inversion H. subst ms. clear H.
  exists header, rest.
  assert (Hc : columns df = Py.split Py.TAB header)
    by (eapply DataFrame_columns, Hdf).
  unfold Pd.getitem in Hcol. rewrite Hc in Hcol.
  destruct (Pd.positions "Frequency" (Py.split Py.TAB header) 0)
    as [|j [|j' js]] eqn:Ep; try discriminate.
  exists j. split; [reflexivity|]. split; [reflexivity|].
  unfold Pd.DataFrame, str_cells in Hdf.
  destruct (map (map PyStr) (map (Py.split Py.TAB) rest)) as [|r rs] eqn:Er.
  - destruct rest; [|discriminate]. inversion Hdf. subst df.
    simpl in Hcol. inversion Hcol. subst col. simpl in Hms. inversion Hms.
    constructor.
  - rewrite <- Er in Hdf.
    destruct (_ =? _)%nat; [|discriminate]. inversion Hdf. subst df.
    cbn [values] in Hcol. clear Hdf Er Hc.
    set (w := Pd.width _) in Hcol. clearbody w.
    rewrite !mapM_map in Hcol.
    apply mapM_Forall2 in Hcol. apply mapM_Forall2 in Hms.
    clear Ep. revert col modes Hcol Hms.
    induction rest as [|line rest IH]; intros col modes Hcol Hms.
    + inversion Hcol. subst. inversion Hms. constructor.
    + inversion Hcol as [|? c ? col' Hc Hcol']. subst.
      inversion Hms as [|? m ? modes' Hm Hms']. subst.
      constructor; [|apply (IH col'); assumption].
      eapply padded_field; eassumption.
Qed.

(** ** The width of the rows of [modes.txt] *)

Lemma width_widest (rest : list string) :
  Pd.width (str_cells (map (Py.split Py.TAB) rest)) = widest rest.
Proof.
  unfold Pd.width, widest, str_cells.
  induction rest as [|line rest IH]; [reflexivity|].
  cbn [map foldr]. rewrite IH, length_map. reflexivity.
Qed.

Lemma modal_column_padded (w : nat) (rest : list string) (modes : list float)
    (j : nat) :
  Forall2 (fun line mode => exists field,
             Py.split Py.TAB line !! j = Some field /\
             Num.py_float field = Some mode) rest modes ->
  exists col,
    mapM (fun r => Py.item r j)
         (map (Pd.pad w) (str_cells (map (Py.split Py.TAB) rest))) = Ok col /\
    mapM float_of_cell col = Ok modes.
Proof.
  unfold str_cells.
  induction 1 as [|line mode rest modes (field & Hf & Hv) _ (col & Hc & Hm)].
  - exists []. split; reflexivity.
  - exists (PyStr field :: col). split.
    + cbn [map mapM]. unfold Py.item at 1, Pd.pad at 1.
      rewrite lookup_app_l
        by (rewrite length_map; eapply lookup_lt_Some, Hf).
      rewrite list_lookup_fmap, Hf. cbn [fmap option_fmap option_map bind].
      rewrite Hc. reflexivity.
    + cbn [mapM float_of_cell]. rewrite Hv. cbn [bind]. rewrite Hm. reflexivity.
Qed.

Lemma modal_frequencies_fit (content header : string) (rest : list string)
    (j : nat) (modes : list float) :
  modes_lines content = header :: rest ->
  Pd.positions "Frequency" (Py.split Py.TAB header) O = [j] ->
  rest = [] \/ widest rest = length (Py.split Py.TAB header) ->
  Forall2 (fun line mode => exists field,
             Py.split Py.TAB line !! j = Some field /\
             Num.py_float field = Some mode) rest modes ->
  get_modal_frequencies content = Ok modes.
Proof.
  intros E Hp Hw Hm. unfold get_modal_frequencies. fold (modes_lines content).
  rewrite E. cbn [Py.item lookup list_lookup bind drop].
  change (drop 0 rest) with rest.
  destruct rest as [|line rest].
  - inversion Hm. subst. cbn [map str_cells Pd.DataFrame bind].
    unfold Pd.getitem. cbn [columns values]. rewrite Hp. reflexivity.
  - destruct Hw as [Hw|Hw]; [discriminate|].
    unfold Pd.DataFrame.
    destruct (str_cells (map (Py.split Py.TAB) (line :: rest))) as [|r rs] eqn:Er;
      [discriminate|].
    rewrite <- Er, width_widest, Hw, Nat.eqb_refl. cbn [bind].
    unfold Pd.getitem. cbn [columns values]. rewrite Hp.
    destruct (modal_column_padded (length (Py.split Py.TAB header))
                (line :: rest) modes j Hm) as (col & -> & Hc).
    cbn [bind]. rewrite Hc. reflexivity.
Qed.

Lemma modal_width (content header : string) (rest : list string)
    (modes : list float) :
  modes_lines content = header :: rest ->
  get_modal_frequencies content = Ok modes ->
  rest = [] \/ widest rest = length (Py.split Py.TAB header).
Proof.
  intros E. unfold get_modal_frequencies. fold (modes_lines content).
  rewrite E. cbn [Py.item lookup list_lookup bind drop].
  change (drop 0 rest) with rest. intros H.
  apply bind_ok in H as (df & Hdf & _).
  destruct rest as [|line rest]; [left; reflexivity|right].
  unfold Pd.DataFrame in Hdf.
  destruct (str_cells (map (Py.split Py.TAB) (line :: rest))) as [|r rs] eqn:Er;
    [discriminate|].
  rewrite <- Er, width_widest in Hdf.
  destruct (Nat.eqb_spec (widest (line :: rest)) (length (Py.split Py.TAB header)));
    [assumption|discriminate].
Qed.

Lemma modal_frequencies_key (content header : string) (rest : list string) :
  modes_lines content = header :: rest ->
  ~ In "Frequency" (Py.split Py.TAB header) ->
  rest = [] \/ widest rest = length (Py.split Py.TAB header) ->
  get_modal_frequencies content = Raise (KeyError "Frequency").
Proof.
  intros E Hn Hw. unfold get_modal_frequencies. fold (modes_lines content).
  rewrite E. cbn [Py.item lookup list_lookup bind drop].
  change (drop 0 rest) with rest.
  assert (exists df, Pd.DataFrame (str_cells (map (Py.split Py.TAB) rest))
                       (Py.split Py.TAB header) = Ok df) as (df & Hdf).
  { destruct rest as [|line rest]; [eexists; reflexivity|].
    destruct Hw as [Hw|Hw]; [discriminate|].
    unfold Pd.DataFrame.
    destruct (str_cells (map (Py.split Py.TAB) (line :: rest))) as [|r rs] eqn:Er;
      [discriminate|].
    rewrite <- Er, width_widest, Hw, Nat.eqb_refl. eexists. reflexivity. }
  rewrite Hdf. cbn [bind]. unfold Pd.getitem.
  rewrite (DataFrame_columns _ _ _ Hdf), positions_absent by exact Hn.
  reflexivity.
Qed.

Lemma modal_frequencies_none (content : string) :
  modes_lines content = [] -> get_modal_frequencies content = Raise IndexError.
Proof.
  intros E. unfold get_modal_frequencies. fold (modes_lines content).
  rewrite E. reflexivity.
Qed.

(** * The properties of the program *)

(** ** C1: the tables of a well-formed report *)

(** C1. On a report with eight well-formed blocks the parser passes over
    the six lines of the preamble, takes the block of sensor [i] from the
    lines [14 i] to [14 i + 9] of the rest, drops the second line of the
    block, and returns eight tables.  Each table has the labels of the
    schema of the quantity (four for acceleration, three for velocity and
    deformation) and seven rows, made in order from the lines of mean,
    std, min, 25%, 50%, 75% and max. *)
Theorem summary_blocks (q : Quantity) (content : string) :
  wf_report q content = true ->
  exists t,
    load_dfs q content = Ok t /\
    forall i, (i < 8)%nat ->
      exists df,
        dimms_list t !! i = Some df /\
        columns df = schema q /\
        values df
        = map (table_row q)
              (Py.slice (report_lines content) (14 * i + 2) (14 * i + 9)) /\
        length (values df) = 7%nat /\
        Forall2 (fun label line => Py.split " " line !! O = Some label)
                statistics
                (Py.slice (report_lines content) (14 * i + 2) (14 * i + 9)).
Proof.
  intros H. unfold wf_report in H. cbn [seq forallb] in H.
  repeat (apply andb_true_iff in H as [?H H]). clear H.
  repeat match goal with
         | Hb : wf_block q _ = true |- _ =>
             apply block_wf in Hb; destruct Hb as (? & ? & ? & ? & ?)
         end.
  unfold load_dfs, load_dfs_from_description. cbv zeta.
  fold (report_lines content).
  cbn [Nat.mul Nat.add] in *.
  repeat match goal with
         | Hd : d _ = Ok _ |- _ => rewrite Hd; clear Hd
         end.
  cbn [bind].
  repeat match goal with
         | Hd : to_df_of q _ = Ok _ |- _ => rewrite Hd; clear Hd
         end.
  cbn [bind]. eexists. split; [reflexivity|].
  intros i Hi.
  destruct i as [|[|[|[|[|[|[|[|i]]]]]]]]; try lia;
    cbn [dimms_list DIMM1 DIMM2 DIMM3 DIMM4 DIMM5 DIMM6 DIMM7 DIMM8
         lookup list_lookup Nat.mul Nat.add];
    eexists; (split; [reflexivity|]); cbn [columns values];
    (split; [reflexivity|]); (split; [reflexivity|]);
    rewrite length_map; split; assumption.
Qed.

Lemma summary_blocks_witness :
  wf_report acceleration acceleration_report = true /\
  wf_report deformation deformation_report = true /\
  is_ok (load_dfs acceleration acceleration_report) = true /\
  is_ok (load_dfs deformation deformation_report) = true.
Proof.
  assert (Ha : wf_report acceleration acceleration_report = true)
    by (vm_compute; reflexivity).
  assert (Hd : wf_report deformation deformation_report = true)
    by (vm_compute; reflexivity).
  split; [exact Ha|]. split; [exact Hd|]. split.
  - destruct (summary_blocks acceleration acceleration_report Ha) as (t & -> & _).
    reflexivity.
  - destruct (summary_blocks deformation deformation_report Hd) as (t & -> & _).
    reflexivity.
Defined.

(** ** C2: the unit conversions *)

(** C2. When a raw file is read without error, the frame returned is the
    frame [read_csv] gives for the rewritten file and, for acceleration,
    with a column [Amplitude_g] put after [Frequency] that holds in every
    row the value of [Amplitude] divided by [9.81], the three columns read
    being kept as they are; for deformation, with every value of
    [Amplitude] multiplied by [1e3] and nothing else changed; for velocity,
    unchanged.  The constants are the floats of the literals [9.81] and
    [1e3], and on a float the operation is the division or the product of
    binary64 floats: [2.0 * 1e3] is [2000.0], [0.1234 * 1e3] is
    [123.39999999999999] (and not [123.4]), [2.0 / 9.81] is
    [0.2038735983690112], [0.1234 / 9.81] is [0.012579001019367991], and a
    missing value stays missing. *)
Theorem unit_normalizer (q : Quantity) (content : string) (df' : DataFrame) :
  snd (read_file q content) = Ok df' ->
  exists df,
    Csv.read_csv (rewrite_file q content) names3 = Ok df /\
    match q with
    | acceleration =>
        columns df' = ["Frequency"; "Amplitude_g"; "Amplitude"; "Phase Angle"] /\
        Forall2 (fun r r' => exists f a p g,
                   r = [f; a; p] /\ Series.arith fdiv f_9_81 a = Ok g /\
                   r' = [f; g; a; p])
                (values df) (values df')
    | deformation =>
        columns df' = ["Frequency"; "Amplitude"; "Phase Angle"] /\
        Forall2 (fun r r' => exists f a p g,
                   r = [f; a; p] /\ Series.arith fmul f_1e3 a = Ok g /\
                   r' = [f; g; p])
                (values df) (values df')
    | velocity => df' = df
    end /\
    Num.py_float "9.81" = Some f_9_81 /\
    Num.py_float "1e3" = Some f_1e3 /\
    (forall op c v, Series.arith op c (PyFloat v) = Ok (PyFloat (op v c))) /\
    Num.py_float "2000.0" = Some (fmul (the_float "2.0") f_1e3) /\
    Num.py_float "123.39999999999999" = Some (fmul (the_float "0.1234") f_1e3) /\
    Num.py_float "123.4" <> Some (fmul (the_float "0.1234") f_1e3) /\
    Num.py_float "0.2038735983690112" = Some (fdiv (the_float "2.0") f_9_81) /\
    Num.py_float "0.012579001019367991"
    = Some (fdiv (the_float "0.1234") f_9_81) /\
    fmul NaN f_1e3 = NaN /\ fdiv NaN f_9_81 = NaN.
Proof.
  unfold read_file. cbn [snd]. intros H.
  apply bind_ok in H as (df & Hread & Hnorm). exists df.
  split; [exact Hread|].
  destruct (read_csv_shape _ _ Hread) as [Hcols Hrows].
  split.
  { destruct q; cbn [normalize] in Hnorm.
    - inversion Hnorm. reflexivity.
    - apply scale_deformation_rows; assumption.
    - apply add_amplitude_g_rows; assumption. }
  split; [reflexivity|]. split; [reflexivity|]. split; [reflexivity|].
  split; [vm_compute; reflexivity|]. split; [vm_compute; reflexivity|].
  split; [vm_compute; discriminate|]. split; [vm_compute; reflexivity|].
  split; [vm_compute; reflexivity|]. split; reflexivity.
Qed.

Lemma unit_normalizer_witness :
  snd (read_file acceleration raw_file)
  = Ok (mkDataFrame ["Frequency"; "Amplitude_g"; "Amplitude"; "Phase Angle"]
          [[PyFloat (float_of_nat 1); PyFloat (the_float "0.2038735983690112");
            PyFloat (float_of_nat 2); PyFloat (float_of_nat 3)]]) /\
  Num.format_f 4 (the_float "0.2038735983690112") = "0.2039" /\
  (exists df,
     Csv.read_csv (rewrite_file acceleration raw_file) names3 = Ok df /\
     Forall2 (fun r r' => exists f a p g,
                r = [f; a; p] /\ Series.arith fdiv f_9_81 a = Ok g /\
                r' = [f; g; a; p])
             (values df)
             [[PyFloat (float_of_nat 1); PyFloat (the_float "0.2038735983690112");
               PyFloat (float_of_nat 2); PyFloat (float_of_nat 3)]]) /\
  snd (read_file deformation raw_file)
  = Ok (mkDataFrame ["Frequency"; "Amplitude"; "Phase Angle"]
          [[PyFloat (float_of_nat 1); PyFloat (float_of_nat 2000);
            PyFloat (float_of_nat 3)]]) /\
  snd (read_file deformation deformation_file)
  = Ok (mkDataFrame ["Frequency"; "Amplitude"; "Phase Angle"]
          [[PyFloat (float_of_nat 1); PyFloat (the_float "123.39999999999999");
            PyFloat (float_of_nat 3)];
           [PyFloat (float_of_nat 2); PyFloat (the_float "1.5");
            PyFloat (the_float "-90.0")]]) /\
  (exists df,
     Csv.read_csv (rewrite_file deformation deformation_file) names3 = Ok df /\
     values df
     = [[PyFloat (float_of_nat 1); PyFloat (the_float "0.1234");
         PyFloat (float_of_nat 3)];
        [PyFloat (float_of_nat 2); PyFloat (the_float "0.0015");
         PyFloat (the_float "-90.0")]] /\
     Forall2 (fun r r' => exists f a p g,
                r = [f; a; p] /\ Series.arith fmul f_1e3 a = Ok g /\
                r' = [f; g; p])
             (values df)
             [[PyFloat (float_of_nat 1); PyFloat (the_float "123.39999999999999");
               PyFloat (float_of_nat 3)];
              [PyFloat (float_of_nat 2); PyFloat (the_float "1.5");
               PyFloat (the_float "-90.0")]]) /\
  Csv.read_csv (rewrite_file velocity deformation_file) names3
  = Ok (mkDataFrame ["Frequency"; "Amplitude"; "Phase Angle"]
          [[PyFloat (float_of_nat 1); PyFloat (the_float "0.1234");
            PyFloat (float_of_nat 3)];
           [PyFloat (float_of_nat 2); PyFloat (the_float "0.0015");
            PyFloat (the_float "-90.0")]]).
Proof.
  assert (Ha : snd (read_file acceleration raw_file)
    = Ok (mkDataFrame ["Frequency"; "Amplitude_g"; "Amplitude"; "Phase Angle"]
            [[PyFloat (float_of_nat 1); PyFloat (the_float "0.2038735983690112");
              PyFloat (float_of_nat 2); PyFloat (float_of_nat 3)]]))
    by (vm_compute; reflexivity).
  assert (Hd : snd (read_file deformation deformation_file)
    = Ok (mkDataFrame ["Frequency"; "Amplitude"; "Phase Angle"]
            [[PyFloat (float_of_nat 1); PyFloat (the_float "123.39999999999999");
              PyFloat (float_of_nat 3)];
             [PyFloat (float_of_nat 2); PyFloat (the_float "1.5");
              PyFloat (the_float "-90.0")]]))
    by (vm_compute; reflexivity).
  assert (Hv : snd (read_file velocity deformation_file)
    = Ok (mkDataFrame ["Frequency"; "Amplitude"; "Phase Angle"]
            [[PyFloat (float_of_nat 1); PyFloat (the_float "0.1234");
              PyFloat (float_of_nat 3)];
             [PyFloat (float_of_nat 2); PyFloat (the_float "0.0015");
              PyFloat (the_float "-90.0")]]))
    by (vm_compute; reflexivity).
  split; [exact Ha|]. split; [vm_compute; reflexivity|]. split.
  { destruct (unit_normalizer acceleration raw_file _ Ha)
      as (df & Hread & (_ & Hrows) & _).
    exists df. split; [exact Hread|exact Hrows]. }
  split; [vm_compute; reflexivity|]. split; [exact Hd|]. split.
  { destruct (unit_normalizer deformation deformation_file _ Hd)
      as (df & Hread & (_ & Hrows) & _).
    exists df. split; [exact Hread|]. split; [|exact Hrows].
    vm_compute in Hread. injection Hread as <-. vm_compute. reflexivity. }
  destruct (unit_normalizer velocity deformation_file _ Hv)
    as (df & Hread & Heq & _).
  rewrite Hread, <- Heq. reflexivity.
Defined.

(** ** C3: the texts of the cells *)



(** ** C4: the order of the sensors *)

(** C4 (the code at the failing input). The files of an axis are read in
    the order in which the folder is listed, which the code never sorts:
    when the system lists [DIMM2x.txt] before [DIMM1x.txt], the field
    [DIMM1] of the x axis holds the frame of [DIMM2x.txt], of frequency
    [2.0]. *)
Theorem listing_order_decides_sensors :
  (forall files,
     x (sort_by_axis files (mkAxes [] [] [])) = List.filter is_x files /\
     y (sort_by_axis files (mkAxes [] [] [])) = List.filter is_y files /\
     z (sort_by_axis files (mkAxes [] [] [])) = List.filter is_z files) /\
  exists t,
    fst (get_deformation_data "sim1" unsorted_folder) = Ok t /\
    map (fun df => Pd.getitem df "Frequency") (dimms_list (x t))
    = map (fun n => Ok [PyFloat (float_of_nat n)]) [2; 1; 3; 4; 5; 6; 7; 8]%nat.
Proof.
  split.
  - intros files. apply (sort_by_axis_order files (mkAxes [] [] [])).
  - eexists. split; vm_compute; reflexivity.
Qed.

(** ** C5: reports that are refused *)

(** C5, as it is stated, does not hold. A report of 112 lines, fewer than
    [6 + 8*14 - 5], is parsed without error: the last table has six rows. *)
Lemma short_report_accepted :
  length (File.readlines short_report) = 112%nat /\
  (112 < 6 + 8 * 14 - 5)%nat /\
  exists t,
    load_dfs acceleration short_report = Ok t /\
    map (fun df => length (values df)) (dimms_list t) = [7; 7; 7; 7; 7; 7; 7; 6]%nat.
Proof.
  split; [vm_compute; reflexivity|]. split; [simpl; lia|].
  eexists. split; vm_compute; reflexivity.
Qed.

(** C5 (amended). The parser fails, with [IndexError], on every input of
    fewer than 105 lines (the slice of some block is then empty), and it
    fails on every input in which the first line of a block gives no
    label [Frequency], [Amplitude] or [Phase_Angle] (or [Amplitude_g] in
    an acceleration report). *)
Theorem malformed_reports (q : Quantity) (content : string) :
  ((length (File.readlines content) < 105)%nat ->
   load_dfs q content = Raise IndexError) /\
  (forall i name,
     (i < 8)%nat -> In name (schema q) ->
     (forall cols,
        block_labels (Py.slice (report_lines content) (14 * i) (14 * i + 9))
        = Ok cols ->
        ~ In name cols) ->
     raises (load_dfs q content)).
Proof.
  split.
  - apply too_few_lines.
  - intros i name. apply missing_label.
Qed.

Lemma malformed_reports_witness :
  load_dfs acceleration (unlines (take 100 acceleration_lines)) = Raise IndexError /\
  raises (load_dfs acceleration mislabelled_report).
Proof.
  split.
  - apply (proj1 (malformed_reports acceleration
                    (unlines (take 100 acceleration_lines)))).
    vm_compute. lia.
  - apply (proj2 (malformed_reports acceleration mislabelled_report)
             O "Frequency").
    + lia.
    + left. reflexivity.
    + intros cols H. vm_compute in H. injection H as <-.
      simpl. intuition discriminate.
Defined.

(** ** C6: inputs the reader takes *)

(** C6, as it is stated, does not hold. A file with its header and no data
    row is read without error, as an empty frame; a file whose data row has
    two fields is read, the third value being NaN; a file whose first field
    is the word [abc] is read for the three quantities, the word being kept
    in the frame; and a word under [Amplitude] is read for velocity. *)
Lemma empty_input_accepted :
  Csv.data_rows (rewrite_file acceleration header_only_file) = [] /\
  snd (read_file acceleration header_only_file)
  = Ok (mkDataFrame ["Frequency"; "Amplitude_g"; "Amplitude"; "Phase Angle"] []) /\
  snd (read_file deformation header_only_file)
  = Ok (mkDataFrame ["Frequency"; "Amplitude"; "Phase Angle"] []) /\
  Csv.data_rows (rewrite_file acceleration short_row_file) = [["1.0"; "2.0"]] /\
  snd (read_file acceleration short_row_file)
  = Ok (mkDataFrame ["Frequency"; "Amplitude_g"; "Amplitude"; "Phase Angle"]
          [[PyFloat (float_of_nat 1); PyFloat (fdiv (float_of_nat 2) f_9_81);
            PyFloat (float_of_nat 2); PyFloat NaN]]) /\
  Csv.data_rows (rewrite_file velocity text_token_file) = [["abc"; "2.0"; "3.0"]] /\
  numeric "abc" = false /\
  snd (read_file velocity text_token_file)
  = Ok (mkDataFrame ["Frequency"; "Amplitude"; "Phase Angle"]
          [[PyStr "abc"; PyFloat (float_of_nat 2); PyFloat (float_of_nat 3)]]) /\
  snd (read_file deformation text_token_file)
  = Ok (mkDataFrame ["Frequency"; "Amplitude"; "Phase Angle"]
          [[PyStr "abc"; PyFloat (float_of_nat 2000); PyFloat (float_of_nat 3)]]) /\
  snd (read_file acceleration text_token_file)
  = Ok (mkDataFrame ["Frequency"; "Amplitude_g"; "Amplitude"; "Phase Angle"]
          [[PyStr "abc"; PyFloat (fdiv (float_of_nat 2) f_9_81);
            PyFloat (float_of_nat 2); PyFloat (float_of_nat 3)]]) /\
  snd (read_file velocity text_amplitude_file)
  = Ok (mkDataFrame ["Frequency"; "Amplitude"; "Phase Angle"]
          [[PyFloat (float_of_nat 1); PyStr "2.0"; PyFloat (float_of_nat 3)];
           [PyFloat (float_of_nat 1); PyStr "abc"; PyFloat (float_of_nat 3)]]).
Proof. repeat split; vm_compute; reflexivity. Qed.

(** C6 (amended). The reader checks neither the number of rows nor that
    the fields are numbers.  For a rewritten text without a quote
    character, whose data rows are the lines after the first cut at the
    blanks, the blank lines left out: (1) with no data row it returns an
    empty frame; (2) when every data row has at most three fields, all
    numbers, [read_csv] gives for each data row the floats of its fields,
    then NaN for each field that lacks, and the reader returns a frame
    with one row for each data row; (3) it fails, with pandas'
    [ParserError], when a data row has more fields than the first data row
    and than three; (4) when no data row is that wide, [read_csv] gives a
    frame with one row for each data row whatever the fields are, which
    the reader returns as it is for velocity, and for the other quantities
    the reader returns a frame of as many rows or fails with [TypeError];
    (5) for deformation and acceleration it does fail with [TypeError]
    when the data rows have at most three fields and the second field of
    one of them is a text that is no number, no boolean and no marker of a
    missing value. *)
Theorem record_reader_checks (q : Quantity) (content : string) :
  quote_free (rewrite_file q content) = true ->
  let rows := Csv.data_rows (rewrite_file q content) in
  (rows = [] ->
   exists df, snd (read_file q content) = Ok df /\ values df = []) /\
  (Forall (fun r => (length r <= 3)%nat /\ forallb numeric r = true) rows ->
   Csv.read_csv (rewrite_file q content) names3
   = Ok (mkDataFrame names3 (map float_cells rows)) /\
   exists df,
     snd (read_file q content) = Ok df /\
     length (values df) = length rows) /\
  (forall r0 rest r,
     rows = r0 :: rest ->
     In r (r0 :: rest) ->
     (Nat.max (length r0) 3 < length r)%nat ->
     snd (read_file q content) = Raise ParserError) /\
  (forall r0 rest,
     rows = r0 :: rest ->
     Forall (fun r => (length r <= Nat.max (length r0) 3)%nat) rows ->
     (exists df,
        Csv.read_csv (rewrite_file q content) names3 = Ok df /\
        length (values df) = length rows /\
        (q = velocity -> snd (read_file q content) = Ok df)) /\
     (snd (read_file q content) = Raise TypeError \/
      exists df',
        snd (read_file q content) = Ok df' /\
        length (values df') = length rows)) /\
  (forall r s,
     q <> velocity ->
     Forall (fun r => (length r <= 3)%nat) rows ->
     In r rows -> r !! 1%nat = Some s -> plain_text s = true ->
     snd (read_file q content) = Raise TypeError).
Proof.
  intros _. cbv zeta.
  assert (Hnum : Forall (fun r => (length r <= 3)%nat /\ forallb numeric r = true)
                   (Csv.data_rows (rewrite_file q content)) ->
          exists df,
            snd (read_file q content) = Ok df /\
            length (values df) = length (Csv.data_rows (rewrite_file q content))).
  { intros H. unfold read_file. cbn [snd].
    destruct (read_csv_numeric _ H) as (rows & -> & Hlen & Hrows).
    cbn [bind]. destruct (normalize_floats q rows Hrows) as (df & -> & Hl).
    exists df. split; [reflexivity|]. rewrite Hl. exact Hlen. }
  split; [|split; [|split; [|split]]].
  - intros H. destruct Hnum as (df & Hdf & Hl); [rewrite H; constructor|].
    exists df. split; [exact Hdf|]. rewrite H in Hl.
    destruct (values df); [reflexivity|discriminate].
  - intros H. split; [apply read_csv_floats, H|apply Hnum, H].
  - intros r0 rest r H Hin Hlen. unfold read_file. cbn [snd].
    rewrite (read_csv_wide _ names3 r0 rest r H Hin Hlen). reflexivity.
  - intros r0 rest H Hall. rewrite H in Hall |- *.
    apply read_file_outcome; assumption.
  - intros r s. apply text_amplitude_fails.
Qed.

Lemma record_reader_checks_witness :
  snd (read_file velocity wide_row_file) = Raise ParserError /\
  (exists df,
     snd (read_file acceleration header_only_file) = Ok df /\ values df = []) /\
  Csv.read_csv (rewrite_file deformation short_row_file) names3
  = Ok (mkDataFrame names3
          [[PyFloat (float_of_nat 1); PyFloat (float_of_nat 2); PyFloat NaN]]) /\
  (exists df,
     snd (read_file velocity text_amplitude_file) = Ok df /\
     length (values df) = 2%nat) /\
  snd (read_file deformation text_amplitude_file) = Raise TypeError /\
  snd (read_file acceleration text_amplitude_file) = Raise TypeError.
Proof.
  assert (Hw : quote_free (rewrite_file velocity wide_row_file) = true)
    by (vm_compute; reflexivity).
  assert (Hh : quote_free (rewrite_file acceleration header_only_file) = true)
    by (vm_compute; reflexivity).
  assert (Hs : quote_free (rewrite_file deformation short_row_file) = true)
    by (vm_compute; reflexivity).
  assert (Hv : quote_free (rewrite_file velocity text_amplitude_file) = true)
    by (vm_compute; reflexivity).
  assert (Hd : quote_free (rewrite_file deformation text_amplitude_file) = true)
    by (vm_compute; reflexivity).
  assert (Ha : quote_free (rewrite_file acceleration text_amplitude_file) = true)
    by (vm_compute; reflexivity).
  apply (record_reader_checks velocity wide_row_file) in Hw.
  apply (record_reader_checks acceleration header_only_file) in Hh.
  apply (record_reader_checks deformation short_row_file) in Hs.
  apply (record_reader_checks velocity text_amplitude_file) in Hv.
  apply (record_reader_checks deformation text_amplitude_file) in Hd.
  apply (record_reader_checks acceleration text_amplitude_file) in Ha.
  cbv zeta in Hw, Hh, Hs, Hv, Hd, Ha.
  destruct Hw as (_ & _ & Hw & _). destruct Hh as (Hh & _).
  destruct Hs as (_ & Hs & _). destruct Hv as (_ & _ & _ & Hv & _).
  destruct Hd as (_ & _ & _ & _ & Hd). destruct Ha as (_ & _ & _ & _ & Ha).
  split; [|split; [|split; [|split; [|split]]]].
  - apply (Hw ["1.0"; "2.0"; "3.0"] [["1.0"; "2.0"; "3.0"; "4.0"]]
              ["1.0"; "2.0"; "3.0"; "4.0"]).
    + vm_compute. reflexivity.
    + right. left. reflexivity.
    + simpl. lia.
  - apply Hh. vm_compute. reflexivity.
  - destruct Hs as [Hread _].
    + replace (Csv.data_rows (rewrite_file deformation short_row_file))
        with [["1.0"; "2.0"]] by (vm_compute; reflexivity).
      constructor; [|constructor].
      split; [simpl; lia|vm_compute; reflexivity].
    + rewrite Hread. vm_compute. reflexivity.
  - destruct (Hv ["1.0"; "2.0"; "3.0"] [["1.0"; "abc"; "3.0"]])
      as ((df & _ & Hl & Hok) & _).
    + vm_compute. reflexivity.
    + replace (Csv.data_rows (rewrite_file velocity text_amplitude_file))
        with [["1.0"; "2.0"; "3.0"]; ["1.0"; "abc"; "3.0"]]
        by (vm_compute; reflexivity).
      repeat constructor.
    + exists df. split; [apply Hok; reflexivity|].
      rewrite Hl. vm_compute. reflexivity.
  - apply (Hd ["1.0"; "abc"; "3.0"] "abc").
    + discriminate.
    + replace (Csv.data_rows (rewrite_file deformation text_amplitude_file))
        with [["1.0"; "2.0"; "3.0"]; ["1.0"; "abc"; "3.0"]]
        by (vm_compute; reflexivity).
      repeat constructor.
    + replace (Csv.data_rows (rewrite_file deformation text_amplitude_file))
        with [["1.0"; "2.0"; "3.0"]; ["1.0"; "abc"; "3.0"]]
        by (vm_compute; reflexivity).
      right. left. reflexivity.
    + reflexivity.
    + vm_compute. reflexivity.
  - apply (Ha ["1.0"; "abc"; "3.0"] "abc").
    + discriminate.
    + replace (Csv.data_rows (rewrite_file acceleration text_amplitude_file))
        with [["1.0"; "2.0"; "3.0"]; ["1.0"; "abc"; "3.0"]]
        by (vm_compute; reflexivity).
      repeat constructor.
    + replace (Csv.data_rows (rewrite_file acceleration text_amplitude_file))
        with [["1.0"; "2.0"; "3.0"]; ["1.0"; "abc"; "3.0"]]
        by (vm_compute; reflexivity).
      right. left. reflexivity.
    + reflexivity.
    + vm_compute. reflexivity.
Defined.

(** ** C7: folders that are refused *)



(** ** C8: the rewritten header *)

(** C8. Reading a raw file a second time writes back the text the first
    reading wrote, and returns the same frame or the same error; the
    first reading does change the file. *)
Theorem header_rewrite_idempotent (q : Quantity) (content : string) :
  fst (read_file q (fst (read_file q content))) = fst (read_file q content) /\
  snd (read_file q (fst (read_file q content))) = snd (read_file q content) /\
  fst (read_file q raw_file) <> raw_file.
Proof.
  unfold read_file. cbn [fst snd]. rewrite rewrite_idempotent.
  split; [reflexivity|]. split; [reflexivity|].
  destruct q; vm_compute; discriminate.
Qed.

(** ** C9: the modal frequencies *)

(** C9, as it is stated, does not hold. Each of these files has a header
    with a field [Frequency], and the loader fails on each: on rows of one
    field under a header of two the frame cannot be made ([ValueError]); a
    blank line at the end gives a row whose field [float] refuses
    ([ValueError]); and under a header with [Frequency] twice the loader
    gets a frame where it expects a column ([AttributeError]). *)
Lemma frequency_header_not_enough :
  map (Py.split Py.TAB) (modes_lines modes_narrow_txt)
  = [["Frequency"; "Amplitude"]; ["10.5"]; ["22.3"]] /\
  get_modal_frequencies modes_narrow_txt = Raise ValueError /\
  map (Py.split Py.TAB) (modes_lines modes_blank_txt)
  = [["Frequency"]; ["10.5"]; [""]] /\
  get_modal_frequencies modes_blank_txt = Raise ValueError /\
  map (Py.split Py.TAB) (modes_lines modes_twice_txt)
  = [["Frequency"; "Frequency"]; ["10.5"; "10.5"]] /\
  get_modal_frequencies modes_twice_txt = Raise AttributeError.
Proof. repeat split; vm_compute; reflexivity. Qed.

(** C9 (amended). The loader strips every line and cuts it at the tabs.
    It returns a list of floats exactly when the first line has one field
    [Frequency], and no more, the longest of the other lines has as many
    fields as the first (or there is no other line), and every other line
    has, at the place of [Frequency], a field that [float] reads; the list
    then holds these floats, in the order of the lines.  When the first
    line has no field [Frequency] the loader fails: with [KeyError] on
    [Frequency] when the longest of the other lines has as many fields as
    the first, or there is no other line.  On a file without a line it
    fails with [IndexError]. *)
Theorem modal_frequency_loader (content : string) :
  (forall modes,
     get_modal_frequencies content = Ok modes <->
     exists header rest j,
       modes_lines content = header :: rest /\
       Pd.positions "Frequency" (Py.split Py.TAB header) O = [j] /\
       (rest = [] \/ widest rest = length (Py.split Py.TAB header)) /\
       Forall2 (fun line mode => exists field,
                  Py.split Py.TAB line !! j = Some field /\
                  Num.py_float field = Some mode) rest modes) /\
  (forall header rest,
     modes_lines content = header :: rest ->
     ~ In "Frequency" (Py.split Py.TAB header) ->
     raises (get_modal_frequencies content) /\
     (rest = [] \/ widest rest = length (Py.split Py.TAB header) ->
      get_modal_frequencies content = Raise (KeyError "Frequency"))) /\
  (modes_lines content = [] ->
   get_modal_frequencies content = Raise IndexError).
Proof.
  split; [|split].
  - intros modes. split.
    + intros H. destruct (modal_sound content modes H)
        as (header & rest & j & E & Hp & Hm).
      exists header, rest, j. split; [exact E|]. split; [exact Hp|].
      split; [exact (modal_width content header rest modes E H)|exact Hm].
    + intros (header & rest & j & E & Hp & Hw & Hm).
      exact (modal_frequencies_fit content header rest j modes E Hp Hw Hm).
  - intros header rest E Hn. split.
    + apply modal_frequencies_missing. intros header' rest' E'.
      rewrite E in E'. injection E' as <- _. exact Hn.
    + apply modal_frequencies_key; assumption.
  - apply modal_frequencies_none.
Qed.

Lemma modal_frequency_loader_witness :
  get_modal_frequencies modes_txt = Ok [f_10_5; f_22_3] /\
  Num.py_float "10.5" = Some f_10_5 /\ Num.py_float "22.3" = Some f_22_3 /\
  get_modal_frequencies modes_ragged_txt = Ok [f_10_5; f_22_3] /\
  get_modal_frequencies modes_no_frequency_txt = Raise (KeyError "Frequency") /\
  get_modal_frequencies "" = Raise IndexError /\
  exists header rest,
    modes_lines modes_word_txt = header :: rest /\
    Pd.positions "Frequency" (Py.split Py.TAB header) O = [O] /\
    widest rest = length (Py.split Py.TAB header) /\
    forall modes, get_modal_frequencies modes_word_txt <> Ok modes.
Proof.
  split; [|split; [|split; [|split; [|split; [|split]]]]].
  - apply (proj1 (modal_frequency_loader modes_txt)).
    exists ("Frequency" +:+ Py.TAB +:+ "Amplitude"),
      ["10.5" +:+ Py.TAB +:+ "0.12"; "22.3" +:+ Py.TAB +:+ "0.34"], O.
    split; [vm_compute; reflexivity|]. split; [vm_compute; reflexivity|].
    split; [right; vm_compute; reflexivity|].
    repeat constructor; eexists; (split; [vm_compute; reflexivity|]);
      vm_compute; reflexivity.
  - vm_compute. reflexivity.
  - vm_compute. reflexivity.
  - apply (proj1 (modal_frequency_loader modes_ragged_txt)).
    exists ("Frequency" +:+ Py.TAB +:+ "Amplitude"),
      ["10.5" +:+ Py.TAB +:+ "0.12"; "22.3"], O.
    split; [vm_compute; reflexivity|]. split; [vm_compute; reflexivity|].
    split; [right; vm_compute; reflexivity|].
    repeat constructor; eexists; (split; [vm_compute; reflexivity|]);
      vm_compute; reflexivity.
  - apply (proj1 (proj2 (modal_frequency_loader modes_no_frequency_txt))
             ("Mode" +:+ Py.TAB +:+ "Amplitude")
             ["10.5" +:+ Py.TAB +:+ "0.12"]).
    + vm_compute. reflexivity.
    + vm_compute. intuition discriminate.
    + right. vm_compute. reflexivity.
  - apply (proj2 (proj2 (modal_frequency_loader ""))). reflexivity.
  - exists ("Frequency" +:+ Py.TAB +:+ "Amplitude"),
      ["10.5" +:+ Py.TAB +:+ "0.12"; "high" +:+ Py.TAB +:+ "0.34"].
    split; [vm_compute; reflexivity|]. split; [vm_compute; reflexivity|].
    split; [vm_compute; reflexivity|].
    intros modes H.
    apply (proj1 (modal_frequency_loader modes_word_txt)) in H
      as (header & rest & j & E & Hp & _ & Hm).
    vm_compute in E. injection E as <- <-.
    vm_compute in Hp. injection Hp as <-.
    inversion Hm as [|? ? ? ? _ Hm']. subst.
    inversion Hm' as [|? ? ? ? (field & Hf & Hv) _]. subst.
    vm_compute in Hf. injection Hf as <-.
    vm_compute in Hv. discriminate.
Defined.

(** ** C10: the exchange of the two middle columns *)

(** C10. In the acceleration parser the exchange of the second and third
    columns moves the labels and, in every row, the values together: in
    a frame with distinct labels and one value per label in every row,
    the column found under any label is the same before and after, the
    labels and the rows being those of before with their second and third
    elements exchanged; the labels printed by an acceleration report
    become those of the schema. *)
Theorem reorder_keeps_labels (df df2 : DataFrame) :
  rectangular df -> NoDup (columns df) ->
  Acceleration.reorder df = Ok df2 ->
  columns df2 = exchange (columns df) /\
  values df2 = map exchange (values df) /\
  (forall name, Pd.getitem df2 name = Pd.getitem df name) /\
  (columns df = printed_labels acceleration ++ ["Phase_Angle"] ->
   columns df2 = schema acceleration).
Proof.
  intros Hrect Hnd H.
  destruct (reorder_spec df df2 Hrect H) as (_ & Hc & Hv).
  split; [exact Hc|]. split; [exact Hv|]. split.
  - intros name. destruct df as [cols rows], df2 as [cols2 rows2].
    cbn [columns values] in *. subst cols2 rows2.
    apply getitem_exchange; assumption.
  - intros Hp. rewrite Hc, Hp. reflexivity.
Qed.

Lemma reorder_keeps_labels_witness :
  exists df2,
    Acceleration.reorder printed_frame = Ok df2 /\
    columns df2 = ["Frequency"; "Amplitude"; "Amplitude_g"; "Phase_Angle"] /\
    Pd.getitem df2 "Amplitude_g" = Ok [PyStr "0.203874"; PyStr "0.101937"] /\
    Pd.getitem df2 "Amplitude_g" = Pd.getitem printed_frame "Amplitude_g".
Proof.
  eexists. split; [vm_compute; reflexivity|].
  split; [reflexivity|]. split; [reflexivity|].
  apply (reorder_keeps_labels printed_frame).
  - repeat constructor.
  - apply (bool_decide_unpack _). vm_compute. exact I.
  - vm_compute. reflexivity.
Defined.

(** * Further properties *)

(** ** The files of the axes *)

Lemma startswith_tail_index (sub : string) (c : ascii) (s : string) :
  Py.startswith sub s = true ->
  exists p, Py.index_of sub (String c s) = Some p.
Proof.
  intros H. rewrite index_of_eq.
  destruct (Py.startswith sub (String c s)); [eauto|].
  rewrite index_of_eq, H. simpl. eauto.
Qed.

Lemma index_of_tail_some (sub : string) (c : ascii) (s : string) (p : nat) :
  Py.index_of sub s = Some p ->
  exists p', Py.index_of sub (String c s) = Some p'.
Proof.
  intros H. rewrite index_of_eq.
  destruct (Py.startswith sub (String c s)); [eauto|].
  rewrite H. simpl. eauto.
Qed.

(** A name in which [<c>.txt] occurs holds [.txt]. *)
Lemma contains_suffix_txt (c : ascii) (file : string) :
  Py.contains (String c ".txt") file = true -> Py.contains ".txt" file = true.
Proof.
  unfold Py.contains. induction file as [|a file IH]; intros H.
  - simpl in H. discriminate.
  - rewrite index_of_eq in H.
    destruct (Py.startswith (String c ".txt") (String a file)) eqn:E.
    + cbn [Py.startswith] in E. apply andb_true_iff in E as [_ E].
      destruct (startswith_tail_index ".txt" a file E) as [p ->]. reflexivity.
    + destruct (Py.index_of (String c ".txt") file) as [p|] eqn:E2;
        [|discriminate].
      specialize (IH eq_refl).
      destruct (Py.index_of ".txt" file) as [p'|] eqn:E3; [|discriminate].
      destruct (index_of_tail_some ".txt" a file p' E3) as [p'' ->]. reflexivity.
Qed.

Lemma is_x_contains (file : string) : is_x file = Py.contains "x.txt" file.
Proof.
  unfold is_x, search_txt. destruct (Py.contains "x.txt" file) eqn:E.
  - rewrite (contains_suffix_txt "x" file E). reflexivity.
  - apply andb_false_r.
Qed.

Lemma is_y_contains (file : string) :
  is_y file = negb (Py.contains "x.txt" file) && Py.contains "y.txt" file.
Proof.
  unfold is_y, search_txt. destruct (Py.contains "y.txt" file) eqn:E.
  - rewrite (contains_suffix_txt "y" file E). reflexivity.
  - rewrite !andb_false_r. reflexivity.
Qed.

Lemma is_z_contains (file : string) :
  is_z file = negb (Py.contains "x.txt" file) && negb (Py.contains "y.txt" file)
              && Py.contains "z.txt" file.
Proof.
  unfold is_z, search_txt. destruct (Py.contains "z.txt" file) eqn:E.
  - rewrite (contains_suffix_txt "z" file E). reflexivity.
  - rewrite !andb_false_r. reflexivity.
Qed.

Lemma axes_split (files : list string) :
  List.filter is_x files ++ List.filter is_y files ++ List.filter is_z files
    ++ List.filter off_axis files ≡ₚ files.
Proof.
  induction files as [|f files IH]; [reflexivity|].
  cbn [List.filter]. unfold off_axis at 1.
  rewrite is_x_contains, is_y_contains, is_z_contains.
  destruct (Py.contains "x.txt" f), (Py.contains "y.txt" f),
    (Py.contains "z.txt" f); cbn [negb andb app];
    try (constructor; exact IH).
  all: try (rewrite <- Permutation_middle; constructor; exact IH).
  all: try (rewrite (app_assoc (List.filter is_x files)),
              <- Permutation_middle, <- app_assoc; constructor; exact IH).
  all: rewrite (app_assoc (List.filter is_x files)),
         (app_assoc (List.filter is_x files ++ List.filter is_y files)),
         <- Permutation_middle, <- !app_assoc; constructor; exact IH.
Qed.

Lemma matching_filter (files found : list string) :
  Listing.matching files found = found ++ List.filter search_txt files.
Proof.
  revert found. induction files as [|f files IH]; intros found; simpl.
  - rewrite app_nil_r. reflexivity.
  - rewrite IH. destruct (search_txt f); [|reflexivity].
    rewrite <- app_assoc. reflexivity.
Qed.

(** ** The exchange of the columns, twice *)

Lemma exchange_exchange {A : Type} (l : list A) : exchange (exchange l) = l.
Proof. destruct l as [|a [|b [|c l]]]; reflexivity. Qed.

Lemma reorder_rect (cols : list string) (rows : list (list cell)) :
  (3 <= length cols)%nat ->
  Forall (fun r => length r = length cols) rows ->
  Acceleration.reorder (mkDataFrame cols rows)
  = Ok (mkDataFrame (exchange cols) (map exchange rows)).
Proof.
  intros Hc Hr. unfold Acceleration.reorder. cbn [columns values].
  rewrite (swap_1_2_exchange cols Hc). cbn [bind].
  rewrite (mapM_ok_map _ exchange).
  2:{ intros r Hin. apply swap_1_2_exchange.
      rewrite Forall_forall in Hr. rewrite (Hr r); [exact Hc|].
      apply list_elem_of_In, Hin. }
  cbn [bind]. apply DataFrame_rect.
  apply Forall_forall. intros r Hin. apply list_elem_of_In, in_map_iff in Hin
    as (r0 & <- & Hin).
  rewrite !exchange_length. rewrite Forall_forall in Hr.
  apply Hr, list_elem_of_In, Hin.
Qed.

Lemma reorder_few_columns (df : DataFrame) :
  (length (columns df) < 3)%nat -> Acceleration.reorder df = Raise IndexError.
Proof.
  intros H. unfold Acceleration.reorder, swap_1_2.
  rewrite (item_short (columns df) 2) by lia. reflexivity.
Qed.

(** X1. The three lists [get_deformation_data_files] (and its sisters for
    acceleration and velocity) return split the listing of the folder: a
    listed name is on exactly one axis or on none, none is added and none
    is repeated.  A name is on the x axis exactly when [x.txt] occurs in
    it (the test of the pattern adds nothing), on the y axis when [y.txt]
    occurs and [x.txt] does not, on the z axis when [z.txt] occurs and
    neither of the others. *)
Theorem axes_partition (files : list string) :
  let a := sort_by_axis files (mkAxes [] [] []) in
  Permutation (x a ++ y a ++ z a ++ List.filter off_axis files) files /\
  (forall f, In f (x a) <-> In f files /\ Py.contains "x.txt" f = true) /\
  (forall f, In f (y a) <->
             In f files /\ Py.contains "x.txt" f = false /\
             Py.contains "y.txt" f = true) /\
  (forall f, In f (z a) <->
             In f files /\ Py.contains "x.txt" f = false /\
             Py.contains "y.txt" f = false /\ Py.contains "z.txt" f = true).
Proof.
  cbv zeta.
  destruct (sort_by_axis_order files (mkAxes [] [] [])) as (-> & -> & ->).
  cbn [x y z app]. split; [apply axes_split|].
  split; [|split]; intros f; rewrite filter_In;
    rewrite ?is_x_contains, ?is_y_contains, ?is_z_contains;
    rewrite ?andb_true_iff, ?negb_true_iff; tauto.
Qed.

Lemma axes_partition_witness :
  Permutation (["DIMM1x.txt"; "x.txt_y.txt"] ++ ["DIMM1y.txt"]
                 ++ ["DIMM1z.txt.bak"] ++ ["notes.txt"; "README.md"])
              mixed_listing.
Proof. exact (proj1 (axes_partition mixed_listing)). Defined.

(** X2. [get_data_files] lists the folders of velocity, deformation and
    acceleration, in this order, and fails with [FileNotFoundError] at the
    first that is absent; when the three are there, each list holds the
    names of its folder in which [.txt] occurs, anywhere in the name, in
    the order of the listing. *)
Theorem data_files_of_quantities (fs : FileSystem) (parent_folder : string) :
  let folder kind := parent_folder +:+ "/data/" +:+ kind +:+ "/" in
  (forall v d a,
     listing fs (folder "velocity") = Some v ->
     listing fs (folder "deformation") = Some d ->
     listing fs (folder "acceleration") = Some a ->
     Listing.get_data_files fs parent_folder
     = Ok (Listing.mk_data_files
             (List.filter (Py.contains ".txt") v)
             (List.filter (Py.contains ".txt") d)
             (List.filter (Py.contains ".txt") a))) /\
  (listing fs (folder "velocity") = None \/
   listing fs (folder "deformation") = None \/
   listing fs (folder "acceleration") = None ->
   Listing.get_data_files fs parent_folder = Raise FileNotFoundError).
Proof.
  cbv zeta. unfold Listing.get_data_files, listdir.
  change (parent_folder +:+ "/data/" +:+ "velocity" +:+ "/")
    with (parent_folder +:+ "/data/velocity/").
  change (parent_folder +:+ "/data/" +:+ "deformation" +:+ "/")
    with (parent_folder +:+ "/data/deformation/").
  change (parent_folder +:+ "/data/" +:+ "acceleration" +:+ "/")
    with (parent_folder +:+ "/data/acceleration/").
  split.
  - intros v d a -> -> ->. cbn [bind]. rewrite !matching_filter. reflexivity.
  - intros H.
    destruct (listing fs (parent_folder +:+ "/data/velocity/")); [|reflexivity].
    destruct (listing fs (parent_folder +:+ "/data/deformation/")); [|reflexivity].
    destruct (listing fs (parent_folder +:+ "/data/acceleration/")); [|reflexivity].
    destruct H as [H|[H|H]]; discriminate.
Qed.

Lemma data_files_of_quantities_witness :
  Listing.get_data_files unsorted_folder "sim1" = Raise FileNotFoundError /\
  Listing.matching mixed_listing []
  = ["DIMM1x.txt"; "x.txt_y.txt"; "DIMM1y.txt"; "notes.txt"; "DIMM1z.txt.bak"].
Proof.
  split; [|vm_compute; reflexivity].
  apply (proj2 (data_files_of_quantities unsorted_folder "sim1")).
  left. reflexivity.
Defined.

(** X3. Whenever [get_modal_frequencies] returns a list, the first line
    of the file has exactly one field [Frequency], and the list holds, for
    each further line in order, the float read from the field of that
    line under [Frequency]: one float per line, none left out. *)
Theorem modal_frequencies_sound (content : string) (modes : list float) :
  get_modal_frequencies content = Ok modes ->
  exists header rest j,
    modes_lines content = header :: rest /\
    Pd.positions "Frequency" (Py.split Py.TAB header) O = [j] /\
    length modes = length rest /\
    Forall2 (fun line mode => exists field,
               Py.split Py.TAB line !! j = Some field /\
               Num.py_float field = Some mode) rest modes.
Proof.
  intros H. destruct (modal_sound content modes H) as (h & r & j & H1 & H2 & H3).
  exists h, r, j. repeat split; try assumption.
  symmetry. eapply Forall2_length, H3.
Qed.

Lemma modal_frequencies_sound_witness :
  exists header rest j,
    modes_lines modes_txt = header :: rest /\
    Pd.positions "Frequency" (Py.split Py.TAB header) O = [j] /\
    length [f_10_5; f_22_3] = length rest /\
    Forall2 (fun line mode => exists field,
               Py.split Py.TAB line !! j = Some field /\
               Num.py_float field = Some mode) rest [f_10_5; f_22_3].
Proof.
  apply (modal_frequencies_sound modes_txt). vm_compute. reflexivity.
Defined.

(** X4. A line after the first that is empty or blank makes
    [get_modal_frequencies] fail, whatever the other lines hold: an empty
    line at the end of [modes.txt] is enough. *)
Theorem modal_frequencies_blank_line (content header : string)
    (rest : list string) :
  modes_lines content = header :: rest ->
  In "" rest ->
  raises (get_modal_frequencies content).
Proof.
  intros Hl Hin.
  destruct (get_modal_frequencies content) as [modes|e] eqn:E;
    [|apply raises_Raise].
  exfalso. apply modal_sound in E as (h & r & j & Hl' & _ & Hf).
  rewrite Hl in Hl'. inversion Hl'. subst h r. clear Hl'.
  apply list_elem_of_In in Hin.
  destruct (list_elem_of_lookup_1 _ _ Hin) as [i Hi].
  destruct (Forall2_lookup_l _ _ _ _ _ Hf Hi) as (m & _ & field & Hfield & Hm).
  destruct j as [|j]; [|discriminate].
  inversion Hfield. subst field. vm_compute in Hm. discriminate.
Qed.

Lemma modal_frequencies_blank_line_witness :
  raises (get_modal_frequencies modes_blank_txt) /\
  get_modal_frequencies modes_blank_txt = Raise ValueError.
Proof.
  split; [|vm_compute; reflexivity].
  apply (modal_frequencies_blank_line modes_blank_txt "Frequency" ["10.5"; ""]).
  - vm_compute. reflexivity.
  - right. left. reflexivity.
Defined.

(** X5. The exchange of the second and third columns fails with
    [IndexError] on a frame of fewer than three columns; on a frame of
    three columns or more (one value per label in every row) it succeeds
    and, done twice, gives the frame back. *)
Theorem reorder_twice (df : DataFrame) :
  ((length (columns df) < 3)%nat ->
   Acceleration.reorder df = Raise IndexError) /\
  ((3 <= length (columns df))%nat -> rectangular df ->
   exists df2, Acceleration.reorder df = Ok df2 /\
               Acceleration.reorder df2 = Ok df).
Proof.
  split; [apply reorder_few_columns|].
  intros Hc Hr. destruct df as [cols rows]. cbn [columns] in Hc.
  unfold rectangular in Hr. cbn [columns values] in Hr.
  eexists. split; [apply reorder_rect; assumption|].
  rewrite reorder_rect.
  - rewrite exchange_exchange, map_map.
    rewrite (map_ext _ (fun r => r)) by (intros r; apply exchange_exchange).
    rewrite map_id. reflexivity.
  - rewrite exchange_length. exact Hc.
  - apply Forall_forall. intros r Hin.
    apply list_elem_of_In, in_map_iff in Hin as (r0 & <- & Hin).
    rewrite !exchange_length. rewrite Forall_forall in Hr.
    apply Hr, list_elem_of_In, Hin.
Qed.

Lemma reorder_twice_witness :
  Acceleration.reorder (mkDataFrame ["Frequency"; "Amplitude"] []) = Raise IndexError /\
  exists df2, Acceleration.reorder printed_frame = Ok df2 /\
              Acceleration.reorder df2 = Ok printed_frame.
Proof.
  split.
  - apply (proj1 (reorder_twice (mkDataFrame ["Frequency"; "Amplitude"] []))).
    simpl. lia.
  - apply (proj2 (reorder_twice printed_frame)).
    + simpl. lia.
    + repeat constructor.
Defined.

(** ** The rewriting of a raw file and its data *)

Lemma readlines_rewrite_header (header content : string) :
  complete header -> lacks "013" header = true ->
  File.readlines (rewrite_header header content)
  = map (header_line header (File.readlines content)) (File.readlines content).
Proof.
  intros Hc Hcr. unfold rewrite_header. apply readlines_written.
  - intros s _.
    destruct (header_line_cases header (File.readlines content) s) as [-> | ->];
      [left; exact Hc|right; reflexivity].
  - intros s Hs.
    destruct (header_line_cases header (File.readlines content) s) as [-> | ->];
      [exact Hcr|eapply readlines_lacks_cr; exact Hs].
Qed.

Lemma readlines_rewrite_deformation (content : string) :
  File.readlines (rewrite_deformation content)
  = map deformation_line (File.readlines content).
Proof.
  unfold rewrite_deformation. apply readlines_written.
  - intros s Hs. eapply deformation_line_shape, Hs.
  - intros s Hs. pose proof (readlines_lacks_cr content s Hs) as Hcr.
    destruct (Py.index_of "Angle" s) as [p|] eqn:E.
    + rewrite (deformation_line_found s p E), lacks_app.
      rewrite lacks_take by exact Hcr. reflexivity.
    + rewrite (deformation_line_absent s E). exact Hcr.
Qed.

Lemma velocity_header_complete :
  complete velocity_header /\ lacks "013" velocity_header = true.
Proof.
  split; [|reflexivity].
  exists (Py.TAB +:+ "Frequency [Hz]" +:+ Py.TAB +:+ "Amplitude [m/s]"
            +:+ Py.TAB +:+ "Phase Angle [deg]").
  split; reflexivity.
Qed.

Lemma acceleration_header_complete :
  complete acceleration_header /\ lacks "013" acceleration_header = true.
Proof.
  split; [|reflexivity].
  exists (Py.TAB +:+ "Frequency [Hz]" +:+ Py.TAB +:+ "Amplitude [m/s2]"
            +:+ Py.TAB +:+ "Phase Angle [deg]").
  split; reflexivity.
Qed.

(** The lines of a rewritten file. *)
Lemma readlines_rewrite_file (q : Quantity) (content : string) :
  File.readlines (rewrite_file q content)
  = match q with
    | velocity =>
        map (header_line velocity_header (File.readlines content))
            (File.readlines content)
    | deformation => map deformation_line (File.readlines content)
    | acceleration =>
        map (header_line acceleration_header (File.readlines content))
            (File.readlines content)
    end.
Proof.
  destruct q; cbn [rewrite_file].
  - apply readlines_rewrite_header; apply velocity_header_complete.
  - apply readlines_rewrite_deformation.
  - apply readlines_rewrite_header; apply acceleration_header_complete.
Qed.

Lemma header_line_other (header l0 : string) (ls rest : list string) :
  Forall (fun l => l <> l0) rest ->
  map (header_line header (l0 :: ls)) rest = rest.
Proof.
  intros H. induction H as [|l rest Hl _ IH]; [reflexivity|].
  cbn [map header_line]. rewrite IH.
  destruct (String.eqb_spec l l0); [contradiction|reflexivity].
Qed.

Lemma deformation_line_other (rest : list string) :
  Forall (fun l => Py.contains "Angle" l = false) rest ->
  map deformation_line rest = rest.
Proof.
  intros H. induction H as [|l rest Hl _ IH]; [reflexivity|].
  cbn [map]. rewrite IH. unfold deformation_line. rewrite Hl. reflexivity.
Qed.

Lemma rewritten_lines (q : Quantity) (content l0 : string) (rest : list string) :
  File.readlines content = l0 :: rest ->
  Forall (untouched q l0) rest ->
  File.readlines (rewrite_file q content) = new_header q l0 :: rest.
Proof.
  intros Hl Hr. rewrite readlines_rewrite_file, Hl.
  destruct q; cbn [new_header].
  - cbn [map header_line]. rewrite String.eqb_refl.
    rewrite (header_line_other _ _ _ _ Hr). reflexivity.
  - cbn [map]. rewrite (deformation_line_other _ Hr). reflexivity.
  - cbn [map header_line]. rewrite String.eqb_refl.
    rewrite (header_line_other _ _ _ _ Hr). reflexivity.
Qed.

Lemma read_csv_data_rows (c1 c2 : string) (names : list string) :
  Csv.data_rows c1 = Csv.data_rows c2 ->
  Csv.read_csv c1 names = Csv.read_csv c2 names.
Proof. intros H. unfold Csv.read_csv. rewrite H. reflexivity. Qed.

Lemma length_readlines_rewrite (q : Quantity) (content : string) :
  length (File.readlines (rewrite_file q content))
  = length (File.readlines content).
Proof.
  rewrite readlines_rewrite_file. destruct q; apply length_map.
Qed.

(** ** The files [get_data] writes *)

Section Effects.

Variable q : Quantity.
Variable folder : string.
Variable fs0 : FileSystem.
Variable allowed : string -> Prop.

Lemma lawful_start : lawful q folder fs0 allowed fs0.
Proof. split; [reflexivity|]. intros path. left. reflexivity. Qed.

Lemma lawful_current (fs : FileSystem) (path content : string) :
  lawful q folder fs0 allowed fs -> content_of fs path = Some content ->
  exists c, content_of fs0 path = Some c /\
            rewrite_file q content = rewrite_file q c.
Proof.
  intros [_ H] Hc. destruct (H path) as [E|(file & c & _ & _ & E0 & E)].
  - exists content. split; [rewrite <- E; exact Hc|reflexivity].
  - exists c. split; [exact E0|]. rewrite Hc in E. inversion E.
    apply rewrite_idempotent.
Qed.

Lemma lawful_write (fs : FileSystem) (file content : string) :
  lawful q folder fs0 allowed fs -> allowed file ->
  content_of fs (folder +:+ file) = Some content ->
  lawful q folder fs0 allowed
         (write_file fs (folder +:+ file) (rewrite_file q content)).
Proof.
  intros Hl Ha Hc. destruct (lawful_current _ _ _ Hl Hc) as (c & Hc0 & Hrw).
  destruct Hl as [Hlist H]. split; [exact Hlist|].
  intros path. cbn [write_file content_of].
  destruct (String.eqb_spec path (folder +:+ file)) as [->|Hne].
  - right. exists file, c. rewrite Hrw. auto.
  - apply H.
Qed.

Lemma read_files_lawful (files : list string) (fs : FileSystem) :
  lawful q folder fs0 allowed fs -> (forall f, In f files -> allowed f) ->
  lawful q folder fs0 allowed (snd (read_files q folder files fs)).
Proof.
  revert fs. induction files as [|file files IH]; intros fs Hl Ha;
    [exact Hl|].
  cbn [read_files].
  destruct (content_of fs (folder +:+ file)) as [content|] eqn:Hc; [|exact Hl].
  unfold read_file. cbv zeta.
  assert (Hl' : lawful q folder fs0 allowed
                       (write_file fs (folder +:+ file) (rewrite_file q content)))
    by (apply lawful_write; [exact Hl|apply Ha; left; reflexivity|exact Hc]).
  destruct (let! df := Csv.read_csv (rewrite_file q content) names3 in
            normalize q df) as [df|e]; [|exact Hl'].
  specialize (IH _ Hl' (fun f Hf => Ha f (or_intror Hf))).
  destruct (read_files q folder files _) as [rs fs']. exact IH.
Qed.

(** A text once rewritten stays so. *)
Lemma read_files_stable (files : list string) (fs : FileSystem)
    (path c : string) :
  content_of fs path = Some (rewrite_file q c) ->
  content_of (snd (read_files q folder files fs)) path
  = Some (rewrite_file q c).
Proof.
  revert fs. induction files as [|file files IH]; intros fs Hp; [exact Hp|].
  cbn [read_files].
  destruct (content_of fs (folder +:+ file)) as [content|] eqn:Hc; [|exact Hp].
  unfold read_file. cbv zeta.
  assert (Hp' : content_of (write_file fs (folder +:+ file)
                              (rewrite_file q content)) path
                = Some (rewrite_file q c)).
  { cbn [write_file content_of].
    destruct (String.eqb_spec path (folder +:+ file)) as [->|Hne]; [|exact Hp].
    rewrite Hc in Hp. inversion Hp. rewrite rewrite_idempotent. reflexivity. }
  destruct (let! df := Csv.read_csv (rewrite_file q content) names3 in
            normalize q df) as [df|e]; [|exact Hp'].
  specialize (IH _ Hp').
  destruct (read_files q folder files _) as [rs fs']. exact IH.
Qed.

Lemma read_files_frames (files : list string) (fs : FileSystem)
    (dfs : list DataFrame) :
  lawful q folder fs0 allowed fs -> (forall f, In f files -> allowed f) ->
  fst (read_files q folder files fs) = Ok dfs ->
  Forall2 (fun file df =>
             exists c,
               content_of fs0 (folder +:+ file) = Some c /\
               snd (read_file q c) = Ok df /\
               content_of (snd (read_files q folder files fs)) (folder +:+ file)
               = Some (rewrite_file q c))
          files dfs.
Proof.
  revert fs dfs. induction files as [|file files IH]; intros fs dfs Hl Ha Hr.
  - simpl in Hr. inversion Hr. constructor.
  - cbn [read_files] in Hr |- *.
    destruct (content_of fs (folder +:+ file)) as [content|] eqn:Hc;
      [|discriminate].
    destruct (lawful_current _ _ _ Hl Hc) as (c & Hc0 & Hrw).
    pose proof (lawful_write _ _ _ Hl (Ha file (or_introl eq_refl)) Hc) as Hl1.
    unfold read_file in Hr |- *. cbv zeta in Hr |- *.
    set (fs1 := write_file fs (folder +:+ file) (rewrite_file q content)) in *.
    destruct (let! df := Csv.read_csv (rewrite_file q content) names3 in
              normalize q df) as [df|e] eqn:Hdf; [|discriminate].
    pose proof (read_files_stable files fs1 (folder +:+ file) c) as Hs.
    specialize (IH fs1).
    destruct (read_files q folder files fs1) as [rs fs'] eqn:Hrf.
    cbn [fst snd] in *.
    destruct rs as [dfs'|e]; [|discriminate]. cbn [bind] in Hr.
    inversion Hr. subst dfs. constructor.
    + exists c. split; [exact Hc0|]. split.
      * cbn [snd]. rewrite <- Hrw. exact Hdf.
      * apply Hs. unfold fs1. cbn [write_file content_of].
        rewrite String.eqb_refl. f_equal. exact Hrw.
    + eapply Forall2_impl; [apply IH|].
      * exact Hl1.
      * intros f Hf. apply Ha. right. exact Hf.
      * reflexivity.
      * intros f df' H. exact H.
Qed.

End Effects.

Lemma axis_files_listed (files : list string) (f : string) :
  In f (x (sort_by_axis files (mkAxes [] [] []))) \/
  In f (y (sort_by_axis files (mkAxes [] [] []))) \/
  In f (z (sort_by_axis files (mkAxes [] [] []))) ->
  In f files.
Proof.
  destruct (sort_by_axis_order files (mkAxes [] [] [])) as (-> & -> & ->).
  cbn [x y z app]. rewrite !filter_In. tauto.
Qed.

Lemma get_data_lawful (q : Quantity) (parent_folder : string) (fs : FileSystem)
    (files : list string) :
  listing fs (data_path parent_folder q) = Some files ->
  lawful q (data_path parent_folder q) fs (fun f => In f files)
         (snd (get_data q parent_folder fs)).
Proof.
  intros E. unfold get_data, get_data_files, listdir. rewrite E. cbn [bind].
  set (a := sort_by_axis files (mkAxes [] [] [])).
  set (folder := data_path parent_folder q).
  assert (Ha : forall f, In f (x a) \/ In f (y a) \/ In f (z a) -> In f files)
    by (intros f; apply axis_files_listed).
  pose proof (read_files_lawful q folder fs (fun f => In f files) (x a) fs
                (lawful_start _ _ _ _) (fun f Hf => Ha f (or_introl Hf))) as L1.
  destruct (read_files q folder (x a) fs) as [rx fs1]. cbn [snd] in L1.
  destruct rx as [dfx|e]; [|exact L1].
  pose proof (read_files_lawful q folder fs (fun f => In f files) (y a) fs1
                L1 (fun f Hf => Ha f (or_intror (or_introl Hf)))) as L2.
  destruct (read_files q folder (y a) fs1) as [ry fs2]. cbn [snd] in L2.
  destruct ry as [dfy|e]; [|exact L2].
  pose proof (read_files_lawful q folder fs (fun f => In f files) (z a) fs2
                L2 (fun f Hf => Ha f (or_intror (or_intror Hf)))) as L3.
  destruct (read_files q folder (z a) fs2) as [rz fs3]. cbn [snd] in L3.
  destruct rz as [dfz|e]; exact L3.
Qed.


(** X6. In a raw file whose lines after the first differ from the first
    line (velocity, acceleration) or hold no [Angle] (deformation), the
    rewriting changes the first line only; the data rows are those of the
    file as it was, and the frame returned is the frame [read_csv] gives
    for the original text, with the conversion of the quantity. *)
Theorem header_rewrite_keeps_data (q : Quantity) (content l0 : string)
    (rest : list string) :
  File.readlines content = l0 :: rest ->
  Forall (untouched q l0) rest ->
  File.readlines (rewrite_file q content) = new_header q l0 :: rest /\
  Csv.data_rows (rewrite_file q content) = Csv.data_rows content /\
  snd (read_file q content)
  = (let! df := Csv.read_csv content names3 in normalize q df).
Proof.
  intros Hl Hr. pose proof (rewritten_lines q content l0 rest Hl Hr) as Hw.
  assert (Hd : Csv.data_rows (rewrite_file q content) = Csv.data_rows content)
    by (unfold Csv.data_rows; rewrite Hw, Hl; reflexivity).
  split; [exact Hw|]. split; [exact Hd|].
  unfold read_file. cbn [snd]. rewrite (read_csv_data_rows _ content _ Hd).
  reflexivity.
Qed.

Lemma header_rewrite_keeps_data_witness :
  (File.readlines (rewrite_file acceleration raw_file)
   = [acceleration_header; "1.0 2.0 3.0" +:+ Py.NL] /\
   Csv.data_rows (rewrite_file acceleration raw_file) = Csv.data_rows raw_file /\
   snd (read_file acceleration raw_file)
   = (let! df := Csv.read_csv raw_file names3 in normalize acceleration df)) /\
  snd (read_file velocity repeated_line_file) = Raise ParserError.
Proof.
  split; [|vm_compute; reflexivity].
  apply (header_rewrite_keeps_data acceleration raw_file raw_header
           ["1.0 2.0 3.0" +:+ Py.NL]).
  - vm_compute. reflexivity.
  - constructor; [|constructor]. simpl. discriminate.
Defined.

(** X7. The file a reader writes back has as many lines as the file it
    read, and its line [k] is line [k] of the original as the loop
    rewrites it: for deformation cut after the first [Angle] and ended
    with [ [deg]], for velocity and acceleration replaced by the fixed
    header when it equals the first line.  No line is joined, split,
    added or lost, whatever the line endings of the original. *)
Theorem rewritten_file_lines (q : Quantity) (content : string) :
  length (File.readlines (rewrite_file q content))
  = length (File.readlines content) /\
  forall k line,
    File.readlines content !! k = Some line ->
    File.readlines (rewrite_file q content) !! k
    = Some (match q with
            | velocity =>
                header_line velocity_header (File.readlines content) line
            | deformation => deformation_line line
            | acceleration =>
                header_line acceleration_header (File.readlines content) line
            end).
Proof.
  split; [apply length_readlines_rewrite|].
  intros k line Hk. rewrite readlines_rewrite_file.
  destruct q; rewrite list_lookup_fmap, Hk; reflexivity.
Qed.

(** X8. [get_deformation_data], [get_acceleration_data] and
    [get_velocity_data] change no listing and no file outside the folder
    of their quantity, whether they return or fail: a path holds in the
    end the text it held, or it is a listed file of that folder and holds
    its former text rewritten. *)
Theorem get_data_touches (q : Quantity) (parent_folder : string)
    (fs : FileSystem) :
  let fs' := snd (get_data q parent_folder fs) in
  listing fs' = listing fs /\
  forall path,
    content_of fs' path = content_of fs path \/
    exists files file c,
      listing fs (data_path parent_folder q) = Some files /\
      In file files /\
      path = data_path parent_folder q +:+ file /\
      content_of fs path = Some c /\
      content_of fs' path = Some (rewrite_file q c).
Proof.
  cbv zeta.
  destruct (listing fs (data_path parent_folder q)) as [files|] eqn:E.
  - destruct (get_data_lawful q parent_folder fs files E) as [Hl H].
    split; [exact Hl|]. intros path.
    destruct (H path) as [Hp|(file & c & Hf & Hp & H0 & H1)]; [left; exact Hp|].
    right. exists files, file, c. auto.
  - rewrite (get_data_missing_folder q parent_folder fs E). cbn [snd].
    split; [reflexivity|]. intros path. left. reflexivity.
Qed.

(** X9. When one of the three readers returns, the frames of each axis
    are, in the order of the listing of the folder, the frames read from
    the files of that axis: field [DIMM<k>] holds the frame of the [k]-th
    listed file of the axis, made from the text the file had before the
    call, and each of these files is left with its text rewritten. *)
Theorem get_data_frames (q : Quantity) (parent_folder : string)
    (fs : FileSystem) (t : Axes (Dimms DataFrame)) :
  fst (get_data q parent_folder fs) = Ok t ->
  exists files,
    listing fs (data_path parent_folder q) = Some files /\
    Forall2 (read_as q fs (snd (get_data q parent_folder fs))
                     (data_path parent_folder q))
            (List.filter is_x files) (dimms_list (x t)) /\
    Forall2 (read_as q fs (snd (get_data q parent_folder fs))
                     (data_path parent_folder q))
            (List.filter is_y files) (dimms_list (y t)) /\
    Forall2 (read_as q fs (snd (get_data q parent_folder fs))
                     (data_path parent_folder q))
            (List.filter is_z files) (dimms_list (z t)).
Proof.
  unfold get_data, get_data_files, listdir.
  destruct (listing fs (data_path parent_folder q)) as [files|] eqn:E;
    [|discriminate].
  cbn [bind]. intros H. exists files. split; [reflexivity|].
  destruct (sort_by_axis_order files (mkAxes [] [] [])) as (Ex & Ey & Ez).
  cbn [x y z app] in Ex, Ey, Ez. rewrite <- Ex, <- Ey, <- Ez.
  set (a := sort_by_axis files (mkAxes [] [] [])) in *.
  set (folder := data_path parent_folder q) in *.
  assert (Ha : forall f, In f (x a) \/ In f (y a) \/ In f (z a) -> In f files)
    by (intros f; apply axis_files_listed).
  set (allowed := fun f : string => In f files).
  pose proof (read_files_lawful q folder fs allowed (x a) fs
                (lawful_start _ _ _ _) (fun f Hf => Ha f (or_introl Hf))) as L1.
  pose proof (read_files_frames q folder fs allowed (x a) fs) as F1.
  destruct (read_files q folder (x a) fs) as [rx fs1]. cbn [fst snd] in *.
  destruct rx as [dfx|e]; [|discriminate].
  specialize (F1 dfx (lawful_start _ _ _ _) (fun f Hf => Ha f (or_introl Hf))
                eq_refl).
  pose proof (read_files_lawful q folder fs allowed (y a) fs1
                L1 (fun f Hf => Ha f (or_intror (or_introl Hf)))) as L2.
  pose proof (read_files_frames q folder fs allowed (y a) fs1) as F2.
  pose proof (fun p c => read_files_stable q folder (y a) fs1 p c) as S2.
  destruct (read_files q folder (y a) fs1) as [ry fs2]. cbn [fst snd] in *.
  destruct ry as [dfy|e]; [|discriminate].
  specialize (F2 dfy L1 (fun f Hf => Ha f (or_intror (or_introl Hf))) eq_refl).
  pose proof (read_files_frames q folder fs allowed (z a) fs2) as F3.
  pose proof (fun p c => read_files_stable q folder (z a) fs2 p c) as S3.
  destruct (read_files q folder (z a) fs2) as [rz fs3]. cbn [fst snd] in *.
  destruct rz as [dfz|e]; [|discriminate].
  specialize (F3 dfz L2 (fun f Hf => Ha f (or_intror (or_intror Hf))) eq_refl).
  destruct (dimms dfx) as [tx|e] eqn:Dx; [|discriminate].
  destruct (dimms dfy) as [ty|e] eqn:Dy; [|discriminate].
  destruct (dimms dfz) as [tz|e] eqn:Dz; [|discriminate].
  cbn [bind] in H. inversion H. subst t. cbn [x y z].
  rewrite (dimms_length _ _ Dx), (dimms_length _ _ Dy), (dimms_length _ _ Dz).
  unfold read_as, read_file. cbn [fst snd].
  split; [|split].
  - eapply Forall2_impl; [exact F1|]. intros f df (c & H1 & H2 & H3).
    exists c. split; [exact H1|]. split; [exact H2|]. apply S3, S2, H3.
  - eapply Forall2_impl; [exact F2|]. intros f df (c & H1 & H2 & H3).
    exists c. split; [exact H1|]. split; [exact H2|]. apply S3, H3.
  - exact F3.
Qed.

Lemma get_data_frames_witness :
  exists t files,
    fst (get_data deformation "sim1" unsorted_folder) = Ok t /\
    listing unsorted_folder (data_path "sim1" deformation) = Some files /\
    Forall2 (read_as deformation unsorted_folder
               (snd (get_data deformation "sim1" unsorted_folder))
               (data_path "sim1" deformation))
            (List.filter is_x files) (dimms_list (x t)).
Proof.
  eexists.
  assert (H : fst (get_data deformation "sim1" unsorted_folder) = Ok _)
    by (vm_compute; reflexivity).
  destruct (get_data_frames deformation "sim1" unsorted_folder _ H)
    as (files & Hl & Hx & _).
  exists files. split; [exact H|]. split; [exact Hl|exact Hx].
Defined.

(** ** Lines and texts *)

Lemma unlines_app (a b : list string) :
  unlines (a ++ b) = unlines a +:+ unlines b.
Proof.
  unfold unlines. induction a as [|s a IH]; [reflexivity|].
  cbn [app map Py.concat]. rewrite IH, !app_assoc_s. reflexivity.
Qed.

Lemma print_join (l : list string) :
  l <> [] -> Text.print (Text.join Py.NL l) = unlines l.
Proof.
  unfold Text.print, unlines. induction l as [|s l IH]; [congruence|]. intros _.
  destruct l as [|s' l].
  - cbn [Text.join map Py.concat]. rewrite app_empty_r. reflexivity.
  - change (Text.join Py.NL (s :: s' :: l))
      with (s +:+ Py.NL +:+ Text.join Py.NL (s' :: l)).
    rewrite !app_assoc_s, IH by discriminate.
    cbn [map Py.concat]. rewrite !app_assoc_s. reflexivity.
Qed.

Lemma clean_spec (s : string) :
  clean s = true -> lacks "010" s = true /\ lacks "013" s = true.
Proof. unfold clean. intros H. apply andb_true_iff in H. exact H. Qed.

Lemma line_list_complete (l : list string) :
  Forall (fun s => lacks "010" s = true) l ->
  line_list (map (fun s => s +:+ Py.NL) l).
Proof.
  intros H. induction H as [|s l Hs _ IH]; [constructor|].
  cbn [map]. apply line_list_cons; assumption.
Qed.

Lemma readlines_unlines (l : list string) :
  Forall (fun s => clean s = true) l ->
  File.readlines (unlines l) = map (fun s => s +:+ Py.NL) l.
Proof.
  intros H. unfold File.readlines, unlines.
  rewrite universal_newlines_id.
  - apply lines_concat, line_list_complete.
    eapply Forall_impl; [exact H|]. intros s Hs. apply (clean_spec s Hs).
  - rewrite lacks_concat. apply forallb_forall. intros s Hs.
    apply in_map_iff in Hs as (s0 & <- & Hs0).
    rewrite Forall_forall in H. specialize (H s0 (proj2 (list_elem_of_In _ _) Hs0)).
    rewrite lacks_app. rewrite (proj2 (clean_spec s0 H)). reflexivity.
Qed.

Lemma rstrip_line (s : string) : Py.rstrip (s +:+ Py.NL) = Py.rstrip s.
Proof.
  induction s as [|c s IH]; [reflexivity|].
  rewrite app_cons. cbn [Py.rstrip]. rewrite IH. reflexivity.
Qed.

Lemma lstrip_line (s : string) :
  Py.lstrip (s +:+ Py.NL)
  = match Py.lstrip s with
    | EmptyString => EmptyString
    | r => r +:+ Py.NL
    end.
Proof.
  induction s as [|c s IH]; [reflexivity|].
  rewrite app_cons. cbn [Py.lstrip]. destruct (Py.isspace c); [exact IH|].
  reflexivity.
Qed.

Lemma strip_line (s : string) : Py.strip (s +:+ Py.NL) = Py.strip s.
Proof.
  unfold Py.strip. rewrite lstrip_line.
  destruct (Py.lstrip s) as [|c r]; [reflexivity|]. apply rstrip_line.
Qed.

Lemma lacks_times (c : ascii) (n : nat) :
  Py.ascii_eqb "-" c = false -> lacks c (Text.times "-" n) = true.
Proof.
  intros H. induction n as [|n IH]; [reflexivity|].
  cbn [Text.times].
  change ("-" +:+ Text.times "-" n) with (String "-" (Text.times "-" n)).
  cbn [lacks]. rewrite H, IH. reflexivity.
Qed.

Lemma title_char (after : bool) (a : ascii) :
  (Py.ascii_eqb
     (if Text.is_upper a || Text.is_lower a
      then (if after then Num.lower a else Text.upper a) else a) "010"
   = Py.ascii_eqb a "010") /\
  (Py.ascii_eqb
     (if Text.is_upper a || Text.is_lower a
      then (if after then Num.lower a else Text.upper a) else a) "013"
   = Py.ascii_eqb a "013").
Proof.
  destruct after; destruct a as [[] [] [] [] [] [] [] []];
    split; vm_compute; reflexivity.
Qed.

Lemma clean_title_go (after : bool) (s : string) :
  clean (Text.title_go after s) = clean s.
Proof.
  revert after. unfold clean.
  induction s as [|a s IH]; intros after; [reflexivity|].
  cbn [Text.title_go]. destruct (title_char after a) as [H1 H2].
  destruct (Text.is_upper a || Text.is_lower a);
    cbn [lacks]; rewrite ?H1, ?H2;
    [specialize (IH true)|specialize (IH false)];
    destruct (Py.ascii_eqb a "010"), (Py.ascii_eqb a "013");
    cbn [negb andb] in *; try reflexivity; rewrite ?andb_false_r;
    try reflexivity; exact IH.
Qed.

Lemma length_title_go (after : bool) (s : string) :
  String.length (Text.title_go after s) = String.length s.
Proof.
  revert after. induction s as [|a s IH]; intros after; [reflexivity|].
  cbn [Text.title_go]. destruct (Text.is_upper a || Text.is_lower a);
    cbn [String.length]; rewrite IH; reflexivity.
Qed.

Lemma clean_app (a b : string) : clean (a +:+ b) = clean a && clean b.
Proof.
  unfold clean. rewrite !lacks_app.
  destruct (lacks "010" a), (lacks "010" b), (lacks "013" a), (lacks "013" b);
    reflexivity.
Qed.

Lemma lacks_digits (c : ascii) (s : string) :
  Num.is_digit c = false -> digit_string s = true -> lacks c s = true.
Proof.
  intros Hc. induction s as [|a s IH]; [reflexivity|].
  cbn [digit_string lacks]. intros H. apply andb_true_iff in H as [Ha Hs].
  rewrite (IH Hs), andb_true_r. unfold Py.ascii_eqb.
  destruct (Ascii.eqb_spec a c) as [->|_]; [congruence|reflexivity].
Qed.

Lemma clean_str_nat (n : nat) : clean (Text.str_nat n) = true.
Proof.
  unfold clean, Text.str_nat.
  destruct (digits_spec (Z.of_nat n)) as [H _].
  rewrite !lacks_digits by (reflexivity || exact H). reflexivity.
Qed.

(** ** The text [describe] saves *)

Lemma describe_saved_lines (i : nat) (tables : list (list string)) :
  Forall (fun t => t <> []) tables ->
  describe_saved i (map (Text.join Py.NL) tables)
  = unlines (saved_lines i tables).
Proof.
  intros H. revert i. induction H as [|t tables Ht _ IH]; intros i;
    [reflexivity|].
  cbn [map describe_saved saved_lines]. rewrite IH, (print_join t Ht).
  rewrite !unlines_app. f_equal; [|f_equal].
  - unfold Text.print, unlines. cbn [map Py.concat Text.times].
    rewrite !app_assoc_s, app_empty_r. reflexivity.
  - destruct (i =? 7)%nat; reflexivity.
Qed.

Lemma saved_text_lines (data_type axis save_as : string)
    (tables : list (list string)) :
  save_as <> "" ->
  Forall (fun t => t <> []) tables ->
  saved_text (map (Text.join Py.NL) tables) data_type axis save_as
  = unlines (description_lines data_type axis tables).
Proof.
  intros Hs Ht. unfold saved_text, describe.
  destruct (String.eqb_spec save_as "") as [E|_]; [contradiction|].
  cbn [negb written]. rewrite (describe_saved_lines 0 tables Ht).
  unfold description_lines. rewrite unlines_app. f_equal.
  unfold Text.print, unlines. cbn [map Py.concat].
  rewrite !app_assoc_s, app_empty_r. reflexivity.
Qed.

Lemma clean_saved_lines (i : nat) (tables : list (list string)) :
  Forall (Forall (fun s => clean s = true)) tables ->
  Forall (fun s => clean s = true) (saved_lines i tables).
Proof.
  intros H. revert i. induction H as [|t tables Ht _ IH]; intros i;
    [constructor|].
  cbn [saved_lines]. repeat (apply Forall_app; split).
  - repeat constructor. rewrite clean_app, clean_str_nat. reflexivity.
  - exact Ht.
  - destruct (i =? 7)%nat; repeat constructor.
  - apply IH.
Qed.

Lemma clean_description_lines (data_type axis : string)
    (tables : list (list string)) :
  clean data_type = true -> clean axis = true ->
  Forall (Forall (fun s => clean s = true)) tables ->
  Forall (fun s => clean s = true) (description_lines data_type axis tables).
Proof.
  intros Hd Ha Ht. unfold description_lines. apply Forall_app. split.
  - repeat constructor.
    + unfold Text.title. rewrite !clean_app, !clean_title_go, Hd, Ha.
      reflexivity.
    + unfold clean. rewrite !lacks_times by reflexivity. reflexivity.
  - apply clean_saved_lines, Ht.
Qed.

Lemma report_lines_saved (data_type axis save_as : string)
    (tables : list (list string)) :
  save_as <> "" ->
  clean data_type = true -> clean axis = true ->
  Forall (fun t => t <> []) tables ->
  Forall (Forall (fun s => clean s = true)) tables ->
  File.readlines (saved_text (map (Text.join Py.NL) tables) data_type axis save_as)
  = map (fun s => s +:+ Py.NL) (description_lines data_type axis tables) /\
  report_lines (saved_text (map (Text.join Py.NL) tables) data_type axis save_as)
  = drop 2 (map Py.strip (saved_lines 0 tables)).
Proof.
  intros Hs Hd Ha Hn Hc.
  assert (Hr : File.readlines
                 (saved_text (map (Text.join Py.NL) tables) data_type axis save_as)
               = map (fun s => s +:+ Py.NL)
                     (description_lines data_type axis tables)).
  { rewrite saved_text_lines by assumption.
    apply readlines_unlines, clean_description_lines; assumption. }
  split; [exact Hr|].
  unfold report_lines. rewrite Hr, map_map.
  rewrite (map_ext _ Py.strip) by (intros s; apply strip_line).
  unfold description_lines. rewrite map_app.
  cbn [map app drop]. reflexivity.
Qed.

Ltac nine_lines t H :=
  destruct t as [|? [|? [|? [|? [|? [|? [|? [|? [|? [|? ?]]]]]]]]]];
  try discriminate H; clear H.

Lemma slices_saved (tables : list (list string)) (i : nat) (t : list string) :
  length tables = 8%nat ->
  Forall (fun t => length t = 9%nat) tables ->
  tables !! i = Some t ->
  Py.slice (drop 2 (map Py.strip (saved_lines 0 tables))) (14 * i) (14 * i + 9)
  = map Py.strip t.
Proof.
  intros Hl Hn Hi.
  destruct tables as [|t1 [|t2 [|t3 [|t4 [|t5 [|t6 [|t7 [|t8 [|t9 ts]]]]]]]]];
    try discriminate Hl. clear Hl.
  repeat match goal with
         | H : Forall _ (_ :: _) |- _ => inversion H; clear H; subst
         | H : Forall _ [] |- _ => clear H
         end.
  repeat match goal with
         | H : length ?t = 9%nat |- _ => nine_lines t H
         end.
  destruct i as [|[|[|[|[|[|[|[|i]]]]]]]]; try discriminate Hi;
    cbn [lookup list_lookup] in Hi; inversion Hi; subst t; reflexivity.
Qed.

Lemma length_saved_lines (tables : list (list string)) :
  length tables = 8%nat ->
  Forall (fun t => length t = 9%nat) tables ->
  length (saved_lines 0 tables) = 109%nat.
Proof.
  intros Hl Hn.
  destruct tables as [|t1 [|t2 [|t3 [|t4 [|t5 [|t6 [|t7 [|t8 [|t9 ts]]]]]]]]];
    try discriminate Hl. clear Hl.
  repeat match goal with
         | H : Forall _ (_ :: _) |- _ => inversion H; clear H; subst
         | H : Forall _ [] |- _ => clear H
         end.
  cbn [saved_lines Nat.eqb Nat.add]. rewrite !length_app. cbn [length]. lia.
Qed.

(** ** Eight blocks, eight tables *)

Lemma load_tables (to_df : list string -> result DataFrame) (content : string)
    (dfs : list DataFrame) :
  length dfs = 8%nat ->
  (forall i df, dfs !! i = Some df ->
     exists lines,
       d (Py.slice (report_lines content) (14 * i) (14 * i + 9)) = Ok lines /\
       to_df lines = Ok df) ->
  exists t, load_dfs_from_description to_df content = Ok t /\ dimms_list t = dfs.
Proof.
  intros Hl H.
  destruct dfs as [|d1 [|d2 [|d3 [|d4 [|d5 [|d6 [|d7 [|d8 [|d9 ds]]]]]]]]];
    try discriminate Hl. clear Hl.
  destruct (H 0%nat d1 eq_refl) as (l1 & D1 & T1).
  destruct (H 1%nat d2 eq_refl) as (l2 & D2 & T2).
  destruct (H 2%nat d3 eq_refl) as (l3 & D3 & T3).
  destruct (H 3%nat d4 eq_refl) as (l4 & D4 & T4).
  destruct (H 4%nat d5 eq_refl) as (l5 & D5 & T5).
  destruct (H 5%nat d6 eq_refl) as (l6 & D6 & T6).
  destruct (H 6%nat d7 eq_refl) as (l7 & D7 & T7).
  destruct (H 7%nat d8 eq_refl) as (l8 & D8 & T8).
  clear H. cbn [Nat.mul Nat.add] in *.
  unfold load_dfs_from_description. cbv zeta. fold (report_lines content).
  rewrite D1, D2, D3, D4, D5, D6, D7, D8. cbn [bind].
  rewrite T1, T2, T3, T4, T5, T6, T7, T8. cbn [bind].
  eexists. split; reflexivity.
Qed.

Lemma wf_block_nine (q : Quantity) (block : list string) :
  wf_block q block = true -> length block = 9%nat.
Proof.
  intros H. destruct (wf_block_spec q block H) as (_ & _ & _ & Hl & _).
  destruct block as [|h [|c rows]]; try discriminate.
  change (length rows = 7%nat) in Hl. cbn [length]. rewrite Hl. reflexivity.
Qed.

(** X10. Given a name to save under, [describe] prints nothing and writes
    one file, named [save_as] with [.txt] added unless [.txt] occurs in
    it.  When the text of each of eight frames has nine lines, the file
    has 113 lines and the parsers find every table where they look for
    it: after the six lines of the head, the lines [14 i] to [14 i + 9]
    are the nine lines of frame [i], whatever the data type and the axis
    are called. *)
Theorem describe_layout (data_type axis save_as : string)
    (tables : list (list string)) :
  save_as <> "" ->
  clean data_type = true -> clean axis = true ->
  length tables = 8%nat ->
  Forall (fun t => length t = 9%nat /\ Forall (fun s => clean s = true) t)
         tables ->
  exists text,
    describe (map (Text.join Py.NL) tables) data_type axis (Some save_as)
    = mkOutput "" (Some (if Py.contains ".txt" save_as then save_as
                         else save_as +:+ ".txt", text)) /\
    length (File.readlines text) = 113%nat /\
    forall i t,
      tables !! i = Some t ->
      Py.slice (report_lines text) (14 * i) (14 * i + 9) = map Py.strip t.
Proof.
  intros Hs Hd Ha Hl Ht.
  assert (Hn : Forall (fun t : list string => t <> []) tables).
  { eapply Forall_impl; [exact Ht|]. intros t [H9 _] ->. discriminate. }
  assert (H9 : Forall (fun t : list string => length t = 9%nat) tables)
    by (eapply Forall_impl; [exact Ht|]; intros t [H _]; exact H).
  assert (Hc : Forall (Forall (fun s => clean s = true)) tables)
    by (eapply Forall_impl; [exact Ht|]; intros t [_ H]; exact H).
  destruct (report_lines_saved data_type axis save_as tables Hs Hd Ha Hn Hc)
    as [Hr Hrl].
  exists (saved_text (map (Text.join Py.NL) tables) data_type axis save_as).
  split; [|split].
  - unfold saved_text, describe.
    destruct (String.eqb_spec save_as "") as [E|_]; [contradiction|].
    cbn [negb written]. destruct (Py.contains ".txt" save_as); reflexivity.
  - rewrite Hr, length_map. unfold description_lines.
    rewrite length_app, (length_saved_lines tables Hl H9). reflexivity.
  - intros i t Hi. rewrite Hrl. apply slices_saved; assumption.
Qed.

Lemma describe_layout_witness :
  exists text,
    describe (map (Text.join Py.NL) (replicate 8 acceleration_block))
             "acceleration" "z" (Some "acceleration_z_description")
    = mkOutput "" (Some ("acceleration_z_description.txt", text)) /\
    length (File.readlines text) = 113%nat /\
    forall i t,
      replicate 8 acceleration_block !! i = Some t ->
      Py.slice (report_lines text) (14 * i) (14 * i + 9) = map Py.strip t.
Proof.
  apply (describe_layout "acceleration" "z" "acceleration_z_description"
           (replicate 8 acceleration_block)).
  - discriminate.
  - reflexivity.
  - reflexivity.
  - reflexivity.
  - repeat constructor.
Defined.

(** X11. A report written by [describe] is read back by the parser of its
    quantity: when the text of each of the eight frames is a well-formed
    block (the labels, the counts, the seven statistics), the parser
    returns eight tables, table [i] made from the statistics of frame
    [i], in the order of the frames. *)
Theorem describe_then_load (q : Quantity) (data_type axis save_as : string)
    (tables : list (list string)) :
  save_as <> "" ->
  clean data_type = true -> clean axis = true ->
  length tables = 8%nat ->
  Forall (fun t => Forall (fun s => clean s = true) t /\
                   wf_block q (map Py.strip t) = true) tables ->
  exists path text t,
    written (describe (map (Text.join Py.NL) tables) data_type axis
                      (Some save_as)) = Some (path, text) /\
    load_dfs q text = Ok t /\
    dimms_list t = map (table_of q) tables.
Proof.
  intros Hs Hd Ha Hl Ht.
  assert (Hn : Forall (fun t : list string => t <> []) tables).
  { eapply Forall_impl; [exact Ht|]. intros t [_ Hw] ->. discriminate. }
  assert (H9 : Forall (fun t : list string => length t = 9%nat) tables).
  { eapply Forall_impl; [exact Ht|]. intros t [_ Hw].
    apply wf_block_nine in Hw. rewrite length_map in Hw. exact Hw. }
  assert (Hc : Forall (Forall (fun s => clean s = true)) tables)
    by (eapply Forall_impl; [exact Ht|]; intros t [H _]; exact H).
  destruct (report_lines_saved data_type axis save_as tables Hs Hd Ha Hn Hc)
    as [_ Hrl].
  set (text := saved_text (map (Text.join Py.NL) tables) data_type axis save_as)
    in *.
  destruct (load_tables (to_df_of q) text (map (table_of q) tables)) as (t & H1 & H2).
  - rewrite length_map. exact Hl.
  - intros i df Hi. rewrite list_lookup_fmap in Hi.
    destruct (tables !! i) as [b|] eqn:Hb; [|discriminate].
    inversion Hi. subst df. clear Hi.
    rewrite Hrl, (slices_saved tables i b Hl H9 Hb).
    rewrite Forall_forall in Ht.
    destruct (Ht b (list_elem_of_lookup_2 _ _ _ Hb)) as [_ Hw].
    destruct (wf_block_spec q _ Hw) as (lines & Hdl & Hdf & _).
    exists lines. split; [exact Hdl|exact Hdf].
  - exists (if Py.contains ".txt" save_as then save_as else save_as +:+ ".txt"),
      text, t.
    split; [|split; [exact H1|exact H2]].
    unfold text, saved_text, describe.
    destruct (String.eqb_spec save_as "") as [E|_]; [contradiction|].
    cbn [negb written]. destruct (Py.contains ".txt" save_as); reflexivity.
Qed.

Lemma describe_then_load_witness :
  saved_text (map (Text.join Py.NL) (replicate 8 acceleration_block))
             "acceleration" "z" "report.txt" = acceleration_report /\
  exists path text t,
    written (describe (map (Text.join Py.NL) (replicate 8 acceleration_block))
                      "acceleration" "z" (Some "report.txt"))
    = Some (path, text) /\
    load_dfs acceleration text = Ok t /\
    dimms_list t = map (table_of acceleration) (replicate 8 acceleration_block).
Proof.
  split; [vm_compute; reflexivity|].
  apply (describe_then_load acceleration "acceleration" "z" "report.txt"
           (replicate 8 acceleration_block)).
  - discriminate.
  - reflexivity.
  - reflexivity.
  - reflexivity.
  - repeat constructor; vm_compute; reflexivity.
Defined.

(** ** A report given to the parser of another quantity *)

Lemma acceleration_to_df_other (q : Quantity) (h : string) (rows : list string) :
  q <> acceleration ->
  wf_header q h = true ->
  Forall (good_row q) rows ->
  Acceleration.to_df ((Py.TAB +:+ h) :: rows) = Raise (KeyError "Amplitude_g").
Proof.
  intros Hq Hh Hrows. unfold Acceleration.to_df.
  rewrite (to_df_rows_wf q h rows Hh Hrows). cbn [bind fst snd].
  rewrite (str_cells_rows q rows Hrows).
  assert (Hs : schema q = ["Frequency"; "Amplitude"; "Phase_Angle"])
    by (destruct q; [reflexivity|reflexivity|congruence]).
  assert (Hp : printed_labels q = ["Frequency"; "Amplitude"])
    by (destruct q; [reflexivity|reflexivity|congruence]).
  rewrite Hs, Hp. cbn [length seq map app].
  rewrite DataFrame_rect
    by (apply Forall_forall; intros r Hr; apply list_elem_of_In, in_map_iff in Hr
        as (l & <- & _); reflexivity).
  cbn [bind]. unfold Acceleration.reorder. cbn [columns values].
  cbn [swap_1_2 Py.item lookup list_lookup bind insert list_insert].
  rewrite mapM_map.
  rewrite (mapM_ok_map _ (fun l => [PyStr (tok 0 l); PyStr (tok 2 l);
                                    PyStr (tok 1 l)]))
    by reflexivity.
  cbn [bind].
  rewrite DataFrame_rect
    by (apply Forall_forall; intros r Hr; apply list_elem_of_In, in_map_iff in Hr
        as (l & <- & _); reflexivity).
  cbn [bind].
  assert (Hf : forall j, (j < 3)%nat -> forall x, In x rows -> is_float (tok j x) = true).
  { intros j Hj x Hx. apply (tok_is_float q); [|rewrite Hs; exact Hj].
    rewrite Forall_forall in Hrows. apply Hrows, list_elem_of_In, Hx. }
  rewrite (format_column_rows rows _ (tok 0) _ "Frequency" 0);
    [|reflexivity|reflexivity|apply Hf; lia|intros; apply cut_ok].
  cbn [bind].
  rewrite (format_column_rows rows _ (tok 1) _ "Amplitude" 2);
    [|reflexivity|reflexivity|apply Hf; lia|intros; apply cut_ok].
  cbn [bind].
  rewrite format_column_absent; [reflexivity|].
  cbn [columns]. simpl. intuition discriminate.
Qed.

Lemma velocity_deformation_to_df_acceleration (h : string) (rows : list string) :
  wf_header acceleration h = true ->
  Forall (good_row acceleration) rows ->
  VelocityDeformation.to_df ((Py.TAB +:+ h) :: rows)
  = Ok (mkDataFrame ["Frequency"; "Amplitude_g"; "Amplitude"; "Phase_Angle"]
          (map mixed_row rows)).
Proof.
  intros Hh Hrows. unfold VelocityDeformation.to_df.
  rewrite (to_df_rows_wf acceleration h rows Hh Hrows). cbn [bind fst snd].
  rewrite (str_cells_rows acceleration rows Hrows).
  cbn [schema printed_labels length seq map app].
  rewrite !DataFrame_rect
    by (apply Forall_forall; intros r Hr; apply list_elem_of_In, in_map_iff in Hr
        as (l & <- & _); reflexivity).
  cbn [bind].
  assert (Hf : forall j, (j < 4)%nat -> forall x, In x rows -> is_float (tok j x) = true).
  { intros j Hj x Hx. apply (tok_is_float acceleration); [|exact Hj].
    rewrite Forall_forall in Hrows. apply Hrows, list_elem_of_In, Hx. }
  rewrite (format_column_rows rows _ (tok 0) _ "Frequency" 0);
    [|reflexivity|reflexivity|apply Hf; lia|intros; apply cut_ok].
  cbn [bind].
  rewrite (format_column_rows rows _ (tok 2) _ "Amplitude" 2);
    [|reflexivity|reflexivity|apply Hf; lia|intros; apply cut_ok].
  cbn [bind].
  rewrite (format_column_rows rows _ (tok 3) _ "Phase_Angle" 3);
    [|reflexivity|reflexivity|apply Hf; lia|apply cut_phase_ok].
  cbn [bind]. do 2 f_equal. apply map_ext. intros l.
  cbn [insert list_insert]. rewrite cut_phase_text. reflexivity.
Qed.

(** The blocks of a well-formed report, as [d] and [to_df] see them. *)
Lemma wf_report_blocks (q : Quantity) (content : string) (i : nat) :
  wf_report q content = true -> (i < 8)%nat ->
  exists h c rows,
    Py.slice (report_lines content) (14 * i) (14 * i + 9) = h :: c :: rows /\
    rows = Py.slice (report_lines content) (14 * i + 2) (14 * i + 9) /\
    wf_header q h = true /\ Forall (good_row q) rows /\ length rows = 7%nat.
Proof.
  intros H Hi. unfold wf_report in H. rewrite forallb_forall in H.
  specialize (H i). rewrite in_seq in H. specialize (H ltac:(lia)).
  pose proof (slice_drop2 (report_lines content) (14 * i)) as Hd.
  destruct (Py.slice (report_lines content) (14 * i) (14 * i + 9))
    as [|h [|c rows]]; try discriminate.
  cbn [wf_block] in H. apply andb_true_iff in H as [Hh Hr].
  apply wf_rows_spec in Hr as (Hlen & Hgood & _).
  exists h, c, rows. cbn [drop] in Hd.
  change (drop 0 rows) with rows in Hd. auto.
Qed.

Lemma load_first_fails (to_df : list string -> result DataFrame)
    (content : string) (e : PyError) :
  (forall i, (i < 8)%nat ->
     exists lines,
       d (Py.slice (report_lines content) (14 * i) (14 * i + 9)) = Ok lines /\
       (i = 0%nat -> to_df lines = Raise e)) ->
  load_dfs_from_description to_df content = Raise e.
Proof.
  intros H.
  destruct (H 0%nat ltac:(lia)) as (l1 & D1 & T1).
  destruct (H 1%nat ltac:(lia)) as (l2 & D2 & _).
  destruct (H 2%nat ltac:(lia)) as (l3 & D3 & _).
  destruct (H 3%nat ltac:(lia)) as (l4 & D4 & _).
  destruct (H 4%nat ltac:(lia)) as (l5 & D5 & _).
  destruct (H 5%nat ltac:(lia)) as (l6 & D6 & _).
  destruct (H 6%nat ltac:(lia)) as (l7 & D7 & _).
  destruct (H 7%nat ltac:(lia)) as (l8 & D8 & _).
  clear H. cbn [Nat.mul Nat.add] in *.
  unfold load_dfs_from_description. cbv zeta. fold (report_lines content).
  rewrite D1, D2, D3, D4, D5, D6, D7, D8. cbn [bind].
  rewrite (T1 eq_refl). reflexivity.
Qed.

(** X12. The acceleration parser refuses every well-formed report of
    velocity or deformation: it fails with [KeyError] for the label
    [Amplitude_g], which these reports do not print (after it has
    exchanged the columns [Amplitude] and [Phase_Angle] and formatted two
    columns of the first table). *)
Theorem acceleration_parser_refuses (q : Quantity) (content : string) :
  q <> acceleration ->
  wf_report q content = true ->
  load_dfs_from_description__acceleration content
  = Raise (KeyError "Amplitude_g").
Proof.
  intros Hq H. apply load_first_fails. intros i Hi.
  destruct (wf_report_blocks q content i H Hi)
    as (h & c & rows & -> & _ & Hh & Hr & _).
  exists ((Py.TAB +:+ h) :: rows). split; [reflexivity|]. intros _.
  apply (acceleration_to_df_other q); assumption.
Qed.

Lemma acceleration_parser_refuses_witness :
  load_dfs_from_description__acceleration deformation_report
  = Raise (KeyError "Amplitude_g").
Proof.
  apply (acceleration_parser_refuses deformation deformation_report).
  - discriminate.
  - vm_compute. reflexivity.
Defined.

(** X13. The parser of velocity and deformation does not refuse a
    well-formed acceleration report: it returns eight tables of four
    columns in the order printed ([Frequency], [Amplitude_g],
    [Amplitude], [Phase_Angle]), where [Amplitude_g] keeps the text of
    the report and [Amplitude] is written with six decimals and cut to 8
    characters. *)
Theorem velocity_deformation_parser_accepts (content : string) :
  wf_report acceleration content = true ->
  exists t,
    load_dfs_from_description__velocity_deformation content = Ok t /\
    forall i, (i < 8)%nat ->
      dimms_list t !! i
      = Some (mkDataFrame ["Frequency"; "Amplitude_g"; "Amplitude"; "Phase_Angle"]
                (map mixed_row
                   (Py.slice (report_lines content) (14 * i + 2) (14 * i + 9)))).
Proof.
  intros H.
  destruct (load_tables VelocityDeformation.to_df content
              (map (fun i => mkDataFrame
                               ["Frequency"; "Amplitude_g"; "Amplitude"; "Phase_Angle"]
                               (map mixed_row
                                  (Py.slice (report_lines content)
                                            (14 * i + 2) (14 * i + 9))))
                   (seq 0 8))) as (t & H1 & H2).
  - reflexivity.
  - intros i df Hi. rewrite list_lookup_fmap in Hi.
    destruct (seq 0 8 !! i) as [k|] eqn:Hk; [|discriminate].
    apply lookup_seq in Hk as [-> Hlt]. change (0 + i)%nat with i in Hi.
    assert (df = mkDataFrame
                   ["Frequency"; "Amplitude_g"; "Amplitude"; "Phase_Angle"]
                   (map mixed_row
                      (Py.slice (report_lines content) (14 * i + 2) (14 * i + 9))))
      as -> by (symmetry;
                exact (f_equal (fun o => match o with Some d => d | None => df end)
                               Hi)).
    clear Hi.
    destruct (wf_report_blocks acceleration content i H Hlt)
      as (h & c & rows & -> & <- & Hh & Hr & _).
    exists ((Py.TAB +:+ h) :: rows). split; [reflexivity|].
    apply velocity_deformation_to_df_acceleration; assumption.
  - exists t. split; [exact H1|]. intros i Hi. rewrite H2.
    rewrite list_lookup_fmap, lookup_seq_lt by exact Hi. reflexivity.
Qed.

Lemma velocity_deformation_parser_accepts_witness :
  exists t,
    load_dfs_from_description__velocity_deformation acceleration_report = Ok t /\
    forall i, (i < 8)%nat ->
      dimms_list t !! i
      = Some (mkDataFrame ["Frequency"; "Amplitude_g"; "Amplitude"; "Phase_Angle"]
                (map mixed_row
                   (Py.slice (report_lines acceleration_report)
                             (14 * i + 2) (14 * i + 9)))).
Proof.
  apply (velocity_deformation_parser_accepts acceleration_report).
  vm_compute. reflexivity.
Defined.

(** ** The calls made on the sheet *)

Ltac row_of_length r H :=
  destruct r as [|? [|? [|? [|? [|? ?]]]]]; try discriminate H; clear H.

Lemma contents_full (sf : float -> string) (q : Quantity) (df : DataFrame) :
  sendable q df ->
  contents_of sf (schema q) df = Ok (sheet_contents sf q df).
Proof.
  intros (Hc & Hr & Hn). destruct df as [cols rows].
  unfold rectangular in Hr. cbn [columns values] in *. subst cols.
  destruct rows as [|r1 [|r2 [|r3 [|r4 [|r5 [|r6 [|r7 rows]]]]]]];
    cbn [length] in Hn; try lia. clear Hn.
  repeat match goal with
         | H : Forall _ (_ :: _) |- _ =>
             apply Forall_cons in H; destruct H as [? H]
         end.
  clear Hr.
  destruct q; cbn [schema length] in *;
    repeat match goal with
           | H : length ?r = _ |- _ => row_of_length r H
           end;
    reflexivity.
Qed.

Lemma contents_short (sf : float -> string) (q : Quantity) (df : DataFrame) :
  columns df = schema q -> rectangular df ->
  (length (values df) < 7)%nat ->
  contents_of sf (schema q) df
  = Raise (KeyError (Text.str_nat (length (values df)))).
Proof.
  intros Hc Hr Hn. destruct df as [cols rows].
  unfold rectangular in Hr. cbn [columns values] in *. subst cols.
  destruct rows as [|r1 [|r2 [|r3 [|r4 [|r5 [|r6 [|r7 rows]]]]]]];
    cbn [length] in Hn; try lia; clear Hn;
    repeat match goal with
           | H : Forall _ (_ :: _) |- _ =>
               apply Forall_cons in H; destruct H as [? H]
           end;
    clear Hr;
    destruct q; cbn [schema length] in *;
    repeat match goal with
           | H : length ?r = _ |- _ => row_of_length r H
           end;
    reflexivity.
Qed.

Lemma set_ranges_ok (sf : float -> string) (names : list string)
    (todo : list (string * DataFrame)) (calls : list SheetCall)
    (f : DataFrame -> list (list string)) :
  Forall (fun p => contents_of sf names (snd p) = Ok (f (snd p))) todo ->
  set_ranges sf names todo calls
  = (calls ++ map (fun p => set_acell_contents_range (fst p) (f (snd p))) todo,
     Ok tt).
Proof.
  intros H. revert calls. induction H as [|[r df] todo Hp _ IH]; intros calls.
  - cbn [set_ranges map]. rewrite app_nil_r. reflexivity.
  - cbn [set_ranges map fst snd] in *. rewrite Hp, IH, <- app_assoc.
    reflexivity.
Qed.

Lemma set_ranges_fail (sf : float -> string) (names : list string)
    (sent rest : list (string * DataFrame)) (r : string) (df : DataFrame)
    (e : PyError) (calls : list SheetCall) (f : DataFrame -> list (list string)) :
  Forall (fun p => contents_of sf names (snd p) = Ok (f (snd p))) sent ->
  contents_of sf names df = Raise e ->
  set_ranges sf names (sent ++ (r, df) :: rest) calls
  = (calls ++ map (fun p => set_acell_contents_range (fst p) (f (snd p))) sent,
     Raise e).
Proof.
  intros H He. revert calls. induction H as [|[r0 df0] sent Hp _ IH]; intros calls.
  - cbn [app set_ranges map]. rewrite He, app_nil_r. reflexivity.
  - cbn [app set_ranges map fst snd] in *. rewrite Hp, IH, <- app_assoc.
    reflexivity.
Qed.

Lemma writer_unfold (sf : float -> string) (q : Quantity) (t : Dimms DataFrame) :
  write_dfs_to_google_sheets sf q t
  = set_ranges sf (schema q) (zip (sheet_ranges q) (dimms_list t))
      [GoogleSheets "PythonTest"; clear_worksheet].
Proof. destruct q; reflexivity. Qed.

Lemma sheet_full (sf : float -> string) (q : Quantity) (t : Dimms DataFrame) :
  Forall (sendable q) (dimms_list t) ->
  write_dfs_to_google_sheets sf q t
  = (GoogleSheets "PythonTest" :: clear_worksheet
       :: map (fun p => set_acell_contents_range (fst p)
                          (sheet_contents sf q (snd p)))
              (zip (sheet_ranges q) (dimms_list t)),
     Ok tt).
Proof.
  intros H. rewrite writer_unfold.
  rewrite (set_ranges_ok sf (schema q) _ _ (sheet_contents sf q)); [reflexivity|].
  apply Forall_forall. intros [r df] Hin. cbn [snd].
  apply contents_full. rewrite Forall_forall in H. apply H.
  apply (elem_of_zip_r _ _ _ _ Hin).
Qed.

Lemma zip_middle {A B : Type} (l : list A) (k : list B) (j : nat) (a : A) (b : B) :
  l !! j = Some a -> k !! j = Some b ->
  zip l k = zip (take j l) (take j k)
              ++ (a, b) :: zip (drop (S j) l) (drop (S j) k).
Proof.
  revert l k. induction j as [|j IH]; intros [|x l] [|y k] Hl Hk;
    try discriminate.
  - cbn in Hl, Hk. inversion Hl. inversion Hk. reflexivity.
  - cbn in Hl, Hk. cbn [take drop zip zip_with app].
    f_equal. apply (IH l k Hl Hk).
Qed.

Lemma length_sheet_ranges (q : Quantity) : length (sheet_ranges q) = 8%nat.
Proof. destruct q; reflexivity. Qed.


(** X14. Given eight tables that have the labels of the quantity and
    seven rows or more, a writer opens the sheet [PythonTest], clears it,
    and then makes eight calls, one per table in the order [DIMM1] to
    [DIMM8]: table [i] goes to the rows [11 i + 1] to [11 i + 8] from
    column B on, as its labels followed by its first seven rows, every
    value under its own label. *)
Theorem sheet_receives_tables (str_float : float -> string) (q : Quantity)
    (t : Dimms DataFrame) :
  Forall (sendable q) (dimms_list t) ->
  write_dfs_to_google_sheets str_float q t
  = (GoogleSheets "PythonTest" :: clear_worksheet
       :: map (fun p => set_acell_contents_range (fst p)
                          (sheet_contents str_float q (snd p)))
              (zip (sheet_ranges q) (dimms_list t)),
     Ok tt) /\
  sheet_ranges q
  = map (fun i => "B" +:+ Text.str_nat (11 * i + 1) +:+ ":"
                    +:+ (match q with acceleration => "E" | _ => "D" end)
                    +:+ Text.str_nat (11 * i + 8))
        (seq 0 8).
Proof.
  intros H. split; [apply sheet_full, H|]. destruct q; vm_compute; reflexivity.
Qed.

Lemma sheet_receives_tables_witness :
  write_dfs_to_google_sheets__acceleration (Num.format_f 6) sample_tables
  = (GoogleSheets "PythonTest" :: clear_worksheet
       :: map (fun p => set_acell_contents_range (fst p)
                          (sheet_contents (Num.format_f 6) acceleration (snd p)))
              (zip acceleration_ranges (dimms_list sample_tables)),
     Ok tt) /\
  sheet_contents (Num.format_f 6) acceleration sample_table
  = [ ["Frequency"; "Amplitude"; "Amplitude_g"; "Phase_Angle"];
      ["12.34"; "2.0000"; "0.2039"; "-12.34"];
      ["5.787"; "1.0000"; "0.1019"; "90.50"];
      ["1.000"; "0.0100"; "0.0010"; "-180.0"];
      ["5.750"; "0.5000"; "0.0510"; "-90.00"];
      ["10.50"; "1.0000"; "0.1019"; "0.000"];
      ["15.25"; "1.5000"; "0.1529"; "90.00"];
      ["20.00"; "6.0000"; "0.6116"; "179.1"] ].
Proof.
  split; [|vm_compute; reflexivity].
  refine (proj1 (sheet_receives_tables (Num.format_f 6) acceleration
                   sample_tables _)).
  repeat constructor.
Defined.

(** X15. When a table has fewer than seven rows, the writer fails with
    [KeyError] for the number of the first row that is missing, after it
    has cleared the sheet and written the tables before that one: the
    sheet is left cleared and partly filled.  The report of 112 lines,
    which the parser accepts, ends so: seven tables are written and the
    eighth fails on row 6. *)
Theorem sheet_partial_write (str_float : float -> string) (q : Quantity)
    (t : Dimms DataFrame) (j : nat) (df : DataFrame) :
  dimms_list t !! j = Some df ->
  Forall (sendable q) (take j (dimms_list t)) ->
  columns df = schema q -> rectangular df ->
  (length (values df) < 7)%nat ->
  write_dfs_to_google_sheets str_float q t
  = (GoogleSheets "PythonTest" :: clear_worksheet
       :: map (fun p => set_acell_contents_range (fst p)
                          (sheet_contents str_float q (snd p)))
              (zip (take j (sheet_ranges q)) (take j (dimms_list t))),
     Raise (KeyError (Text.str_nat (length (values df))))).
Proof.
  intros Hj Hs Hc Hr Hn. rewrite writer_unfold.
  assert (Hlt : (j < 8)%nat) by (apply lookup_lt_Some in Hj; exact Hj).
  destruct (lookup_lt_is_Some_2 (sheet_ranges q) j) as [r Hrj];
    [rewrite length_sheet_ranges; exact Hlt|].
  pose proof (zip_middle _ _ j r df Hrj Hj) as Hz.
  rewrite Hz.
  rewrite (set_ranges_fail str_float (schema q) _ _ r df
             (KeyError (Text.str_nat (length (values df)))) _
             (sheet_contents str_float q)); [reflexivity| |].
  - apply Forall_forall. intros [r0 df0] Hin. cbn [snd].
    apply contents_full. rewrite Forall_forall in Hs. apply Hs.
    apply (elem_of_zip_r _ _ _ _ Hin).
  - apply contents_short; assumption.
Qed.

Lemma sheet_partial_write_witness :
  load_dfs_from_description__acceleration short_report = Ok short_tables /\
  write_dfs_to_google_sheets__acceleration (Num.format_f 6) short_tables
  = (GoogleSheets "PythonTest" :: clear_worksheet
       :: map (fun p => set_acell_contents_range (fst p)
                          (sheet_contents (Num.format_f 6) acceleration (snd p)))
              (zip (take 7 acceleration_ranges) (take 7 (dimms_list short_tables))),
     Raise (KeyError "6")).
Proof.
  split; [vm_compute; reflexivity|].
  apply (sheet_partial_write (Num.format_f 6) acceleration short_tables 7
           short_table).
  - reflexivity.
  - repeat constructor.
  - reflexivity.
  - repeat constructor.
  - vm_compute. lia.
Defined.

(** X16. The functions that read a description file and send it to the
    sheet look for the file under the names of the folder and of the axis
    in small letters.  When the file is absent or the parser fails, they
    fail with the same error and make no call at all: the sheet is not
    opened and not cleared.  On a report with eight well-formed blocks
    they clear the sheet and write the eight tables, each as its labels
    and the seven rows made from its statistics. *)
Theorem descriptions_to_sheet (str_float : float -> string) (q : Quantity)
    (axis sim_folder_name : string) (fs : FileSystem) :
  let path := Num.lowercase sim_folder_name +:+ "/data/" +:+ quantity_name q
                +:+ "_" +:+ Num.lowercase axis +:+ "_description.txt" in
  let run := write_descriptions_to_google_sheets str_float q axis
               sim_folder_name fs in
  (content_of fs path = None -> run = ([], Raise FileNotFoundError)) /\
  (forall content e,
     content_of fs path = Some content ->
     load_dfs q content = Raise e -> run = ([], Raise e)) /\
  (forall content,
     content_of fs path = Some content ->
     wf_report q content = true ->
     run
     = (GoogleSheets "PythonTest" :: clear_worksheet
          :: map (fun i =>
                    set_acell_contents_range
                      (nth i (sheet_ranges q) "")
                      (schema q
                         :: map (fun line => map (fstring str_float)
                                               (table_row q line))
                              (Py.slice (report_lines content)
                                        (14 * i + 2) (14 * i + 9))))
                 (seq 0 8),
        Ok tt)).
Proof.
  cbv zeta.
  assert (Hrun : write_descriptions_to_google_sheets str_float q axis
                   sim_folder_name fs
                 = match content_of fs
                           (Num.lowercase sim_folder_name +:+ "/data/"
                              +:+ quantity_name q +:+ "_" +:+ Num.lowercase axis
                              +:+ "_description.txt") with
                   | Some content =>
                       match load_dfs q content with
                       | Ok t => write_dfs_to_google_sheets str_float q t
                       | Raise e => ([], Raise e)
                       end
                   | None => ([], Raise FileNotFoundError)
                   end).
  { destruct q; cbn [write_descriptions_to_google_sheets quantity_name];
      unfold write_velocity_descriptions_to_google_sheets,
        write_deformation_descriptions_to_google_sheets,
        write_acceleration_descriptions_to_google_sheets,
        load_description, description_path;
      destruct (content_of fs _); reflexivity. }
  rewrite Hrun. split; [|split].
  - intros ->. reflexivity.
  - intros content e -> ->. reflexivity.
  - intros content -> Hw.
    set (tables := map (fun i => mkDataFrame (schema q)
                                   (map (table_row q)
                                      (Py.slice (report_lines content)
                                                (14 * i + 2) (14 * i + 9))))
                       (seq 0 8)).
    destruct (load_tables (to_df_of q) content tables) as (t & H1 & H2).
    + reflexivity.
    + intros i df Hi. unfold tables in Hi. rewrite list_lookup_fmap in Hi.
      destruct (seq 0 8 !! i) as [k|] eqn:Hk; [|discriminate].
      apply lookup_seq in Hk as [-> Hlt]. change (0 + i)%nat with i in Hi.
      assert (df = mkDataFrame (schema q)
                     (map (table_row q)
                        (Py.slice (report_lines content) (14 * i + 2) (14 * i + 9))))
        as -> by (symmetry;
                  exact (f_equal (fun o => match o with Some d => d | None => df end)
                                 Hi)).
      clear Hi.
      destruct (wf_report_blocks q content i Hw Hlt)
        as (h & c & rows & -> & <- & Hh & Hr & _).
      exists ((Py.TAB +:+ h) :: rows). split; [reflexivity|].
      apply to_df_wf; assumption.
    + unfold load_dfs. rewrite H1.
      assert (Hs : Forall (sendable q) (dimms_list t)).
      { rewrite H2. unfold tables. apply Forall_forall. intros df Hin.
        apply list_elem_of_In, in_map_iff in Hin as (i & <- & Hi).
        apply in_seq in Hi.
        destruct (wf_report_blocks q content i Hw ltac:(lia))
          as (h & c & rows & _ & <- & _ & _ & Hlen).
        split; [reflexivity|]. split.
        - unfold rectangular. cbn [columns values]. apply Forall_forall.
          intros r Hr. apply list_elem_of_In, in_map_iff in Hr as (l & <- & _).
          destruct q; reflexivity.
        - cbn [values]. rewrite length_map, Hlen. lia. }
      rewrite (sheet_full str_float q t Hs). do 3 f_equal.
      rewrite H2. unfold tables.
      set (F := fun i : nat => mkDataFrame (schema q)
                  (map (table_row q)
                     (Py.slice (report_lines content) (14 * i + 2) (14 * i + 9)))).
      assert (Hz : zip (sheet_ranges q) (map F (seq 0 8))
                   = map (fun i => (nth i (sheet_ranges q) "", F i)) (seq 0 8))
        by (destruct q; reflexivity).
      rewrite Hz, map_map. apply map_ext_in. intros i Hi. cbn [fst snd].
      f_equal. unfold sheet_contents, F. cbn [values]. f_equal.
      apply in_seq in Hi.
      destruct (wf_report_blocks q content i Hw ltac:(lia))
        as (h & c & rows & _ & <- & _ & _ & Hlen).
      rewrite take_ge by (rewrite length_map; lia).
      rewrite map_map. reflexivity.
Qed.

Lemma descriptions_to_sheet_witness :
  write_acceleration_descriptions_to_google_sheets (Num.format_f 6) "Z" "Sim5"
    (one_description "sim5/data/acceleration_z_description.txt" acceleration_report)
  = write_dfs_to_google_sheets__acceleration (Num.format_f 6) sample_tables /\
  write_deformation_descriptions_to_google_sheets (Num.format_f 6) "Z" "Sim5"
    (one_description "sim5/data/acceleration_z_description.txt" acceleration_report)
  = ([], Raise FileNotFoundError) /\
  write_velocity_descriptions_to_google_sheets (Num.format_f 6) "z" "sim5"
    (one_description "sim5/data/velocity_z_description.txt" "")
  = ([], Raise IndexError).
Proof.
  split; [|split].
  - etransitivity.
    + apply (proj2 (proj2 (descriptions_to_sheet (Num.format_f 6) acceleration
                             "Z" "Sim5"
                             (one_description
                                "sim5/data/acceleration_z_description.txt"
                                acceleration_report)))
               acceleration_report);
        vm_compute; reflexivity.
    + vm_compute. reflexivity.
  - apply (proj1 (descriptions_to_sheet (Num.format_f 6) deformation "Z" "Sim5"
                    (one_description "sim5/data/acceleration_z_description.txt"
                                     acceleration_report))).
    reflexivity.
  - apply (proj1 (proj2 (descriptions_to_sheet (Num.format_f 6) velocity "z" "sim5"
                           (one_description "sim5/data/velocity_z_description.txt"
                                            ""))) "");
      vm_compute; reflexivity.
Defined.

(** ** Reading a folder a second time *)

Lemma rewritten_from_refl (q : Quantity) (fs : FileSystem) :
  rewritten_from q fs fs.
Proof. intros path. left. reflexivity. Qed.

Lemma rewritten_from_trans (q : Quantity) (fs1 fs2 fs3 : FileSystem) :
  rewritten_from q fs1 fs2 -> rewritten_from q fs2 fs3 ->
  rewritten_from q fs1 fs3.
Proof.
  intros H12 H23 path.
  destruct (H23 path) as [E|(c & E2 & E3)].
  - rewrite E. apply H12.
  - destruct (H12 path) as [E'|(c' & E1 & E2')].
    + right. exists c. rewrite <- E'. auto.
    + right. exists c'. split; [exact E1|]. rewrite E3.
      rewrite E2 in E2'. inversion E2'. rewrite rewrite_idempotent. reflexivity.
Qed.

Lemma rewritten_from_ext (q : Quantity) (fs fs1 fs2 : FileSystem) :
  rewritten_from q fs fs1 ->
  (forall path, content_of fs2 path = content_of fs1 path) ->
  rewritten_from q fs fs2.
Proof. intros H E path. rewrite E. apply H. Qed.

Lemma read_files_rewritten (q : Quantity) (folder : string)
    (files : list string) (fs : FileSystem) :
  rewritten_from q fs (snd (read_files q folder files fs)).
Proof.
  destruct (read_files_lawful q folder fs (fun _ => True) files fs
              (lawful_start _ _ _ _) (fun _ _ => I)) as [_ H].
  intros path. destruct (H path) as [E|(f & c & _ & _ & E0 & E1)];
    [left; exact E|right; exists c; auto].
Qed.

Lemma rewritten_at (q : Quantity) (fs fs' : FileSystem) (path c : string) :
  rewritten_from q fs fs' ->
  content_of fs path = Some (rewrite_file q c) ->
  content_of fs' path = Some (rewrite_file q c).
Proof.
  intros H E. destruct (H path) as [E'|(c' & E1 & E2)].
  - rewrite E'. exact E.
  - rewrite E in E1. inversion E1. subst c'. rewrite E2, rewrite_idempotent.
    reflexivity.
Qed.

Lemma write_same (fs : FileSystem) (path content : string) :
  content_of fs path = Some content ->
  forall p, content_of (write_file fs path content) p = content_of fs p.
Proof.
  intros H p. cbn [write_file content_of].
  destruct (String.eqb_spec p path) as [->|_]; [symmetry; exact H|reflexivity].
Qed.

(** The loop run again, from a state in which the files it rewrote are
    still rewritten: the same outcome, and no text changes. *)
Lemma read_files_again (q : Quantity) (folder : string) (files : list string) :
  forall fs fs',
    rewritten_from q (snd (read_files q folder files fs)) fs' ->
    fst (read_files q folder files fs') = fst (read_files q folder files fs) /\
    forall path,
      content_of (snd (read_files q folder files fs')) path
      = content_of fs' path.
Proof.
  induction files as [|file files IH]; intros fs fs' H; [split; reflexivity|].
  cbn [read_files] in H |- *.
  destruct (content_of fs (folder +:+ file)) as [c|] eqn:Hc.
  - unfold read_file in H |- *. cbv zeta in H |- *.
    set (fsw := write_file fs (folder +:+ file) (rewrite_file q c)) in *.
    assert (Hw : content_of fsw (folder +:+ file) = Some (rewrite_file q c))
      by (unfold fsw; cbn [write_file content_of]; rewrite String.eqb_refl;
          reflexivity).
    destruct (let! df := Csv.read_csv (rewrite_file q c) names3 in normalize q df)
      as [df|e] eqn:Hdf.
    + pose proof (read_files_stable q folder files fsw _ c Hw) as Hst.
      specialize (IH fsw).
      destruct (read_files q folder files fsw) as [rs fs1] eqn:Hrf.
      cbn [fst snd] in *.
      assert (Hf : content_of fs' (folder +:+ file) = Some (rewrite_file q c)).
      { destruct rs; cbn [snd] in H; eapply rewritten_at; eauto. }
      rewrite Hf, rewrite_idempotent, Hdf.
      set (fsw' := write_file fs' (folder +:+ file) (rewrite_file q c)).
      assert (He : forall p, content_of fsw' p = content_of fs' p)
        by (apply write_same, Hf).
      assert (H' : rewritten_from q fs1 fsw').
      { eapply rewritten_from_ext; [|exact He]. destruct rs; exact H. }
      destruct (IH fsw' H') as [IH1 IH2].
      destruct (read_files q folder files fsw') as [rs' fs2].
      cbn [fst snd] in *. subst rs'.
      destruct rs as [dfs|e]; cbn [bind fst snd]; split; try reflexivity;
        intros path; rewrite IH2; apply He.
    + cbn [fst snd] in *.
      assert (Hf : content_of fs' (folder +:+ file) = Some (rewrite_file q c))
        by (eapply rewritten_at; eauto).
      rewrite Hf, rewrite_idempotent, Hdf. cbn [fst snd].
      split; [reflexivity|]. apply write_same, Hf.
  - cbn [fst snd] in *. destruct (H (folder +:+ file)) as [E|(c & E & _)].
    + rewrite E, Hc. split; reflexivity.
    + rewrite Hc in E. discriminate.
Qed.

Lemma get_data_axes (q : Quantity) (parent_folder : string) (fs : FileSystem) :
  get_data q parent_folder fs
  = match listing fs (data_path parent_folder q) with
    | Some files =>
        read_axes q (data_path parent_folder q)
                  (sort_by_axis files (mkAxes [] [] [])) fs
    | None => (Raise FileNotFoundError, fs)
    end.
Proof.
  unfold get_data, get_data_files, listdir, read_axes.
  destruct (listing fs (data_path parent_folder q)); reflexivity.
Qed.

Lemma read_axes_again (q : Quantity) (folder : string) (a : Axes (list string))
    (fs fs' : FileSystem) :
  rewritten_from q (snd (read_axes q folder a fs)) fs' ->
  fst (read_axes q folder a fs') = fst (read_axes q folder a fs) /\
  forall path,
    content_of (snd (read_axes q folder a fs')) path = content_of fs' path.
Proof.
  unfold read_axes. intros H.
  pose proof (read_files_again q folder (x a) fs fs') as Ax.
  destruct (read_files q folder (x a) fs) as [rx fs1]. cbn [fst snd] in Ax.
  destruct rx as [dfx|e].
  - pose proof (read_files_rewritten q folder (y a) fs1) as R2.
    pose proof (fun s => read_files_again q folder (y a) fs1 s) as Ay.
    destruct (read_files q folder (y a) fs1) as [ry fs2]. cbn [fst snd] in *.
    destruct ry as [dfy|e].
    + pose proof (read_files_rewritten q folder (z a) fs2) as R3.
      pose proof (fun s => read_files_again q folder (z a) fs2 s) as Az.
      destruct (read_files q folder (z a) fs2) as [rz fs3]. cbn [fst snd] in *.
      assert (H3 : rewritten_from q fs3 fs') by (destruct rz; exact H).
      clear H.
      assert (H2 : rewritten_from q fs2 fs')
        by (eapply rewritten_from_trans; eassumption).
      assert (H1 : rewritten_from q fs1 fs')
        by (eapply rewritten_from_trans; eassumption).
      destruct (Ax H1) as [Ex Sx].
      destruct (read_files q folder (x a) fs') as [rx' s1]. cbn [fst snd] in *.
      subst rx'.
      destruct (Ay s1 (rewritten_from_ext _ _ _ _ H2 Sx)) as [Ey Sy].
      destruct (read_files q folder (y a) s1) as [ry' s2]. cbn [fst snd] in *.
      subst ry'.
      assert (S2 : forall p, content_of s2 p = content_of fs' p)
        by (intros p; rewrite Sy; apply Sx).
      destruct (Az s2 (rewritten_from_ext _ _ _ _ H3 S2)) as [Ez Sz].
      destruct (read_files q folder (z a) s2) as [rz' s3]. cbn [fst snd] in *.
      subst rz'.
      assert (S3 : forall p, content_of s3 p = content_of fs' p)
        by (intros p; rewrite Sz; apply S2).
      destruct rz as [dfz|e]; cbn [fst snd]; split; try reflexivity; exact S3.
    + assert (H1 : rewritten_from q fs1 fs')
        by (eapply rewritten_from_trans; eassumption).
      destruct (Ax H1) as [Ex Sx].
      destruct (read_files q folder (x a) fs') as [rx' s1]. cbn [fst snd] in *.
      subst rx'.
      destruct (Ay s1 (rewritten_from_ext _ _ _ _ H Sx)) as [Ey Sy].
      destruct (read_files q folder (y a) s1) as [ry' s2]. cbn [fst snd] in *.
      subst ry'. cbn [fst snd]. split; [reflexivity|].
      intros p. rewrite Sy. apply Sx.
  - cbn [fst snd] in *. destruct (Ax H) as [Ex Sx].
    destruct (read_files q folder (x a) fs') as [rx' s1]. cbn [fst snd] in *.
    subst rx'. cbn [fst snd]. split; [reflexivity|exact Sx].
Qed.


(** X17. A reader of a folder run a second time returns what it returned
    the first time (the same frames, or the same error) and changes no
    file: every text the first run left is left as it is, also when the
    first run failed part of the way. *)
Theorem get_data_twice (q : Quantity) (parent_folder : string)
    (fs : FileSystem) :
  let once := get_data q parent_folder fs in
  let twice := get_data q parent_folder (snd once) in
  fst twice = fst once /\
  listing (snd twice) = listing (snd once) /\
  forall path, content_of (snd twice) path = content_of (snd once) path.
Proof.
  cbv zeta.
  destruct (listing fs (data_path parent_folder q)) as [files|] eqn:E.
  - pose proof (get_data_lawful q parent_folder fs files E) as [L1 _].
    assert (E1 : listing (snd (get_data q parent_folder fs))
                         (data_path parent_folder q) = Some files)
      by (rewrite L1; exact E).
    pose proof (get_data_lawful q parent_folder _ files E1) as [L2 _].
    split; [|split; [exact L2|]].
    + rewrite (get_data_axes q parent_folder (snd (get_data q parent_folder fs))).
      rewrite E1. rewrite (get_data_axes q parent_folder fs), E.
      exact (proj1 (read_axes_again q _ _ fs _ (rewritten_from_refl q _))).
    + rewrite (get_data_axes q parent_folder (snd (get_data q parent_folder fs))).
      rewrite E1. rewrite (get_data_axes q parent_folder fs), E.
      exact (proj2 (read_axes_again q _ _ fs _ (rewritten_from_refl q _))).
  - rewrite (get_data_missing_folder q parent_folder fs E). cbn [snd].
    rewrite (get_data_missing_folder q parent_folder fs E). cbn [fst snd].
    auto.
Qed.

(** ** The names [bookmark_pdf] makes *)

Lemma str_take_app_length (a b : string) :
  Py.str_take (String.length a) (a +:+ b) = a.
Proof.
  induction a as [|c a IH]; [destruct b; reflexivity|].
  rewrite app_cons. cbn [String.length Py.str_take]. rewrite IH. reflexivity.
Qed.

Lemma slice_to_suffix4 (a b : string) :
  String.length b = 4%nat -> Py.slice_to (a +:+ b) (-4) = a.
Proof.
  intros Hb. unfold Py.slice_to. cbn [Z.ltb Z.compare].
  rewrite app_length_s, Hb.
  replace (Z.to_nat (Z.of_nat (String.length a + 4) + -4)) with (String.length a)
    by lia.
  apply str_take_app_length.
Qed.

Lemma startswith_refl (s t : string) : Py.startswith s (s +:+ t) = true.
Proof.
  induction s as [|c s IH]; [destruct t; reflexivity|].
  rewrite app_cons. cbn [Py.startswith]. unfold Py.ascii_eqb.
  rewrite Ascii.eqb_refl. exact IH.
Qed.

Lemma contains_app_r (sub a : string) : Py.contains sub (a +:+ sub) = true.
Proof.
  unfold Py.contains. induction a as [|c a IH].
  - rewrite app_empty_l, index_of_eq.
    rewrite <- (app_empty_r sub) at 2. rewrite startswith_refl. reflexivity.
  - rewrite app_cons, index_of_eq.
    destruct (Py.startswith sub (String c (a +:+ sub))); [reflexivity|].
    destruct (Py.index_of sub (a +:+ sub)); [reflexivity|discriminate].
Qed.

(** X18. [bookmark_pdf] opens the file under the name given, with [.pdf]
    added when [.pdf] does not occur in it, shows the structure first
    when asked to, and has the result saved beside the original: for a
    name without [.pdf] under that name followed by [_bookmarked.pdf], for
    a name that ends with [.pdf] under the name with this ending replaced
    by [_bookmarked.pdf].  The structure is passed on unchanged. *)
Theorem bookmark_pdf_names (Structure : Type) (name : string)
    (bookmark_structure : Structure) (view_structure : bool) :
  let shown := if view_structure then [view bookmark_structure] else [] in
  (Py.contains ".pdf" name = false ->
   bookmark_pdf name bookmark_structure view_structure
   = [PdfFile (name +:+ ".pdf")] ++ shown
       ++ [pdf_bookmark_pdf bookmark_structure (name +:+ "_bookmarked.pdf")]) /\
  bookmark_pdf (name +:+ ".pdf") bookmark_structure view_structure
  = [PdfFile (name +:+ ".pdf")] ++ shown
      ++ [pdf_bookmark_pdf bookmark_structure (name +:+ "_bookmarked.pdf")].
Proof.
  cbv zeta. unfold bookmark_pdf. split.
  - intros ->. cbn [negb]. rewrite slice_to_suffix4 by reflexivity. reflexivity.
  - rewrite contains_app_r. cbn [negb].
    rewrite slice_to_suffix4 by reflexivity. reflexivity.
Qed.

Lemma bookmark_pdf_names_witness :
  bookmark_pdf "report" tt true
  = [PdfFile "report.pdf"; view tt; pdf_bookmark_pdf tt "report_bookmarked.pdf"] /\
  bookmark_pdf "report.pdf.old" tt false
  = [PdfFile "report.pdf.old"; pdf_bookmark_pdf tt "report.pdf_bookmarked.pdf"].
Proof.
  split; [|reflexivity].
  apply (proj1 (bookmark_pdf_names unit "report" tt true)). reflexivity.
Defined.

(** ** The labels of the frames read *)

Lemma read_file_columns (q : Quantity) (c : string) (df : DataFrame) :
  snd (read_file q c) = Ok df ->
  columns df = raw_columns q /\ rectangular df.
Proof.
  unfold read_file, rectangular. cbn [snd]. intros H.
  apply bind_ok in H as (df0 & Hread & Hnorm).
  destruct (read_csv_shape _ _ Hread) as [Hcols Hrows].
  destruct q; cbn [normalize raw_columns] in *.
  - inversion Hnorm. subst df. rewrite Hcols. split; [reflexivity|exact Hrows].
  - destruct (scale_deformation_rows df0 df Hcols Hrows Hnorm) as [Hc Hv].
    rewrite Hc. split; [reflexivity|]. clear - Hv.
    induction Hv as [|r r' rs rs' (f & a & p & g & _ & _ & ->) _ IH];
      constructor; [reflexivity|exact IH].
  - destruct (add_amplitude_g_rows df0 df Hcols Hrows Hnorm) as [Hc Hv].
    rewrite Hc. split; [reflexivity|]. clear - Hv.
    induction Hv as [|r r' rs rs' (f & a & p & g & _ & _ & ->) _ IH];
      constructor; [reflexivity|exact IH].
Qed.

Lemma read_files_all (q : Quantity) (folder : string) (P : DataFrame -> Prop)
    (files : list string) :
  (forall c df, snd (read_file q c) = Ok df -> P df) ->
  forall fs dfs,
    fst (read_files q folder files fs) = Ok dfs -> Forall P dfs.
Proof.
  intros HP. induction files as [|file files IH]; intros fs dfs H.
  - simpl in H. inversion H. constructor.
  - cbn [read_files] in H.
    destruct (content_of fs (folder +:+ file)) as [c|]; [|discriminate].
    pose proof (HP c) as HPc.
    destruct (read_file q c) as [c' r]. cbn [snd] in HPc.
    destruct r as [df|e]; [|discriminate].
    specialize (IH (write_file fs (folder +:+ file) c')).
    destruct (read_files q folder files _) as [rs fs']. cbn [fst] in *.
    destruct rs as [dfs'|e]; [|discriminate]. cbn [bind] in H.
    inversion H. subst dfs. constructor; [apply HPc; reflexivity|].
    apply IH. reflexivity.
Qed.

(** X19. Every frame a reader returns has the labels of its quantity, in
    this order, and one value per label in every row: [Frequency],
    [Amplitude_g], [Amplitude], [Phase Angle] from [get_acceleration_data];
    [Frequency], [Amplitude], [Phase Angle] from [get_deformation_data]
    and [get_velocity_data]. *)
Theorem get_data_columns (q : Quantity) (parent_folder : string)
    (fs : FileSystem) (t : Axes (Dimms DataFrame)) :
  fst (get_data q parent_folder fs) = Ok t ->
  Forall (fun df => columns df = raw_columns q /\ rectangular df)
         (dimms_list (x t) ++ dimms_list (y t) ++ dimms_list (z t)).
Proof.
  rewrite get_data_axes.
  destruct (listing fs (data_path parent_folder q)) as [files|]; [|discriminate].
  unfold read_axes.
  set (a := sort_by_axis files (mkAxes [] [] [])).
  set (folder := data_path parent_folder q).
  set (P := fun df => columns df = raw_columns q /\ rectangular df).
  assert (HP : forall c df, snd (read_file q c) = Ok df -> P df)
    by (intros c df; apply read_file_columns).
  pose proof (read_files_all q folder P (x a) HP fs) as Fx.
  destruct (read_files q folder (x a) fs) as [rx fs1]. cbn [fst] in Fx.
  destruct rx as [dfx|e]; [|discriminate].
  pose proof (read_files_all q folder P (y a) HP fs1) as Fy.
  destruct (read_files q folder (y a) fs1) as [ry fs2]. cbn [fst] in Fy.
  destruct ry as [dfy|e]; [|discriminate].
  pose proof (read_files_all q folder P (z a) HP fs2) as Fz.
  destruct (read_files q folder (z a) fs2) as [rz fs3]. cbn [fst] in Fz.
  destruct rz as [dfz|e]; [|discriminate].
  cbn [fst]. intros H.
  destruct (dimms dfx) as [tx|e] eqn:Dx; [|discriminate].
  destruct (dimms dfy) as [ty|e] eqn:Dy; [|discriminate].
  destruct (dimms dfz) as [tz|e] eqn:Dz; [|discriminate].
  cbn [bind] in H. inversion H. subst t. cbn [x y z].
  rewrite (dimms_length _ _ Dx), (dimms_length _ _ Dy), (dimms_length _ _ Dz).
  repeat (apply Forall_app; split); auto.
Qed.

Lemma get_data_columns_witness :
  exists t,
    fst (get_data deformation "sim1" unsorted_folder) = Ok t /\
    Forall (fun df => columns df = ["Frequency"; "Amplitude"; "Phase Angle"] /\
                      rectangular df)
           (dimms_list (x t) ++ dimms_list (y t) ++ dimms_list (z t)).
Proof.
  eexists.
  assert (H : fst (get_data deformation "sim1" unsorted_folder) = Ok _)
    by (vm_compute; reflexivity).
  split; [exact H|].
  exact (get_data_columns deformation "sim1" unsorted_folder _ H).
Defined.
